(* ===== verification/_CoqProject ===== *)
-Q . S2P
Prelude.v
Int32.v
JsString.v
TiltCard.v
Types.v
DeviceId.v
Access.v
Marketplace.v
Gemini.v
Upload.v
App.v
Licensing.v
Page.v
Navbar.v
Login.v
LoginView.v
Reader.v
System.v
