(* ===== verification/Prelude.v ===== *)
(** * StudyVerse licensing core: a verification development

    The repository is a React storefront for study documents ("StudyVerse 3D").
    Almost all of it renders UI; the part with state, guards and a security
    contract is the device-binding licence: a purchased or uploaded document is
    locked to the device identifier of the session that bought it, and reading
    or downloading it is refused on any other device.

    ** The program and how its parts interact

    - [src/utils/security.ts] derives the device identifier ([getDeviceId]:
      a 32-bit rolling hash of a fingerprint string, formatted as
      [DEV-<HEX>] and cached in [localStorage]) and offers the binding check
      [verifyDeviceBinding].
    - [src/components/Login.tsx] calls [getDeviceId] once on mount, runs a
      pass-key gate with a three-strike lockout, and hands the key and the
      device identifier to [App.handleLogin] through [onLogin].
    - [src/App.tsx] owns the session state (user, balance, library, catalogue,
      current view, open reader) and the handlers [handleLogin], [handleBuy]
      (guards, confirmation, debit, library grant, binding), [handleUpload]
      (publish, bound to the creator's device) and [handleRead] (the DRM
      check before opening the reader).  It renders [Login] until a session
      exists, then the navbar, the current view (the hero, the market or
      library, or the upload form, mounted only while its view is shown) and
      the reader over all of it while a document is open.
    - [src/components/Marketplace.tsx] filters the catalogue into the market
      and library views and repeats the DRM check in [handleQuickDownload];
      [src/components/Reader.tsx] exports the open document
      ([handleDownload]) without a check of its own.
    - [src/components/UploadModal.tsx] builds the upload draft, optionally
      filled by [src/services/geminiService.ts] ([analyzeDocument], with a
      fixed fallback when the AI call fails).

    ** Files of the development (in dependency order)

    - [Prelude] (this file): JavaScript strings as lists of UTF-16 code units
      ([str] decodes a UTF-8 literal), truthiness, the [js_scope] notations,
      the [js] hint databases and the tactics shared by every file.
    - [Int32]: [ToInt32], [<<] and [| 0] on JavaScript numbers that hold
      integers, with their range and congruence lemmas.
    - [JsString]: [Number.prototype.toString(radix)], [toUpperCase] on ASCII,
      [substring], [substr] and a digit parser used for round trips.
    - [TiltCard]: [src/components/TiltCard.tsx]: the pointer geometry in
      exact rationals, with JavaScript's non-finite results of a division
      by zero as a value, the hover events in the order the browser sends
      them, and the style the card renders.
    - [Types]: the records and enums of [src/types.ts] with decidable
      equality, and the enum's string values.
    - [DeviceId]: [getDeviceId] with [localStorage] a [gmap] passed as
      explicit state and the browser's values in [Env].
    - [Access]: [verifyDeviceBinding], the inline DRM condition, and the
      class [BindingCheck] that states what a binding check promises to its
      clients.
    - [Marketplace]: [src/components/Marketplace.tsx]: the view filter
      [displayDocs], [handleQuickDownload], the buttons each card offers
      and what the view renders (heading, DRM notice, empty state, badges,
      the price label).
    - [Gemini]: [src/services/geminiService.ts]: the requests the service
      sends (model, prompt, JSON schema) and the mapping of every answer,
      failures included, to the value returned.
    - [Upload]: [src/components/UploadModal.tsx] as a step function over its
      fields and the outstanding AI call ([upload_step]: the field setters,
      [handleAIAnalyze] around its [await], and the submitted draft
      [handleSubmit]).  [App]'s upload event accepts every valid form, a
      superset of what the modal reaches; [Page] composes the two.
    - [App]: [AppState], the handlers of [App.tsx], the events the rendered
      page enables ([app_enabled]), their dispatch and the inductive
      [reachable] closure, with the session invariant [app_inv].
    - [Navbar]: [src/components/Navbar.tsx] and the buttons of
      [src/components/Hero.tsx]: the menu, the highlighted item, the
      balance label, and every [setView] call the page offers.
    - [Page]: [App] with its live [UploadModal]: the modal's state next to
      [App]'s, its submit as [App]'s upload event carrying the modal's own
      form, and the unmount and fresh remount when the view changes.
    - [Licensing]: the specification's licensing contract ([Binding],
      [spec_purchase], [spec_authorize]) and the abstraction of the code's
      state onto it.
    - [Login]: the gate's state, with the [await] of the scan and the two
      [setTimeout]s as pending continuations fired by events of their own,
      the step function [login_step] (which returns the [onLogin] call it
      makes) and its invariant [login_inv].
    - [LoginView]: what the gate renders in each status ([render_gate]):
      icon, spinner, device line, and the form (input, scan line, error
      line, submit button) or the locked panel.
    - [Reader]: the export's text ([trim] of the template) and file name,
      with [toUpperCase] a parameter, the study tip, and the rendered
      overlay ([render_reader]: watermark, title, byline, warning, tip and
      tracking log) that [App] draws while a document is open.
    - [System]: the page as a whole, [Login] feeding [App] through
      [onLogin], with [localStorage] after the gate's mount.

    ** What the theorems show (grouped by file)

    - [App]: every reachable state satisfies [app_inv] (non-negative balance;
      every bound entry bound to the session's device and owned; the open
      document passes the check), proved as two invariants: [app_core],
      the device half the other files rely on, and [owned_inv], the
      ownership half.  Every reachable state has only non-negative prices;
      a purchase stopped by a guard changes nothing; a completed purchase
      debits, grants, binds and switches view; bindings are set at most
      once and the library only grows; within a session the DRM refusal
      is unreachable; and only owned catalogue entries can be read or
      exported, although the device check admits any unbound one.
    - [Licensing]: [handleBuy] refines the contract's [purchase] in every
      reachable state, and [verifyDeviceBinding] is its [authorize].
    - [System]: a session is always one of the two member accounts (the
      guest fallback of [handleLogin] is dead code) on the non-empty device
      [getDeviceId] returned.
    - [DeviceId]: the shift-and-subtract loop equals the multiply-by-31
      polynomial hash reduced to 32 bits; every step is exact in doubles;
      every identifier is [DEV-] followed by 1 to 8 upper-case hex digits
      and reads back as [Math.abs(hash)]; two hashes give the same identifier
      exactly when their absolute values agree (so [h] and [-h] collide);
      [getDeviceId] is idempotent and writes storage at most once.
    - [TiltCard]: while the pointer moves inside a card of non-zero size,
      the tilt stays a finite angle of at most 12 degrees and the glow
      inside the card; a card the pointer is not over lies flat and unlit.
      A pointer outside the card (an overflowing child) or a card of zero
      size breaks the bound ([overflow_tilt], [zero_width_tilt]).
    - [Navbar]: the balance label of every reachable session reads back as
      the balance.
    - [Login], [LoginView]: the gate's invariant (attempts in [0..3],
      locked exactly with three attempts and a pending unlock); [onLogin]
      is only called with a valid key and the mounted device; a locked gate
      only accepts the unlock timer; the third failed scan locks; the
      intrusion warning set on lockout is never on screen.
    - [Access], [Marketplace], [Reader]: the binding check's truth table and
      its class instance, the quick download's outcomes, the price label
      reads back as the price, the export is only of an authorized document
      and carries the full device id while its file name carries only the
      constant [DEV-].
    - [Gemini], [Upload]: [analyzeDocument] passes a parsed answer through
      and gives the fallback for every failure; the analysis prompt
      determines a quote-free title and the description; the upload
      modal's invariant (spinner on exactly while a call is outstanding),
      the call's completion and a negative suggestion that blocks the form.
    - Supporting lemmas that are not among the main results: the digit
      loop of [toString(r)] ends within its fuel
      ([JsString.to_string_radix_terminates]); [Page.page_refines] lifts
      [App]'s and the modal's reachability to the composed page;
      [Navbar.setView_offered] and [LoginView.gate_controls] relate the
      enabled events to the rendered buttons; [Reader.reader_view_device]
      reads the overlay of a reachable session.

    ** Modelling choices, bounds and fuel

    - JavaScript numbers are modelled as [Z] wherever the code only ever
      stores integers in them: the hash loop (exact, since every intermediate
      value stays below 2^33 in absolute value, far below 2^53), prices and
      balances (integers in the mock data and the number inputs, whose
      default [step] of 1 rejects fractions).  The ratings are fractions and
      are [Q].
    - [Number.prototype.toString(radix)] recurses on the value; it is a
      [Fixpoint] on a fuel of [Z.log2 n + 1] divisions, which is proved
      enough ([JsString.digits_fuel_enough]) and never binding: more fuel
      gives the same digits ([JsString.to_string_radix_terminates]).
    - Pointer coordinates and sizes are exact rationals: the double
      arithmetic of [handleMouseMove] rounds monotonically, so its bounds
      carry over; the decimal text of a number inside a CSS string is the
      browser's and is kept as the number.
    - [Math.random()], [window.confirm], [new Date()], the browser
      environment and the AI's answers are inputs of the model (event
      arguments, [Env], or a function from requests to answers).
    - [String.prototype.toUpperCase] on the Vietnamese titles of the export
      is a parameter: its full Unicode case mapping is not modelled, and no
      theorem depends on it.  The device identifiers are ASCII, where the
      mapping is [JsString.to_upper].
    - React's state setters are applied at once: every handler of the code
      sets each field at most once, from the closure's values or a [prev]
      updater that sees the state the handler started from, so the batched
      and the immediate semantics agree.

    ** Not modelled

    [vite.config.ts] is build configuration (the React plugin, the base
    path, the output directory and the [process.env.API_KEY] define), not
    program behaviour.  [Hero.tsx] is
    modelled by its two buttons; its text and decorations are static.
    Within modelled components, CSS classes,
    animations and decorative images are presentation; Blob, object URLs and the download link are browser I/O;
    [console.error] is logging.  The tracking log's clock text and the
    export's timestamp are inputs.  No other part of [src/] is left: every
    state-changing handler of every component is a definition here. *)

From stdpp Require Export base list decidable countable strings sets.
From Stdlib Require Export ZArith Lia.

(** ** JavaScript strings *)

(** A JavaScript string is a sequence of UTF-16 code units; [charCodeAt i]
    is the [i]-th element. *)
Abbreviation jsstr := (list Z).

(** String literals of the source.  A Rocq string literal holds the UTF-8
    bytes of the text; [str] decodes them into code points and encodes
    those as UTF-16 code units (surrogate pairs above U+FFFF), which is what
    the JavaScript engine stores for the same literal. *)
Fixpoint utf8_bytes (s : string) : list Z :=
  match s with
  | EmptyString => []
  | String c s' => Z.of_N (Ascii.N_of_ascii c) :: utf8_bytes s'
  end.

Fixpoint decode_utf8 (bs : list Z) : list Z :=
  match bs with
  | [] => []
  | b0 :: r0 =>
    if (b0 <? 128)%Z then b0 :: decode_utf8 r0 else
    match r0 with
    | [] => [65533%Z]
    | b1 :: r1 =>
      if (b0 <? 224)%Z then (Z.land b0 31 * 64 + Z.land b1 63)%Z :: decode_utf8 r1 else
      match r1 with
      | [] => [65533%Z]
      | b2 :: r2 =>
        if (b0 <? 240)%Z
        then (Z.land b0 15 * 4096 + Z.land b1 63 * 64 + Z.land b2 63)%Z :: decode_utf8 r2
        else match r2 with
             | [] => [65533%Z]
             | b3 :: r3 =>
               (Z.land b0 7 * 262144 + Z.land b1 63 * 4096 + Z.land b2 63 * 64
                + Z.land b3 63)%Z :: decode_utf8 r3
             end
      end
    end
  end.

Definition utf16_units (cp : Z) : list Z :=
  if (cp <? 65536)%Z then [cp]
  else [(55296 + (cp - 65536) / 1024)%Z; (56320 + (cp - 65536) mod 1024)%Z].

Definition str (s : string) : jsstr := mjoin (map utf16_units (decode_utf8 (utf8_bytes s))).

(** Truthiness of a string ([if (s)], [!s], [s || d]): only [""] is falsy. *)
Definition truthy_str (s : jsstr) : bool := negb (bool_decide (s = [])).

(** Truthiness of an optional string field ([undefined] is falsy). *)
Definition truthy_opt (o : option jsstr) : bool :=
  match o with
  | Some s => truthy_str s
  | None => false
  end.

(** [a || d] on strings. *)
Definition str_or (s d : jsstr) : jsstr := if truthy_str s then s else d.

(** [Array.prototype.includes] on strings (SameValueZero is [=] here). *)
Definition includes (l : list jsstr) (x : jsstr) : bool := bool_decide (x ∈ l).

(** The newline code unit, for template literals spanning lines. *)
Definition NL : jsstr := [10%Z].

Declare Scope js_scope.
Delimit Scope js_scope with js.
Notation "x === y" := (bool_decide (x = y)) (at level 70, no associativity) : js_scope.
Notation "x !== y" := (negb (bool_decide (x = y))) (at level 70, no associativity) : js_scope.
Open Scope js_scope.

(** ** Shared tactics and hints *)

Create HintDb js discriminated.
Create Rewrite HintDb js_rw.

(** Case on every [bool_decide] in the goal and clean up equalities. *)
Ltac decide_js := repeat (case_bool_decide; simplify_eq/=); try done.

(** Case on every boolean comparison of integers in the goal, innermost
    first (a comparison whose operands contain an [if] waits until that
    [if] is resolved). *)
Ltac no_if t := assert_fails (idtac; match t with context [if _ then _ else _] => idtac end).
Ltac zbool_cases :=
  repeat (match goal with
  | |- context [Z.leb ?a ?b] => no_if a; no_if b; destruct (Z.leb_spec a b)
  | |- context [Z.ltb ?a ?b] => no_if a; no_if b; destruct (Z.ltb_spec a b)
  | |- context [Z.geb ?a ?b] => no_if a; no_if b; destruct (Z.geb_spec a b)
  | |- context [Z.eqb ?a ?b] => no_if a; no_if b; destruct (Z.eqb_spec a b)
  end; simpl).

Lemma truthy_str_true s : truthy_str s = true <-> s <> [].
Proof. unfold truthy_str. case_bool_decide; simpl; split; intros; congruence. Qed.

Lemma truthy_str_false s : truthy_str s = false <-> s = [].
Proof. unfold truthy_str. case_bool_decide; simpl; split; intros; congruence. Qed.

Lemma truthy_opt_true o : truthy_opt o = true <-> exists s, o = Some s /\ s <> [].
Proof.
  destruct o as [s|]; simpl; [rewrite truthy_str_true|]; split;
    intros; repeat match goal with H : exists _, _ |- _ => destruct H end;
    intuition congruence || eauto.
Qed.

Lemma truthy_opt_false o : truthy_opt o = false <-> o = None \/ o = Some [].
Proof.
  destruct o as [s|]; simpl; [rewrite truthy_str_false|]; intuition congruence.
Qed.

Lemma includes_true l x : includes l x = true <-> x ∈ l.
Proof. unfold includes. apply bool_decide_eq_true. Qed.

Lemma includes_false l x : includes l x = false <-> x ∉ l.
Proof. unfold includes. apply bool_decide_eq_false. Qed.

Lemma includes_snoc l x y : includes (l ++ [y]) x = includes l x || bool_decide (x = y).
Proof.
  unfold includes. repeat case_bool_decide; simpl; set_solver.
Qed.

Lemma truthy_cons c s : truthy_str (c :: s) = true.
Proof. done. Qed.

Lemma str_or_truthy s d : s <> [] -> str_or s d = s.
Proof. intros H. unfold str_or. by rewrite (proj2 (truthy_str_true s) H). Qed.

Lemma str_or_nil d : str_or [] d = d.
Proof. done. Qed.

#[export] Hint Resolve truthy_cons : js.
#[export] Hint Rewrite str_or_nil truthy_cons : js_rw.

(** ** Generic list lemmas *)

Lemma prefix_snoc {A} (l : list A) x : l `prefix_of` l ++ [x].
Proof. by apply prefix_app_r. Qed.

#[export] Hint Resolve prefix_snoc : js.

Lemma Forall2_map_in {A B} (P : A -> B -> Prop) (f : A -> B) (l : list A) :
  (forall x, x ∈ l -> P x (f x)) -> Forall2 P l (map f l).
Proof.
  induction l as [|x l IH]; intros H; simpl; constructor.
  - apply H. by left.
  - apply IH. intros y Hy. apply H. by right.
Qed.

Lemma Forall2_refl_in {A} (P : A -> A -> Prop) (l : list A) :
  (forall x, x ∈ l -> P x x) -> Forall2 P l l.
Proof. intros H. rewrite <- (map_id l) at 2. by apply Forall2_map_in. Qed.

Lemma filter_app_snoc {A} (p : A -> bool) (l : list A) x :
  List.filter p (l ++ [x]) = List.filter p l ++ (if p x then [x] else []).
Proof. rewrite List.filter_app. simpl. by destruct (p x). Qed.

Example str_utf16 : str "Giải 👑" = [71; 105; 7843; 105; 32; 55357; 56401]%Z.
Proof. reflexivity. Qed.
