(* ===== verification/Int32.v ===== *)
(** * 32-bit integer operators of JavaScript

    [src/utils/security.ts] computes its hash with [x << 5] and [x |= 0].
    On a JavaScript number holding an integer these are ECMAScript's
    [ToInt32] conversion followed by the 32-bit two's complement operation.
    This file defines them on [Z] (the numbers involved are integers) and
    proves the range and congruence facts the hash proofs use. *)

From S2P Require Import Prelude.
Open Scope Z_scope.

(** ECMAScript [ToInt32] on an integral number: reduce modulo 2^32 and map
    [2^31 .. 2^32-1] to the negative range. *)
Definition ToInt32 (x : Z) : Z :=
  let m := x mod 4294967296 in
  if m >=? 2147483648 then m - 4294967296 else m.

(** ECMAScript [ToUint32] on an integral number. *)
Definition ToUint32 (x : Z) : Z := x mod 4294967296.

(** [x << y] (Number::leftShift): shift [ToInt32 x] by [ToUint32 y mod 32]
    bits and keep the low 32 bits as a signed value. *)
Definition js_shl (x y : Z) : Z :=
  ToInt32 (Z.shiftl (ToInt32 x) (ToUint32 y mod 32)).

(** [x | y] (Number::bitwiseOR) on the two [ToInt32] images. *)
Definition js_bor (x y : Z) : Z := Z.lor (ToInt32 x) (ToInt32 y).

(** The signed 32-bit range. *)
Definition is_int32 (x : Z) : Prop := -2147483648 <= x < 2147483648.

#[export] Instance is_int32_dec x : Decision (is_int32 x).
Proof. unfold is_int32. apply _. Defined.

(** ** Range and congruence *)

Lemma ToInt32_spec x :
  exists k, ToInt32 x = x + k * 4294967296 /\ is_int32 (ToInt32 x).
Proof.
  unfold ToInt32, is_int32.
  pose proof (Z.mod_pos_bound x 4294967296 ltac:(lia)).
  pose proof (Z.div_mod x 4294967296 ltac:(lia)).
  destruct (Z.geb_spec (x mod 4294967296) 2147483648).
  - exists (- (x / 4294967296) - 1). split; lia.
  - exists (- (x / 4294967296)). split; lia.
Qed.

Lemma ToInt32_range x : is_int32 (ToInt32 x).
Proof. by destruct (ToInt32_spec x) as (k & _ & ?). Qed.

Lemma ToInt32_id x : is_int32 x -> ToInt32 x = x.
Proof.
  unfold is_int32, ToInt32. intros Hx.
  destruct (Z.ltb_spec x 0).
  - assert (x mod 4294967296 = x + 4294967296) as ->
      by (symmetry; apply Z.mod_unique with (-1); lia).
    destruct (Z.geb_spec (x + 4294967296) 2147483648); lia.
  - rewrite Z.mod_small by lia. destruct (Z.geb_spec x 2147483648); lia.
Qed.

Lemma ToInt32_add_mult x k : ToInt32 (x + k * 4294967296) = ToInt32 x.
Proof. unfold ToInt32. by rewrite Z_mod_plus_full. Qed.

(** [ToInt32] depends only on the residue modulo 2^32. *)
Lemma ToInt32_cong x y : x mod 4294967296 = y mod 4294967296 -> ToInt32 x = ToInt32 y.
Proof. unfold ToInt32. by intros ->. Qed.

Lemma ToInt32_mod x : ToInt32 x mod 4294967296 = x mod 4294967296.
Proof.
  destruct (ToInt32_spec x) as (k & -> & _). apply Z_mod_plus_full.
Qed.

Lemma ToInt32_idem x : ToInt32 (ToInt32 x) = ToInt32 x.
Proof. apply ToInt32_id, ToInt32_range. Qed.

(** Inner [ToInt32]s can be dropped under an outer one. *)
Lemma ToInt32_inner_add a b : ToInt32 (ToInt32 a + b) = ToInt32 (a + b).
Proof.
  destruct (ToInt32_spec a) as (k & -> & _).
  replace (a + k * 4294967296 + b) with (a + b + k * 4294967296) by lia.
  apply ToInt32_add_mult.
Qed.

Lemma ToInt32_inner_mul a b : ToInt32 (b * ToInt32 a) = ToInt32 (b * a).
Proof.
  destruct (ToInt32_spec a) as (k & -> & _).
  replace (b * (a + k * 4294967296)) with (b * a + (b * k) * 4294967296) by lia.
  apply ToInt32_add_mult.
Qed.

Lemma ToInt32_inner_lin k a c : ToInt32 (k * ToInt32 a + c) = ToInt32 (k * a + c).
Proof.
  destruct (ToInt32_spec a) as (j & -> & _).
  replace (k * (a + j * 4294967296) + c) with (k * a + c + (k * j) * 4294967296) by lia.
  apply ToInt32_add_mult.
Qed.

(** The residue classes of [ToInt32] are exactly those of [mod 2^32]. *)
Lemma ToInt32_eq_iff x y :
  ToInt32 x = ToInt32 y <-> x mod 4294967296 = y mod 4294967296.
Proof.
  split; [|apply ToInt32_cong].
  intros H. by rewrite <- (ToInt32_mod x), <- (ToInt32_mod y), H.
Qed.

#[export] Hint Resolve ToInt32_range : js.
#[export] Hint Rewrite ToInt32_idem ToInt32_inner_add ToInt32_inner_mul : js_rw.

(** ** The operators at the arguments the code uses *)

Lemma js_shl_5 x : js_shl x 5 = ToInt32 (32 * x).
Proof.
  unfold js_shl. change (ToUint32 5 mod 32) with 5.
  rewrite Z.shiftl_mul_pow2 by lia. change (2 ^ 5) with 32.
  rewrite Z.mul_comm. apply ToInt32_inner_mul.
Qed.

Lemma js_bor_0 x : js_bor x 0 = ToInt32 x.
Proof. unfold js_bor. change (ToInt32 0) with 0. apply Z.lor_0_r. Qed.

Lemma js_bor_range x y : is_int32 (js_bor x y).
Proof.
  unfold js_bor, is_int32.
  pose proof (ToInt32_range x) as [Hx1 Hx2].
  pose proof (ToInt32_range y) as [Hy1 Hy2].
  set (a := ToInt32 x) in *. set (b := ToInt32 y) in *.
  (* A 32-bit two's complement value is one whose bits from 31 upward all
     equal its sign; [Z.lor] keeps that shape. *)
  assert (Hs : forall z, -2147483648 <= z < 2147483648 <->
                 Z.shiftr z 31 = 0 \/ Z.shiftr z 31 = -1).
  { intros z. rewrite Z.shiftr_div_pow2 by lia. change (2 ^ 31) with 2147483648.
    split.
    - intros Hz. destruct (Z.ltb_spec z 0).
      + right. symmetry. apply Z.div_unique with (z + 2147483648); lia.
      + left. apply Z.div_small. lia.
    - pose proof (Z.div_mod z 2147483648 ltac:(lia)).
      pose proof (Z.mod_pos_bound z 2147483648 ltac:(lia)). lia. }
  apply Hs. rewrite Z.shiftr_lor.
  destruct (proj1 (Hs a) (conj Hx1 Hx2)) as [-> | ->];
  destruct (proj1 (Hs b) (conj Hy1 Hy2)) as [-> | ->]; auto.
Qed.
