(* ===== verification/JsString.v ===== *)
(** * JavaScript string builtins used by the licensing code

    [Number.prototype.toString(radix)] (hex device identifiers, decimal
    template interpolation of the screen size), [String.prototype.toUpperCase]
    on ASCII text, [substring] and [substr].  Digits are produced by a
    [Fixpoint] on a fuel of [Z.log2 n + 1] steps; [radix_digits_enough]
    shows the fuel never runs out, and [parse_to_string_radix] shows the
    digits denote the number (the round trip through a positional parser). *)

From S2P Require Import Prelude.
Open Scope Z_scope.

(** ** [Number.prototype.toString(radix)] on integers *)

(** The character of a digit: ['0'..'9'] then ['a'..'z']. *)
Definition digit_char (d : Z) : Z := if d <? 10 then 48 + d else 87 + d.

(** Digits of [n >= 0], most significant first, with [fuel] divisions. *)
Fixpoint radix_digits (fuel : nat) (r n : Z) : jsstr :=
  match fuel with
  | O => []
  | S f =>
      (if n / r =? 0 then [] else radix_digits f r (n / r)) ++ [digit_char (n mod r)]
  end.

Definition digits_fuel (n : Z) : nat := S (Z.to_nat (Z.log2 n)).

(** [n.toString(r)] for an integer [n]: a minus sign for negatives, then the
    digits of the magnitude. *)
Definition to_string_radix (r n : Z) : jsstr :=
  if n <? 0 then str "-" ++ radix_digits (digits_fuel (- n)) r (- n)
  else radix_digits (digits_fuel n) r n.

(** [String.prototype.toUpperCase] restricted to ASCII letters, which is
    all the code applies it to (the output of [toString(16)]). *)
Definition to_upper_char (c : Z) : Z := if (97 <=? c) && (c <=? 122) then c - 32 else c.
Definition to_upper (s : jsstr) : jsstr := map to_upper_char s.

(** ** [substring] and [substr] with integer arguments *)

Definition clamp (lo hi x : Z) : Z := Z.max lo (Z.min hi x).

(** [s.substring(a, b)]: clamp both ends to [0, length], swap if reversed. *)
Definition substring (s : jsstr) (a b : Z) : jsstr :=
  let len := Z.of_nat (length s) in
  let a' := clamp 0 len a in
  let b' := clamp 0 len b in
  let lo := Z.min a' b' in
  let hi := Z.max a' b' in
  take (Z.to_nat (hi - lo)) (drop (Z.to_nat lo) s).

(** [s.substr(start, length)] (Annex B): a negative start counts from the
    end; the result has at most [length] code units. *)
Definition substr (s : jsstr) (start n : Z) : jsstr :=
  let size := Z.of_nat (length s) in
  let st := if start <? 0 then Z.max (size + start) 0 else Z.min start size in
  let e := Z.min (st + Z.max n 0) size in
  take (Z.to_nat (e - st)) (drop (Z.to_nat st) s).

(** ** A positional parser, the inverse used to state the round trip *)

Definition digit_val (c : Z) : Z :=
  if (48 <=? c) && (c <=? 57) then c - 48
  else if (97 <=? c) && (c <=? 122) then c - 87
  else if (65 <=? c) && (c <=? 90) then c - 55
  else 36.

Definition parse_radix (r : Z) (s : jsstr) : Z :=
  fold_left (fun acc c => acc * r + digit_val c) s 0.

(** ** Lemmas *)

Section Radix.
Context (r : Z) (Hr : 2 <= r <= 36).

Lemma parse_radix_snoc s c : parse_radix r (s ++ [c]) = parse_radix r s * r + digit_val c.
Proof. unfold parse_radix. by rewrite fold_left_app. Qed.

Lemma digit_val_char d : 0 <= d < r -> digit_val (digit_char d) = d.
Proof.
  intros Hd. unfold digit_char, digit_val.
  zbool_cases; lia.
Qed.

Lemma radix_digits_enough f n :
  0 <= n < r ^ Z.of_nat f -> parse_radix r (radix_digits f r n) = n.
Proof.
  revert n. induction f as [|f IH]; intros n Hn.
  { change (Z.of_nat 0) with 0 in Hn. rewrite Z.pow_0_r in Hn.
    assert (n = 0) as -> by lia. done. }
  rewrite Nat2Z.inj_succ, Z.pow_succ_r in Hn by lia. simpl.
  pose proof (Z.div_mod n r ltac:(lia)).
  pose proof (Z.mod_pos_bound n r ltac:(lia)).
  assert (0 <= n / r < r ^ Z.of_nat f).
  { split; [apply Z.div_pos; lia|]. apply Z.div_lt_upper_bound; lia. }
  rewrite parse_radix_snoc, digit_val_char by lia.
  destruct (Z.eqb_spec (n / r) 0) as [Hq|Hq].
  - rewrite Hq in *. unfold parse_radix at 1. simpl. lia.
  - rewrite IH by lia. lia.
Qed.

Lemma digits_fuel_enough n : 0 <= n -> n < r ^ Z.of_nat (digits_fuel n).
Proof.
  intros Hn. unfold digits_fuel. rewrite Nat2Z.inj_succ, Z2Nat.id by apply Z.log2_nonneg.
  apply Z.lt_le_trans with (2 ^ Z.succ (Z.log2 n)).
  - destruct (Z.eqb_spec n 0) as [->|]; [done|]. apply Z.log2_spec. lia.
  - apply Z.pow_le_mono_l. lia.
Qed.

(** Round trip: the digits of [n >= 0] read back as [n]. *)
Lemma parse_to_string_radix n : 0 <= n -> parse_radix r (to_string_radix r n) = n.
Proof.
  intros Hn. unfold to_string_radix. destruct (Z.ltb_spec n 0); [lia|].
  apply radix_digits_enough. split; [done|]. by apply digits_fuel_enough.
Qed.

Lemma radix_digits_length f n k :
  (1 <= k)%nat -> 0 <= n < r ^ Z.of_nat k -> (length (radix_digits f r n) <= k)%nat.
Proof.
  revert n k. induction f as [|f IH]; intros n k Hk Hn; simpl; [lia|].
  rewrite length_app. simpl.
  destruct (Z.eqb_spec (n / r) 0) as [Hq|Hq]; simpl; [lia|].
  destruct k as [|k]; [lia|].
  rewrite Nat2Z.inj_succ, Z.pow_succ_r in Hn by lia.
  assert (n >= r).
  { destruct (Z.ltb_spec n r); [|lia]. rewrite Z.div_small in Hq; lia. }
  assert (0 <= n / r < r ^ Z.of_nat k).
  { split; [apply Z.div_pos; lia|]. apply Z.div_lt_upper_bound; lia. }
  destruct k as [|k]; [simpl in *; lia|].
  pose proof (IH (n / r) (S k) ltac:(lia) ltac:(done)). lia.
Qed.

(** Once [n < r ^ f], the loop stops within [f] divisions: more fuel is
    never used. *)
Lemma radix_digits_fuel_stable f k n :
  (1 <= f)%nat -> 0 <= n < r ^ Z.of_nat f -> radix_digits (f + k) r n = radix_digits f r n.
Proof.
  revert n. induction f as [|f IH]; intros n Hf Hn; [lia|].
  rewrite Nat2Z.inj_succ, Z.pow_succ_r in Hn by lia. simpl.
  destruct (Z.eqb_spec (n / r) 0) as [Hq|Hq]; [done|]. f_equal.
  assert (0 <= n / r < r ^ Z.of_nat f).
  { split; [apply Z.div_pos; lia|]. apply Z.div_lt_upper_bound; lia. }
  destruct f as [|f]; [simpl in *; lia|]. rewrite IH; [done|lia|done].
Qed.

(** The digit loop of [n.toString(r)] on [n >= 0] ends
    within [Z.log2 n + 1] divisions: running it with any larger fuel gives
    the same digits, so the model's fuel never cuts the loop short. *)
Theorem to_string_radix_terminates n k :
  0 <= n -> radix_digits (digits_fuel n + k) r n = to_string_radix r n.
Proof.
  intros Hn. unfold to_string_radix. destruct (Z.ltb_spec n 0); [lia|].
  apply radix_digits_fuel_stable; [unfold digits_fuel; lia|]. split; [done|].
  by apply digits_fuel_enough.
Qed.

(** Every character is the digit of a value below [r]. *)
Lemma radix_digits_chars f n :
  0 <= n -> Forall (fun c => exists d, 0 <= d < r /\ c = digit_char d) (radix_digits f r n).
Proof.
  revert n. induction f as [|f IH]; intros n Hn; simpl; [done|].
  apply Forall_app; split.
  - destruct (n / r =? 0); [done|]. apply IH, Z.div_pos; lia.
  - constructor; [|done]. exists (n mod r). split; [apply Z.mod_pos_bound; lia|done].
Qed.

End Radix.

Lemma digit_val_upper d : 0 <= d < 36 -> digit_val (to_upper_char (digit_char d)) = d.
Proof.
  intros Hd. unfold digit_char, to_upper_char, digit_val.
  zbool_cases; lia.
Qed.

(** Upper-casing the digits of [n] does not change the number they denote. *)
Lemma parse_upper_digits r f n :
  2 <= r <= 36 -> 0 <= n ->
  parse_radix r (to_upper (radix_digits f r n)) = parse_radix r (radix_digits f r n).
Proof.
  intros Hr Hn. pose proof (radix_digits_chars r Hr f n Hn) as Hc.
  unfold parse_radix, to_upper. generalize 0 as a.
  induction Hc as [|c s [d [Hd ->]] _ IH]; intros a; simpl; [done|].
  rewrite digit_val_upper, (digit_val_char r) by lia. apply IH.
Qed.

Lemma to_string_radix_nonneg r n :
  0 <= n -> to_string_radix r n = radix_digits (digits_fuel n) r n.
Proof. intros Hn. unfold to_string_radix. by destruct (Z.ltb_spec n 0); [lia|]. Qed.

Lemma radix_digits_nonempty f r n : (1 <= f)%nat -> radix_digits f r n <> [].
Proof. destruct f; simpl; [lia|]. intros _ H. by apply app_eq_nil in H as [_ ?]. Qed.

(** Round trip through upper case, as used for device identifiers. *)
Lemma parse_upper_to_string r n :
  2 <= r <= 36 -> 0 <= n -> parse_radix r (to_upper (to_string_radix r n)) = n.
Proof.
  intros Hr Hn. rewrite to_string_radix_nonneg, parse_upper_digits by done.
  rewrite <- to_string_radix_nonneg by done. by apply parse_to_string_radix.
Qed.

Lemma take_drop_app_l (s t : jsstr) : take (length s) (drop 0 (s ++ t)) = s.
Proof. rewrite drop_0. apply take_app_length. Qed.

(** [(p + s).substr(0, p.length)] is [p]. *)
Lemma substr_0_prefix (p s : jsstr) : substr (p ++ s) 0 (Z.of_nat (length p)) = p.
Proof.
  unfold substr. rewrite length_app. simpl.
  replace (Z.min 0 (Z.of_nat (length p + length s))) with 0 by lia.
  replace (Z.min (0 + Z.max (Z.of_nat (length p)) 0) (Z.of_nat (length p + length s)))
    with (Z.of_nat (length p)) by lia.
  rewrite Z.sub_0_r, Nat2Z.id. apply take_drop_app_l.
Qed.

(** ** Witnesses *)

Lemma to_string_radix_terminates_witness :
  (2 <= 16 <= 36 /\ 0 <= 255) /\ radix_digits (digits_fuel 255 + 5) 16 255 = to_string_radix 16 255.
Proof. split; [lia|]. apply to_string_radix_terminates; lia. Defined.
