(* ===== verification/TiltCard.v ===== *)
(** * The tilting card: [src/components/TiltCard.tsx]

    The card keeps [rotate], [glow] and [isHovered] in state.
    [handleMouseMove] reads the card's bounding rectangle and tilts it by
    up to 12 degrees towards the pointer, and moves a radial glow under it;
    [handleMouseEnter] and [handleMouseLeave] toggle the hover and reset the
    tilt and the glow's opacity.  The render turns the state into the
    card's style.

    Coordinates are JavaScript numbers.  The model computes with exact
    rationals [Q]; a division by zero, which JavaScript answers with [NaN]
    or an infinity, is the value [NonFinite].  The bounds proved in [Q]
    also hold in doubles: the code divides by [2] (exact) and otherwise
    applies subtractions, divisions and multiplications whose rounding is
    monotone, to operands that the bounds already order.

    The browser sends [mousemove] and [mouseleave] only between a
    [mouseenter] and the next [mouseleave]; [tilt_enabled] encodes that
    order.  It does not promise that the pointer lies inside the card's
    rectangle: a child overflowing the card bubbles its moves to it. *)

From S2P Require Import Prelude.
From Stdlib Require Import QArith Qfield Lqa.

(** A JavaScript number produced by the geometry: finite, or [NaN] /
    [±Infinity]. *)
Inductive Num := Fin (q : Q) | NonFinite.

(** [a / b] *)
Definition js_div (a b : Q) : Num := if Qeq_bool b 0 then NonFinite else Fin (a / b).

(** [n * k] for a finite [k] *)
Definition num_scale (n : Num) (k : Q) : Num :=
  match n with Fin q => Fin (q * k) | NonFinite => NonFinite end.

(** [getBoundingClientRect()] *)
Record Rect := mkRect { rect_left : Q; rect_top : Q; rect_width : Q; rect_height : Q }.

Record TiltState := mkTiltState {
  rotate_x : Num;
  rotate_y : Num;
  glow_x : Num;
  glow_y : Num;
  glow_opacity : Q;
  isHovered : bool
}.

(** [useState({ x: 0, y: 0 })], [useState({ x: 50, y: 50, opacity: 0 })],
    [useState(false)] *)
Definition tilt_init : TiltState := mkTiltState (Fin 0) (Fin 0) (Fin 50) (Fin 50) 0 false.

(** [rect] is [None] when [cardRef.current] is not attached. *)
Definition handleMouseMove (rect : option Rect) (clientX clientY : Q) (st : TiltState) : TiltState :=
  match rect with
  | None => st
  | Some r =>
      let x := clientX - rect_left r in
      let y := clientY - rect_top r in
      let centerX := rect_width r / 2 in
      let centerY := rect_height r / 2 in
      let rotateX := num_scale (js_div (y - centerY) centerY) (-12) in
      let rotateY := num_scale (js_div (x - centerX) centerX) 12 in
      mkTiltState rotateX rotateY (num_scale (js_div x (rect_width r)) 100)
        (num_scale (js_div y (rect_height r)) 100) 1 (isHovered st)
  end.

Definition handleMouseEnter (st : TiltState) : TiltState :=
  mkTiltState (rotate_x st) (rotate_y st) (glow_x st) (glow_y st) (glow_opacity st) true.

(** [setGlow({ ...glow, opacity: 0 })] *)
Definition handleMouseLeave (st : TiltState) : TiltState :=
  mkTiltState (Fin 0) (Fin 0) (glow_x st) (glow_y st) 0 false.

Inductive TiltEvent :=
  | TMove (rect : option Rect) (clientX clientY : Q)
  | TEnter
  | TLeave.

Definition tilt_enabled (e : TiltEvent) (st : TiltState) : bool :=
  match e with
  | TEnter => negb (isHovered st)
  | TMove _ _ _ | TLeave => isHovered st
  end.

Definition tilt_step (e : TiltEvent) (st : TiltState) : TiltState :=
  match e with
  | TMove r cx cy => handleMouseMove r cx cy st
  | TEnter => handleMouseEnter st
  | TLeave => handleMouseLeave st
  end.

(** The style of the outer and the glow [div]s (numbers are kept as values;
    their decimal text is the browser's). *)
Record TiltStyle := mkTiltStyle {
  style_rotateX : Num;
  style_rotateY : Num;
  style_scale : Q;                  (* scale3d(s, s, s) *)
  style_zIndex : Z;
  style_boxShadow : jsstr;
  style_glow_at : Num * Num;        (* radial-gradient(circle at x% y%, ...) *)
  style_glow_opacity : Q
}.

Definition tilt_style (glowColor : jsstr) (st : TiltState) : TiltStyle :=
  mkTiltStyle (rotate_x st) (rotate_y st) (if isHovered st then 105 # 100 else 1)
    (if isHovered st then 20 else 1)%Z
    (if isHovered st
     then str "0 20px 40px -10px " ++ glowColor ++ str "66, 0 0 20px " ++ glowColor ++ str "33"
     else str "0 0 0 transparent")
    (glow_x st, glow_y st) (glow_opacity st).

(** Runs whose events all satisfy [P]; [tilt_reachable] is every run the
    browser can produce. *)
Inductive tilt_reachable_by (P : TiltEvent -> Prop) : TiltState -> Prop :=
  | tilt_by_init : tilt_reachable_by P tilt_init
  | tilt_by_step st e :
      tilt_reachable_by P st -> tilt_enabled e st = true -> P e -> tilt_reachable_by P (tilt_step e st).

Definition tilt_reachable : TiltState -> Prop := tilt_reachable_by (fun _ => True).

(** The pointer lies in a card of non-zero size. *)
Definition inside (r : Rect) (cx cy : Q) : Prop :=
  (0 < rect_width r)%Q /\ (0 < rect_height r)%Q /\
  (rect_left r <= cx <= rect_left r + rect_width r)%Q /\
  (rect_top r <= cy <= rect_top r + rect_height r)%Q.

Definition move_inside (e : TiltEvent) : Prop :=
  match e with TMove (Some r) cx cy => inside r cx cy | _ => True end.

(** A finite tilt of at most 12 degrees and a glow inside the card. *)
Definition tilt_bounded (st : TiltState) : Prop :=
  exists rx ry gx gy, rotate_x st = Fin rx /\ rotate_y st = Fin ry /\
    glow_x st = Fin gx /\ glow_y st = Fin gy /\
    (-12 <= rx <= 12)%Q /\ (-12 <= ry <= 12)%Q /\ (0 <= gx <= 100)%Q /\ (0 <= gy <= 100)%Q.

(** ** Lemmas *)

Local Open Scope Q_scope.

Lemma js_div_pos a b : 0 < b -> js_div a b = Fin (a / b).
Proof.
  intros Hb. unfold js_div. destruct (Qeq_bool b 0) eqn:E; [|done].
  apply Qeq_bool_eq in E. rewrite E in Hb. by apply Qlt_irrefl in Hb.
Qed.

Lemma js_div_zero a b : b == 0 -> js_div a b = NonFinite.
Proof. intros Hb. unfold js_div. by rewrite (Qeq_eq_bool _ _ Hb). Qed.

Lemma half_pos w : 0 < w -> 0 < w / 2.
Proof. intros Hw. apply Qlt_shift_div_l; [reflexivity|]. lra. Qed.

Lemma ratio_bounds x w : 0 < w -> 0 <= x <= w -> 0 <= x / w <= 1.
Proof.
  intros Hw [H0 H1]. split.
  - apply Qle_shift_div_l; [exact Hw|]. lra.
  - apply Qle_shift_div_r; [exact Hw|]. lra.
Qed.

(** [((x - w/2) / (w/2)) * k] is [(2 * x/w - 1) * k]. *)
Lemma centered_ratio x w : 0 < w -> (x - w / 2) / (w / 2) == 2 * (x / w) - 1.
Proof. intros Hw. field. intros H. rewrite H in Hw. by apply Qlt_irrefl in Hw. Qed.

Lemma tilt_angle_bounds x w k :
  0 < w -> 0 <= x <= w -> (k == 12 \/ k == -12) -> -12 <= (x - w / 2) / (w / 2) * k <= 12.
Proof.
  intros Hw Hx Hk. rewrite centered_ratio by exact Hw.
  pose proof (ratio_bounds x w Hw Hx). destruct Hk as [-> | ->]; lra.
Qed.

Lemma glow_bounds x w : 0 < w -> 0 <= x <= w -> 0 <= x / w * 100 <= 100.
Proof. intros Hw Hx. pose proof (ratio_bounds x w Hw Hx). lra. Qed.

(** One move with the pointer inside the card. *)
Lemma handleMouseMove_inside r cx cy st :
  inside r cx cy -> tilt_bounded (handleMouseMove (Some r) cx cy st).
Proof.
  intros (Hw & Hh & Hx & Hy). simpl.
  rewrite !js_div_pos by (apply half_pos || idtac; assumption).
  do 4 eexists. split_and!; try reflexivity.
  all: first [apply tilt_angle_bounds; [assumption|lra|(left + right); reflexivity]
             | apply glow_bounds; [assumption|lra]].
Qed.

Lemma tilt_bounded_flat gx gy st :
  glow_x st = Fin gx -> glow_y st = Fin gy -> 0 <= gx <= 100 -> 0 <= gy <= 100 ->
  tilt_bounded (mkTiltState (Fin 0) (Fin 0) (glow_x st) (glow_y st) 0 false).
Proof. intros -> -> Hx Hy. exists 0, 0, gx, gy. split_and!; try reflexivity; try lra. Qed.

(** C28 (bounds): as long as every pointer move lies inside a card of
    non-zero size, the card's tilt is a finite angle of at most 12 degrees
    about each axis and the glow's centre stays within the card (0 to 100
    percent), in every state the browser's events can lead to. *)
Theorem tilt_inside_bounded st : tilt_reachable_by move_inside st -> tilt_bounded st.
Proof.
  induction 1 as [|st e Hr IH He Hin].
  { exists 0, 0, 50, 50. split_and!; try reflexivity; lra. }
  destruct e as [[r|] cx cy| |]; simpl.
  - by apply handleMouseMove_inside.
  - exact IH.
  - destruct IH as (rx & ry & gx & gy & ? & ? & ? & ? & ?). exists rx, ry, gx, gy. done.
  - destruct IH as (rx & ry & gx & gy & _ & _ & Hgx & Hgy & _ & _ & ? & ?).
    by apply (tilt_bounded_flat gx gy).
Qed.

(** C29 (invariant): whatever the pointer does, a card the pointer is not
    over lies flat with its glow hidden, and the glow is either hidden or
    fully shown. *)
Theorem tilt_hover_inv P st :
  tilt_reachable_by P st ->
  (isHovered st = false -> rotate_x st = Fin 0 /\ rotate_y st = Fin 0 /\ glow_opacity st = 0) /\
  (glow_opacity st = 0 \/ glow_opacity st = 1).
Proof.
  induction 1 as [|st e Hr [IHf IHo] He _]; [split; [done|by left]|].
  destruct e as [[r|] cx cy| |]; simpl in *.
  - split; [by rewrite He|by right].
  - done.
  - split; [done|exact IHo].
  - split; [done|by left].
Qed.

(** ** Witnesses *)

Definition card_rect : Rect := mkRect 0 0 200 100.

(** The pointer enters the card and moves to its upper right quarter. *)
Definition tilted : TiltState := tilt_step (TMove (Some card_rect) 150 25) (tilt_step TEnter tilt_init).

Lemma tilted_reachable : tilt_reachable_by move_inside tilted.
Proof.
  apply tilt_by_step; [apply tilt_by_step; [constructor|reflexivity|exact I]|reflexivity|].
  unfold move_inside, inside, card_rect. simpl. split_and!; lra.
Qed.

Lemma tilt_inside_bounded_witness : tilt_reachable_by move_inside tilted /\ tilt_bounded tilted.
Proof. split; [apply tilted_reachable|]. apply tilt_inside_bounded, tilted_reachable. Defined.

Lemma tilt_hover_inv_witness :
  tilt_reachable_by move_inside tilted /\
  ((isHovered tilted = false ->
    rotate_x tilted = Fin 0 /\ rotate_y tilted = Fin 0 /\ glow_opacity tilted = 0) /\
   (glow_opacity tilted = 0 \/ glow_opacity tilted = 1)).
Proof. split; [apply tilted_reachable|]. apply (tilt_hover_inv move_inside), tilted_reachable. Defined.

(** The witness's tilt: 6 degrees back and 6 degrees to the right. *)
Example tilted_angles :
  exists rx ry, rotate_x tilted = Fin rx /\ rotate_y tilted = Fin ry /\ rx == 6 /\ ry == 6.
Proof. do 2 eexists. split_and!; reflexivity. Qed.

(** A pointer on a child that overflows the card to twice its width tilts
    it by 36 degrees: the 12-degree bound needs the pointer inside. *)
Example overflow_tilt :
  exists ry, rotate_y (handleMouseMove (Some card_rect) 400 50 tilted) = Fin ry /\ ry == 36.
Proof. eexists. split; reflexivity. Qed.

(** A card laid out with zero width gets a non-finite tilt and glow
    position ([NaN] or an infinity), which makes its CSS transform invalid. *)
Example zero_width_tilt :
  rotate_y (handleMouseMove (Some (mkRect 0 0 0 100)) 0 50 tilted) = NonFinite /\
  glow_x (handleMouseMove (Some (mkRect 0 0 0 100)) 0 50 tilted) = NonFinite.
Proof. split; reflexivity. Qed.
