(* ===== verification/Types.v ===== *)
(** * The data model of [src/types.ts]

    [DocType] and [ViewState] are string enums in the source; they become
    inductive types with the same constructors.  [DocumentItem] and [User]
    are records with the interface's fields.  Field names follow the source
    except [id], which Rocq already uses for the identity function: it is
    [doc_id] in a document and [user_id] in a user.  Optional fields
    ([aiSummary?], [boundDeviceId?]) are [option]s; numbers that only ever
    hold integers ([price], [balance]) are [Z]; [rating] is a [Q]. *)

From S2P Require Import Prelude.
From Stdlib Require Import QArith_base.

Inductive DocType := NOTES | EXAM | BOOK | SLIDE.

#[export] Instance DocType_eq_dec : EqDecision DocType.
Proof. solve_decision. Defined.

(** The string value of each enum member, what [${doc.type}] prints. *)
Definition doc_type_str (t : DocType) : jsstr :=
  match t with NOTES => str "NOTES" | EXAM => str "EXAM" | BOOK => str "BOOK" | SLIDE => str "SLIDE" end.

Record DocumentItem := mkDocumentItem {
  doc_id : jsstr;
  title : jsstr;
  description : jsstr;
  price : Z;                        (* 0 means free *)
  author : jsstr;
  type : DocType;
  tags : list jsstr;
  thumbnailUrl : jsstr;
  aiSummary : option jsstr;
  purchased : bool;
  rating : Q;
  boundDeviceId : option jsstr      (* DRM: locked to this device id upon purchase *)
}.

(** Syntactic equality of ratings, so that documents compare by value. *)
#[export] Instance Q_eq_dec : EqDecision Q.
Proof. solve_decision. Defined.

#[export] Instance DocumentItem_eq_dec : EqDecision DocumentItem.
Proof. solve_decision. Defined.

Record User := mkUser {
  user_id : jsstr;
  name : jsstr;
  balance : Z;
  library : list jsstr;             (* ids of purchased documents *)
  deviceId : jsstr                  (* device id of the logged-in device *)
}.

Inductive ViewState := HOME | MARKET | LIBRARY | UPLOAD.

#[export] Instance ViewState_eq_dec : EqDecision ViewState.
Proof. solve_decision. Defined.

(** [{ ...d, boundDeviceId: dev }] *)
Definition with_boundDeviceId (d : DocumentItem) (dev : option jsstr) : DocumentItem :=
  mkDocumentItem (doc_id d) (title d) (description d) (price d) (author d) (type d)
    (tags d) (thumbnailUrl d) (aiSummary d) (purchased d) (rating d) dev.

(** [{ ...u, balance: b, library: l }] *)
Definition with_balance_library (u : User) (b : Z) (l : list jsstr) : User :=
  mkUser (user_id u) (name u) b l (deviceId u).

Lemma with_boundDeviceId_doc_id d dev : doc_id (with_boundDeviceId d dev) = doc_id d.
Proof. done. Qed.

Lemma with_boundDeviceId_bound d dev : boundDeviceId (with_boundDeviceId d dev) = dev.
Proof. done. Qed.

Lemma with_boundDeviceId_id d : with_boundDeviceId d (boundDeviceId d) = d.
Proof. by destruct d. Qed.

#[export] Hint Rewrite with_boundDeviceId_doc_id with_boundDeviceId_bound
  with_boundDeviceId_id : js_rw.
