(* ===== verification/DeviceId.v ===== *)
(** * Device identity: [getDeviceId] of [src/utils/security.ts]

    [getDeviceId] reads ['secure_device_id'] from [localStorage]; when the
    value is missing or empty it builds a fingerprint string from the user
    agent, the screen size and a random seed, hashes it with the rolling
    32-bit hash [hash = (hash << 5) - hash + char; hash |= 0], formats
    [DEV-] followed by the upper-case hex of [Math.abs(hash)], stores it and
    returns it.

    [localStorage] is a [gmap] passed in and returned ([LocalStorage]); the
    browser values and the text of [Math.random().toString(36)] are the
    fields of [Env], fresh for each call.  The hash's arithmetic is done on
    JavaScript doubles; [hash_step_exact] shows every intermediate value is
    an integer below 2^53, so computing it in [Z] is exact. *)

From stdpp Require Import gmap.
From S2P Require Import Prelude Int32 JsString.
Open Scope Z_scope.

Abbreviation LocalStorage := (gmap jsstr jsstr).

(** What the browser supplies to one call. *)
Record Env := mkEnv {
  userAgent : jsstr;                (* navigator.userAgent *)
  screen_width : Z;                 (* window.screen.width *)
  screen_height : Z;                (* window.screen.height *)
  random_base36 : jsstr             (* Math.random().toString(36) *)
}.

Definition secure_device_id : jsstr := str "secure_device_id".

(** [`${userAgent}-${screenRes}-${randomSeed}`] *)
Definition rawString (env : Env) : jsstr :=
  let screenRes := to_string_radix 10 (screen_width env) ++ str "x"
                   ++ to_string_radix 10 (screen_height env) in
  let randomSeed := substring (random_base36 env) 2 15 in
  userAgent env ++ str "-" ++ screenRes ++ str "-" ++ randomSeed.

(** One iteration of the loop: [hash = (hash << 5) - hash + char; hash |= 0]. *)
Definition hash_step (hash char : Z) : Z := js_bor (js_shl hash 5 - hash + char) 0.

(** The loop over [rawString.charCodeAt(i)], starting from [hash = 0]. *)
Definition hash_string (s : jsstr) : Z := fold_left hash_step s 0.

(** [`DEV-${Math.abs(hash).toString(16).toUpperCase()}`] *)
Definition device_id_of_hash (hash : Z) : jsstr :=
  str "DEV-" ++ to_upper (to_string_radix 16 (Z.abs hash)).

Definition getDeviceId (env : Env) (ls : LocalStorage) : jsstr * LocalStorage :=
  let deviceId := ls !! secure_device_id in
  if negb (truthy_opt deviceId) then
    let id := device_id_of_hash (hash_string (rawString env)) in
    (id, <[secure_device_id := id]> ls)
  else (default [] deviceId, ls).

(** ** Reference definitions *)

(** The textbook polynomial string hash [s[0]*31^(n-1) + ... + s[n-1]]
    over the integers (Java's [String.hashCode] before truncation). *)
Definition poly_hash (s : jsstr) : Z := fold_left (fun h c => 31 * h + c) s 0.

(** A character of upper-case hexadecimal. *)
Definition upper_hex (c : Z) : Prop := 48 <= c <= 57 \/ 65 <= c <= 70.

(** ** Lemmas *)

Lemma hash_step_mul31 h c : hash_step h c = ToInt32 (31 * h + c).
Proof.
  unfold hash_step. rewrite js_bor_0, js_shl_5.
  replace (ToInt32 (32 * h) - h + c) with (ToInt32 (32 * h) + (c - h)) by lia.
  rewrite ToInt32_inner_add. f_equal. lia.
Qed.

Lemma hash_fold s h :
  fold_left hash_step s (ToInt32 h) = ToInt32 (fold_left (fun h c => 31 * h + c) s h).
Proof.
  revert h. induction s as [|c s IH]; intros h; simpl; [done|].
  rewrite hash_step_mul31, ToInt32_inner_lin. apply IH.
Qed.

Lemma device_id_digits h :
  device_id_of_hash h = str "DEV-" ++ to_upper (radix_digits (digits_fuel (Z.abs h)) 16 (Z.abs h)).
Proof. unfold device_id_of_hash. by rewrite to_string_radix_nonneg by lia. Qed.

Lemma device_id_nonempty h : device_id_of_hash h <> [].
Proof. done. Qed.

Lemma drop_device_prefix (s : jsstr) : drop 4 (str "DEV-" ++ s) = s.
Proof. done. Qed.

#[export] Hint Resolve device_id_nonempty : js.

Lemma device_id_parse h : parse_radix 16 (drop 4 (device_id_of_hash h)) = Z.abs h.
Proof.
  unfold device_id_of_hash. rewrite drop_device_prefix.
  apply parse_upper_to_string; lia.
Qed.

(** ** The hash *)

(** C14 (equivalence): the shift-and-subtract loop with [|= 0] computes the
    polynomial hash with multiplier 31 reduced to a signed 32-bit value. *)
Theorem hash_string_poly s : hash_string s = ToInt32 (poly_hash s).
Proof. unfold hash_string, poly_hash. change 0 with (ToInt32 0) at 1. apply hash_fold. Qed.

(** The hash is always a signed 32-bit integer. *)
Corollary hash_string_int32 s : is_int32 (hash_string s).
Proof. unfold hash_string. change 0 with (ToInt32 0) at 1. rewrite hash_fold. apply ToInt32_range. Qed.

(** C19 (bounds): from a 32-bit accumulator and a UTF-16 code unit, the
    double-precision value [(hash << 5) - hash + char] is an integer of
    magnitude below 2^33, far inside the 2^53 range where doubles are exact,
    and the step lands back in the 32-bit range. *)
Theorem hash_step_exact h c :
  is_int32 h -> 0 <= c <= 65535 ->
  - 2^33 < js_shl h 5 - h + c < 2^33 /\ is_int32 (hash_step h c).
Proof.
  intros Hh Hc. pose proof (ToInt32_range (32 * h)) as Hs.
  rewrite js_shl_5. unfold is_int32 in *. split; [lia|].
  rewrite hash_step_mul31. apply ToInt32_range.
Qed.

(** ** The identifier's format *)

(** C18 (type): every identifier is [DEV-] followed by between one and eight
    upper-case hexadecimal digits. *)
Theorem device_id_shape h :
  is_int32 h ->
  exists ds, device_id_of_hash h = str "DEV-" ++ ds /\
             (1 <= length ds <= 8)%nat /\ Forall upper_hex ds.
Proof.
  intros Hh. rewrite device_id_digits. eexists; split; [done|].
  assert (Ha : 0 <= Z.abs h < 16 ^ Z.of_nat 8) by (unfold is_int32 in Hh; lia).
  unfold to_upper. rewrite length_map. split.
  - split.
    + pose proof (radix_digits_nonempty (digits_fuel (Z.abs h)) 16 (Z.abs h) ltac:(unfold digits_fuel; lia)).
      destruct (radix_digits _ _ _); [done|simpl; lia].
    + apply radix_digits_length; lia.
  - apply Forall_map.
    eapply Forall_impl; [apply radix_digits_chars; lia|].
    intros c (d & Hd & ->). unfold upper_hex, to_upper_char, digit_char.
    zbool_cases; lia.
Qed.

(** C17 (roundtrip): reading the digits after [DEV-] as hexadecimal gives
    back [Math.abs(hash)]. *)
Theorem device_id_roundtrip h : parse_radix 16 (drop 4 (device_id_of_hash h)) = Z.abs h.
Proof. unfold device_id_of_hash. rewrite drop_device_prefix. apply parse_upper_to_string; lia. Qed.

(** C16 (functional): two hashes give the same identifier exactly when their
    absolute values agree; in particular [h] and [-h] collide. *)
Theorem device_id_eq_iff h1 h2 : device_id_of_hash h1 = device_id_of_hash h2 <-> Z.abs h1 = Z.abs h2.
Proof.
  split.
  - intros H. by rewrite <- (device_id_parse h1), <- (device_id_parse h2), H.
  - unfold device_id_of_hash. by intros ->.
Qed.

(** ** Persistence *)

(** When the key is absent or holds the empty string, a
    fresh identifier is derived from the environment and stored. *)
Lemma getDeviceId_fresh env ls :
  ls !! secure_device_id = None \/ ls !! secure_device_id = Some [] ->
  getDeviceId env ls =
    (device_id_of_hash (hash_string (rawString env)),
     <[secure_device_id := device_id_of_hash (hash_string (rawString env))]> ls).
Proof. unfold getDeviceId. by intros [-> | ->]. Qed.

(** C15 (invariant): [getDeviceId] is idempotent: a second call, with any
    environment and a fresh random seed, returns the same identifier and
    leaves storage as the first call left it. *)
Theorem getDeviceId_idempotent env env' ls :
  getDeviceId env' (getDeviceId env ls).2 = getDeviceId env ls.
Proof.
  unfold getDeviceId. destruct (truthy_opt (ls !! secure_device_id)) eqn:Ht; simpl.
  - by rewrite Ht.
  - by rewrite lookup_insert_eq.
Qed.

(** Other keys of [localStorage] are never touched. *)
Lemma getDeviceId_other_keys env ls k :
  k <> secure_device_id -> (getDeviceId env ls).2 !! k = ls !! k.
Proof.
  intros Hk. unfold getDeviceId. destruct (truthy_opt _); simpl; [done|].
  by rewrite lookup_insert_ne.
Qed.

(** ** Witnesses *)

Definition sample_env : Env :=
  mkEnv (str "Mozilla/5.0") 1920 1080 (str "0.4fzyo82mvyr").

Example sample_rawString :
  rawString sample_env = str "Mozilla/5.0-1920x1080-4fzyo82mvyr".
Proof. reflexivity. Qed.

Lemma hash_step_exact_witness :
  (is_int32 (-5) /\ 0 <= 65 <= 65535) /\
  (- 2^33 < js_shl (-5) 5 - (-5) + 65 < 2^33 /\ is_int32 (hash_step (-5) 65)).
Proof.
  split; [unfold is_int32; lia|]. apply hash_step_exact; unfold is_int32; lia.
Defined.

Lemma device_id_shape_witness :
  is_int32 (-2147483648) /\
  exists ds, device_id_of_hash (-2147483648) = str "DEV-" ++ ds /\
             (1 <= length ds <= 8)%nat /\ Forall upper_hex ds.
Proof. split; [unfold is_int32; lia|]. apply device_id_shape. unfold is_int32; lia. Defined.

Example device_id_min_int : device_id_of_hash (-2147483648) = str "DEV-80000000".
Proof. reflexivity. Qed.
