(* ===== verification/Access.v ===== *)
(** * The binding check

    - [verifyDeviceBinding] of [src/utils/security.ts].
    - [device_mismatch]: the condition written inline at the two call sites
      that refuse access, [App.handleRead] (open for reading) and
      [Marketplace.handleQuickDownload] (export a copy):
      [doc.boundDeviceId && doc.boundDeviceId !== user.deviceId].
    - [BindingCheck]: the contract an access predicate must meet (the
      spec's [authorize]: allow an unbound document, allow the bound
      device, refuse every other device).  [verifyDeviceBinding] is an
      instance, and the call sites are proved against the class. *)

From S2P Require Import Prelude JsString Types.

(** ** [src/utils/security.ts] *)

Definition verifyDeviceBinding (doc : DocumentItem) (currentDeviceId : jsstr) : bool :=
  if negb (truthy_opt (boundDeviceId doc)) then true
  else boundDeviceId doc === Some currentDeviceId.

(** ** The inline check of [handleRead] and [handleQuickDownload] *)

Definition device_mismatch (doc : DocumentItem) (deviceId : jsstr) : bool :=
  truthy_opt (boundDeviceId doc) && (boundDeviceId doc !== Some deviceId).

(** ** The contract of an access predicate *)

Class BindingCheck (authorize : DocumentItem -> jsstr -> bool) : Prop := {
  authorize_unbound d dev : truthy_opt (boundDeviceId d) = false -> authorize d dev = true;
  authorize_bound d b dev : boundDeviceId d = Some b -> b <> [] -> authorize d dev = (b === dev)
}.

(** ** Lemmas *)

Lemma verifyDeviceBinding_unbound d dev :
  truthy_opt (boundDeviceId d) = false -> verifyDeviceBinding d dev = true.
Proof. unfold verifyDeviceBinding. by intros ->. Qed.

Lemma verifyDeviceBinding_bound d b dev :
  boundDeviceId d = Some b -> b <> [] -> verifyDeviceBinding d dev = (b === dev).
Proof.
  unfold verifyDeviceBinding. intros Hb Hne. rewrite Hb. simpl.
  rewrite (proj2 (truthy_str_true b) Hne). simpl. decide_js.
Qed.

#[export] Instance verifyDeviceBinding_check : BindingCheck verifyDeviceBinding.
Proof. split; [apply verifyDeviceBinding_unbound | apply verifyDeviceBinding_bound]. Qed.

Lemma device_mismatch_unbound d dev :
  truthy_opt (boundDeviceId d) = false -> device_mismatch d dev = false.
Proof. unfold device_mismatch. by intros ->. Qed.

Lemma device_mismatch_bound d b dev :
  boundDeviceId d = Some b -> b <> [] -> device_mismatch d dev = negb (b === dev).
Proof.
  unfold device_mismatch. intros Hb Hne. rewrite Hb. simpl.
  rewrite (proj2 (truthy_str_true b) Hne). simpl. decide_js.
Qed.

(** Binding to the device at hand never produces a mismatch. *)
Lemma device_mismatch_same d dev :
  boundDeviceId d = None \/ boundDeviceId d = Some dev -> device_mismatch d dev = false.
Proof.
  intros [H|H]; unfold device_mismatch; rewrite H; simpl; [done|].
  destruct (truthy_str dev); simpl; decide_js.
Qed.

#[export] Hint Resolve device_mismatch_same : js.

(** The inline condition is the negation of [verifyDeviceBinding]. *)
Lemma device_mismatch_negb d dev : device_mismatch d dev = negb (verifyDeviceBinding d dev).
Proof.
  destruct (truthy_opt (boundDeviceId d)) eqn:Ht.
  - apply truthy_opt_true in Ht as (b & Hb & Hne).
    by rewrite (device_mismatch_bound d b dev Hb Hne), (verifyDeviceBinding_bound d b dev Hb Hne).
  - by rewrite device_mismatch_unbound, verifyDeviceBinding_unbound.
Qed.

Section Gate.
(** The call sites against any predicate meeting the contract. *)
Context (authorize : DocumentItem -> jsstr -> bool) `{!BindingCheck authorize}.

(** C10 (equivalence): the condition written inline at both refusing call
    sites is exactly the negation of any predicate meeting the binding
    contract, so reading and exporting refuse in the same cases. *)
Theorem device_mismatch_contract d dev : device_mismatch d dev = negb (authorize d dev).
Proof.
  destruct (truthy_opt (boundDeviceId d)) eqn:Ht.
  - apply truthy_opt_true in Ht as (b & Hb & Hne).
    rewrite (device_mismatch_bound d b dev Hb Hne), (authorize_bound d b dev Hb Hne). done.
  - by rewrite device_mismatch_unbound, authorize_unbound.
Qed.

(** An unbound document is open to every device; a bound one only to the
    device it is bound to. *)
Lemma authorize_iff d dev :
  authorize d dev = true <->
    boundDeviceId d = None \/ boundDeviceId d = Some [] \/ boundDeviceId d = Some dev.
Proof.
  destruct (truthy_opt (boundDeviceId d)) eqn:Ht.
  - apply truthy_opt_true in Ht as (b & Hb & Hne).
    rewrite (authorize_bound d b dev Hb Hne), Hb, bool_decide_eq_true. naive_solver.
  - rewrite authorize_unbound by done. apply truthy_opt_false in Ht. naive_solver.
Qed.
End Gate.

(** [verifyDeviceBinding] allows a device exactly when the
    document is unbound (no binding, or the empty string) or bound to that
    device. *)
Lemma verifyDeviceBinding_iff d dev :
  verifyDeviceBinding d dev = true <->
    boundDeviceId d = None \/ boundDeviceId d = Some [] \/ boundDeviceId d = Some dev.
Proof. apply authorize_iff, _. Qed.

(** ** Witnesses *)

Definition sample_doc (bound : option jsstr) : DocumentItem :=
  mkDocumentItem (str "7") (str "Notes") (str "Chapter 1") 10 (str "Lan") NOTES [] []
    None false (QArith_base.inject_Z 0) bound.

Lemma device_mismatch_contract_witness :
  BindingCheck verifyDeviceBinding /\
  device_mismatch (sample_doc (Some (str "DEV-AAAA"))) (str "DEV-BBBB") =
  negb (verifyDeviceBinding (sample_doc (Some (str "DEV-AAAA"))) (str "DEV-BBBB")).
Proof.
  split; [exact verifyDeviceBinding_check|].
  apply (@device_mismatch_contract verifyDeviceBinding verifyDeviceBinding_check).
Defined.
