(* ===== verification/Marketplace.v ===== *)
(** * The catalogue views: [src/components/Marketplace.tsx]

    The same component renders the market ([isLibrary = false]: documents
    the user does not own, with a buy button) and the library
    ([isLibrary = true]: owned documents, with quick download and read).
    [displayDocs] is its filter, [handleQuickDownload] its own DRM check
    and export, [marketplace_offers] the buttons the rendered grid offers
    (which [App.app_enabled] consults), and [render_view] / [render_card]
    the text and badges it shows: heading, the library's DRM notice, the
    empty state, and per card the type badge, the lock badge, the AI
    summary, the author avatar and the price label [price_label]. *)

From S2P Require Import Prelude JsString Types Access.
Open Scope Z_scope.

(** ** The view filter, the quick download and the card buttons *)

(** [isLibrary ? documents.filter(d => user.library.includes(d.id))
               : documents.filter(d => !user.library.includes(d.id))] *)
Definition displayDocs (documents : list DocumentItem) (user : User) (isLibrary : bool)
  : list DocumentItem :=
  if isLibrary then List.filter (fun d => includes (library user) (doc_id d)) documents
  else List.filter (fun d => negb (includes (library user) (doc_id d))) documents.

(** What a click on the quick-download button does: refuse, or produce the
    file (its name and text; the Blob and anchor plumbing is browser I/O). *)
Inductive QuickDownload :=
  | QuickDenied
  | QuickFile (filename content : jsstr).

Definition handleQuickDownload (user : User) (doc : DocumentItem) : QuickDownload :=
  if device_mismatch doc (deviceId user) then QuickDenied
  else
    let content := str "SECURE DOWNLOAD" ++ NL ++ str "User: " ++ name user ++ NL
      ++ str "Device: " ++ deviceId user ++ NL ++ NL ++ str "Title: " ++ title doc ++ NL
      ++ str "Description: " ++ description doc in
    QuickFile (title doc ++ str "_SECURE.txt") content.

(** The buttons a card of the grid offers: buy in the market view, quick
    download and read in the library view, on the documents shown. *)
Inductive MarketAction :=
  | ClickBuy (doc : DocumentItem)
  | ClickQuickDownload (doc : DocumentItem)
  | ClickRead (doc : DocumentItem).

Definition marketplace_offers (documents : list DocumentItem) (user : User) (isLibrary : bool)
  (a : MarketAction) : bool :=
  match a with
  | ClickBuy doc => negb isLibrary && bool_decide (doc ∈ displayDocs documents user isLibrary)
  | ClickQuickDownload doc | ClickRead doc =>
      isLibrary && bool_decide (doc ∈ displayDocs documents user isLibrary)
  end.

(** ** What the view shows *)

(** [{doc.price === 0 ? "Miễn Phí" : `${doc.price} CR`}] *)
Definition price_label (p : Z) : jsstr :=
  if p =? 0 then str "Miễn Phí" else to_string_radix 10 p ++ str " CR".

(** The buttons of a card: the buy button with its label, or the quick
    download and read buttons of the library. *)
Inductive CardButtons := BuyButton (label : jsstr) | LibraryButtons.

Record Card := mkCard {
  card_type : jsstr;                (* {doc.type} badge *)
  card_locked : bool;               (* "🔒 Locked" badge *)
  card_summary : option jsstr;      (* {doc.aiSummary && ...} *)
  card_title : jsstr;
  card_description : jsstr;
  card_tags : list jsstr;
  card_avatar : jsstr;              (* ui-avatars URL *)
  card_author : jsstr;
  card_buttons : CardButtons
}.

Definition render_card (isLibrary : bool) (doc : DocumentItem) : Card :=
  mkCard (doc_type_str (type doc))
    (isLibrary && truthy_opt (boundDeviceId doc))
    (if truthy_opt (aiSummary doc) then aiSummary doc else None)
    (title doc) (description doc) (tags doc)
    (str "https://ui-avatars.com/api/?name=" ++ author doc ++ str "&background=random")
    (author doc)
    (if isLibrary then LibraryButtons else BuyButton (price_label (price doc))).

Inductive ViewBody := EmptyView | Grid (cards : list Card).

Record MarketView := mkMarketView {
  heading : jsstr;
  heading_icon : jsstr;
  drm_notice : option jsstr;        (* the library's notice with the device id *)
  body : ViewBody
}.

Definition render_view (documents : list DocumentItem) (user : User) (isLibrary : bool) : MarketView :=
  let ds := displayDocs documents user isLibrary in
  mkMarketView
    (if isLibrary then str "Kho Tài Liệu Của Tôi" else str "Chợ Tài Liệu")
    (if isLibrary then str "🎓" else str "🪐")
    (if isLibrary then
       Some (str "Các tài liệu trong kho này được bảo vệ bởi DRM và chỉ có thể mở trên thiết bị này ("
             ++ deviceId user ++ str ")." )
     else None)
    (if length ds =? 0 then EmptyView else Grid (map (render_card isLibrary) ds))%nat.

(** ** Lemmas *)

Lemma displayDocs_elem docs u lib d :
  d ∈ displayDocs docs u lib <-> d ∈ docs /\ includes (library u) (doc_id d) = lib.
Proof.
  unfold displayDocs. destruct lib; rewrite list_elem_of_In, filter_In, <- list_elem_of_In.
  - done.
  - by rewrite negb_true_iff.
Qed.

(** The market and library views partition the
    catalogue: a document is shown in the library view exactly when its id
    is in the user's library, and in the market view exactly otherwise. *)
Theorem displayDocs_partition docs u d :
  d ∈ docs ->
  (d ∈ displayDocs docs u true <-> doc_id d ∈ library u) /\
  (d ∈ displayDocs docs u false <-> doc_id d ∉ library u).
Proof.
  intros Hd. rewrite !displayDocs_elem, includes_true, includes_false. naive_solver.
Qed.

(** C25 (safety): quick download refuses exactly on a device mismatch, and
    otherwise writes the user's device id into the file. *)
Theorem handleQuickDownload_spec u d :
  (handleQuickDownload u d = QuickDenied <-> verifyDeviceBinding d (deviceId u) = false) /\
  (forall f c, handleQuickDownload u d = QuickFile f c -> exists pre post, c = pre ++ deviceId u ++ post).
Proof.
  unfold handleQuickDownload. rewrite device_mismatch_negb.
  destruct (verifyDeviceBinding d (deviceId u)); simpl; split; try done.
  intros f c [= _ <-].
  eexists (str "SECURE DOWNLOAD" ++ NL ++ str "User: " ++ name u ++ NL ++ str "Device: "), _.
  by rewrite <- !app_assoc.
Qed.

(** The decimal digits of a non-negative number are ASCII digits. *)
Lemma to_string_radix_decimal p :
  0 <= p -> to_string_radix 10 p <> [] /\ Forall (fun c => 48 <= c <= 57) (to_string_radix 10 p).
Proof.
  intros Hp. rewrite to_string_radix_nonneg by done. split.
  - apply radix_digits_nonempty. unfold digits_fuel. lia.
  - eapply Forall_impl; [apply (radix_digits_chars 10); lia|].
    intros c (d & Hd & ->). unfold digit_char. destruct (Z.ltb_spec d 10); lia.
Qed.

(** C26 (roundtrip): the label of a buy button is ["Miễn Phí"] for a free
    document and otherwise the price's decimal digits followed by [" CR"],
    and reading those digits back gives the price. *)
Theorem price_label_roundtrip p :
  0 <= p ->
  (p = 0 /\ price_label p = str "Miễn Phí") \/
  (0 < p /\ exists ds, price_label p = ds ++ str " CR" /\ ds <> [] /\
                       Forall (fun c => 48 <= c <= 57) ds /\ parse_radix 10 ds = p).
Proof.
  intros Hp. unfold price_label. destruct (Z.eqb_spec p 0) as [->|Hne]; [by left|right].
  split; [lia|]. exists (to_string_radix 10 p).
  destruct (to_string_radix_decimal p Hp). split_and!; [done..|].
  apply parse_to_string_radix; lia.
Qed.

(** ** Witnesses *)

(** Spec scenario 3: bound to [DEV-AAAA], requested from [DEV-BBBB]: denied. *)
Example scenario_mismatch :
  verifyDeviceBinding (sample_doc (Some (str "DEV-AAAA"))) (str "DEV-BBBB") = false /\
  handleQuickDownload (mkUser [] [] 0 [] (str "DEV-BBBB")) (sample_doc (Some (str "DEV-AAAA")))
    = QuickDenied.
Proof. split; reflexivity. Qed.

Lemma displayDocs_partition_witness :
  sample_doc None ∈ [sample_doc None] /\
  (sample_doc None ∈ displayDocs [sample_doc None] (mkUser [] [] 0 [str "7"] []) true <->
     doc_id (sample_doc None) ∈ library (mkUser [] [] 0 [str "7"] [])) /\
  (sample_doc None ∈ displayDocs [sample_doc None] (mkUser [] [] 0 [str "7"] []) false <->
     doc_id (sample_doc None) ∉ library (mkUser [] [] 0 [str "7"] [])).
Proof. split; [left|]. apply displayDocs_partition. left. Defined.

Lemma price_label_roundtrip_witness :
  0 <= 80 /\
  ((80 = 0 /\ price_label 80 = str "Miễn Phí") \/
   (0 < 80 /\ exists ds, price_label 80 = ds ++ str " CR" /\ ds <> [] /\
                         Forall (fun c => 48 <= c <= 57) ds /\ parse_radix 10 ds = 80)).
Proof. split; [lia|]. apply price_label_roundtrip. lia. Defined.

Example price_label_samples : price_label 0 = str "Miễn Phí" /\ price_label 80 = str "80 CR".
Proof. split; reflexivity. Qed.

(** A new user's library view: the DRM notice names the device, and the
    grid is replaced by the empty state. *)
Example empty_library_view :
  render_view [sample_doc None] (mkUser [] [] 0 [] (str "DEV-1")) true =
  mkMarketView (str "Kho Tài Liệu Của Tôi") (str "🎓")
    (Some (str "Các tài liệu trong kho này được bảo vệ bởi DRM và chỉ có thể mở trên thiết bị này (DEV-1)."))
    EmptyView.
Proof. reflexivity. Qed.
