(* ===== verification/Gemini.v ===== *)
(** * The AI service: [src/services/geminiService.ts]

    Both functions send one [generateContent] request and fall back to
    fixed values on every failure.  The request each builds is modelled
    ([analyze_request], [tip_request]: model name, prompt text, and for the
    analysis the JSON response schema); the network's answer is an input of
    the model ([GenerateOutcome], [TipOutcome]): a response whose text parsed
    as the expected JSON object, a response without usable text, or a
    thrown error.  [analyzeDocument] and [getStudyTip] map the answer to the
    value the caller receives; [analyze_call] and [tip_call] compose request
    and answer for a service given as a function.

    The prompts interpolate the title and description between double
    quotes without escaping: the request determines them when they contain
    no quote ([analyze_prompt_injective]), and a title with a quote can
    carry text that reads as the description ([analyze_prompt_ambiguous]). *)

From S2P Require Import Prelude Types.
Open Scope Z_scope.

(** ** The answers *)

Record AnalyzeResult := mkAnalyzeResult {
  summary : jsstr;
  suggestedTags : list jsstr;
  suggestedPrice : Z
}.

(** What [ai.models.generateContent] gave: a response text with the result
    of [JSON.parse] on it ([None] when parsing throws), or a thrown error. *)
Inductive GenerateOutcome :=
  | Generated (text : option jsstr) (parsed : option AnalyzeResult)
  | GenerateFailed.

Definition analyze_fallback : AnalyzeResult :=
  mkAnalyzeResult (str "Tài liệu học tập hữu ích cho bạn.") [str "#TaiLieu"; str "#HocTap"] 50.

Definition analyzeDocument (o : GenerateOutcome) : AnalyzeResult :=
  match o with
  | Generated text parsed =>
      if truthy_opt text then
        match parsed with
        | Some data => mkAnalyzeResult (summary data) (suggestedTags data) (suggestedPrice data)
        | None => analyze_fallback          (* JSON.parse threw *)
        end
      else analyze_fallback                 (* throw new Error("No response from AI") *)
  | GenerateFailed => analyze_fallback
  end.

(** [getStudyTip]: the response text, or one default when it is empty and
    another when the call throws. *)
Inductive TipOutcome := TipResponse (text : option jsstr) | TipFailed.

Definition getStudyTip (o : TipOutcome) : jsstr :=
  match o with
  | TipResponse text =>
      if truthy_opt text then default [] text else str "Hãy tập trung và ghi chú cẩn thận nhé!"
  | TipFailed => str "Hãy học tập chăm chỉ!"
  end.

(** ** The requests *)

(** The double quote, which a Rocq string literal cannot hold alone. *)
Definition QUOTE : jsstr := [34].

Definition gemini_model : jsstr := str "gemini-3-flash-preview".

(** The template literal [prompt] of [analyzeDocument]. *)
Definition analyze_prompt (title rawContent : jsstr) : jsstr :=
  NL ++ str "      I am uploading a study document titled " ++ QUOTE ++ title ++ QUOTE ++ str "." ++ NL ++
  str "      The user provided this brief description/content snippet: " ++ QUOTE ++ rawContent ++
  QUOTE ++ str "." ++ NL ++ str "      " ++ NL ++
  str "      Please analyze this and return a JSON object with:" ++ NL ++
  str "      1. A short, engaging 2-sentence summary suitable for a store listing." ++ NL ++
  str "      2. A list of 3-5 relevant hashtags/tags (e.g., #Math, #History, #Grade12)." ++ NL ++
  str "      3. A suggested price in fictional currency (Credits) between 10 and 500. If it looks like a simple note, keep it low. If complex, higher." ++ NL ++
  str "    ".

(** [{ model, contents, config }]: [json_schema] is the [application/json]
    response with the required [summary], [suggestedTags] and
    [suggestedPrice] fields. *)
Record GenerateRequest := mkGenerateRequest {
  req_model : jsstr;
  req_contents : jsstr;
  req_json_schema : bool
}.

Definition analyze_request (title rawContent : jsstr) : GenerateRequest :=
  mkGenerateRequest gemini_model (analyze_prompt title rawContent) true.

Definition tip_request (docTitle : jsstr) : GenerateRequest :=
  mkGenerateRequest gemini_model
    (str "Give me a single, short, and very specific study tip for the subject: " ++ QUOTE ++
     docTitle ++ QUOTE ++ str ". Be encouraging and cool. Max 30 words.") false.

Section Service.
(** The service, as the answers it gives to requests. *)
Variable generate : GenerateRequest -> GenerateOutcome.
Variable generate_tip : GenerateRequest -> TipOutcome.

Definition analyze_call (title rawContent : jsstr) : AnalyzeResult :=
  analyzeDocument (generate (analyze_request title rawContent)).

Definition tip_call (docTitle : jsstr) : jsstr := getStudyTip (generate_tip (tip_request docTitle)).

End Service.

(** ** Lemmas *)

(** The outcomes that reach [return { summary: data.summary, ... }]: a
    response with non-empty text that parsed. *)
Definition parsed_answer (o : GenerateOutcome) : Prop :=
  exists text data, text <> [] /\ o = Generated (Some text) (Some data).

(** C32 (error): [analyzeDocument] returns exactly the service's summary,
    tags and price when the response has non-empty text that parsed, and
    the fixed fallback for every other outcome: a thrown call, a response
    without text or with empty text ([No response from AI]), or text that
    [JSON.parse] rejects. *)
Theorem analyzeDocument_outcomes :
  (forall text data, text <> [] -> analyzeDocument (Generated (Some text) (Some data)) = data) /\
  (forall o, ~ parsed_answer o -> analyzeDocument o = analyze_fallback).
Proof.
  split.
  - intros text data Hne. simpl. rewrite (proj2 (truthy_str_true text) Hne). by destruct data.
  - intros [text [data|]|] Hn; simpl; [|by case_match|done].
    destruct (truthy_opt text) eqn:Ht; [|done].
    apply truthy_opt_true in Ht as (t & -> & Hne). destruct Hn. by exists t, data.
Qed.

(** The fallback's price lies in the 10..500 band the prompt asks for. *)
Lemma analyze_fallback_price : 10 <= suggestedPrice analyze_fallback <= 500.
Proof. simpl. lia. Qed.

Example analyze_failed_fallback : analyzeDocument GenerateFailed = analyze_fallback.
Proof. reflexivity. Qed.

(** A quote-free text ends at the first quote. *)
Lemma app_quote_cancel (t t' x y : jsstr) :
  Forall (fun c => c <> 34) t -> Forall (fun c => c <> 34) t' ->
  t ++ QUOTE ++ x = t' ++ QUOTE ++ y -> t = t' /\ x = y.
Proof.
  unfold QUOTE. intros Ht. revert t'.
  induction Ht as [|c t Hc _ IH]; intros t' Ht' H; destruct Ht' as [|c' t' Hc' Ht']; simpl in H.
  - by injection H.
  - injection H as <- _. done.
  - injection H as -> _. done.
  - injection H as <- H. destruct (IH t' Ht' H) as [-> ->]. done.
Qed.

(** C27 (functional): the analysis request determines the title and the
    description it was built from, when the title holds no double quote;
    the description may hold any text. *)
Theorem analyze_prompt_injective t r t' r' :
  Forall (fun c => c <> 34) t -> Forall (fun c => c <> 34) t' ->
  analyze_request t r = analyze_request t' r' -> t = t' /\ r = r'.
Proof.
  intros Ht Ht' H. apply (f_equal req_contents) in H.
  change (analyze_prompt t r = analyze_prompt t' r') in H. unfold analyze_prompt in H.
  do 3 apply app_inv_head in H.
  destruct (app_quote_cancel t t' _ _ Ht Ht' H) as [-> H']. split; [done|].
  do 4 apply app_inv_head in H'. by apply app_inv_tail in H'.
Qed.

(** The text between the title's closing quote and the description's
    opening quote. *)
Definition prompt_middle : jsstr :=
  QUOTE ++ str "." ++ NL ++ str "      The user provided this brief description/content snippet: " ++ QUOTE.

(** A title with a quote can carry what reads as the description: two
    different uploads send the same prompt. *)
Example analyze_prompt_ambiguous :
  (str "A" ++ prompt_middle ++ str "B", str "C") <> (str "A", str "B" ++ prompt_middle ++ str "C") /\
  analyze_request (str "A" ++ prompt_middle ++ str "B") (str "C") =
  analyze_request (str "A") (str "B" ++ prompt_middle ++ str "C").
Proof. split; [discriminate|]. vm_compute. reflexivity. Qed.

Lemma analyze_prompt_injective_witness :
  (Forall (fun c => c <> 34) (str "Triet hoc") /\ Forall (fun c => c <> 34) (str "Triet hoc") /\
   analyze_request (str "Triet hoc") (str "De cuong") = analyze_request (str "Triet hoc") (str "De cuong")) /\
  (str "Triet hoc" = str "Triet hoc" /\ str "De cuong" = str "De cuong").
Proof.
  assert (Hq : Forall (fun c => c <> 34) (str "Triet hoc")) by (vm_compute; repeat constructor; lia).
  split; [split_and!; [exact Hq|exact Hq|reflexivity]|].
  apply analyze_prompt_injective; [exact Hq|exact Hq|reflexivity].
Defined.

Lemma analyzeDocument_outcomes_witness :
  (str "{}" <> [] /\ analyzeDocument (Generated (Some (str "{}")) (Some analyze_fallback)) = analyze_fallback) /\
  (~ parsed_answer GenerateFailed /\ analyzeDocument GenerateFailed = analyze_fallback).
Proof.
  assert (Hn : ~ parsed_answer GenerateFailed) by (intros (t & d & _ & H); discriminate).
  split; split; [discriminate| |exact Hn|].
  - apply (proj1 analyzeDocument_outcomes). discriminate.
  - apply (proj2 analyzeDocument_outcomes). exact Hn.
Defined.

(** A service answer that parsed is passed through field by field. *)
Example analyze_passes_fields :
  analyzeDocument (Generated (Some (str "{...}")) (Some (mkAnalyzeResult (str "S") [str "#T"] 120))) =
  mkAnalyzeResult (str "S") [str "#T"] 120.
Proof. reflexivity. Qed.
