(* ===== verification/Upload.v ===== *)
(** * Publishing a document: [src/components/UploadModal.tsx]

    The upload form is a record of its [useState] fields.  The AI button runs
    in two steps around the [await]: [handleAIAnalyze_start] (guard, spinner
    on) and [handleAIAnalyze_done] (store summary and tags, take the
    suggested price, spinner off); the call itself is [Gemini.analyzeDocument].
    [form_valid] is the browser's constraint validation of the form's inputs
    ([required] title and description, [type=number min=0] price), which
    must pass before [onSubmit] fires; [handleSubmit] builds the draft
    handed to [App.handleUpload].

    [UploadModal] adds the outstanding [analyzeDocument] call, as the pending
    continuation of the [await], to the form; [upload_step] runs the four
    field setters, the AI button and the call's completion, and
    [upload_reachable] is the set of states the modal can reach from its
    mount.  The theorems show the spinner is on exactly while a call is
    outstanding, that the call always completes, and that a draft can be
    submitted before it does. *)

From S2P Require Import Prelude Types Gemini.
Open Scope Z_scope.

(** ** [src/components/UploadModal.tsx] *)

Record UploadForm := mkUploadForm {
  form_title : jsstr;
  form_description : jsstr;
  form_price : Z;
  form_type : DocType;
  isAnalyzing : bool;
  aiData : option (jsstr * list jsstr)      (* { summary, tags } *)
}.

Definition initial_form : UploadForm := mkUploadForm [] [] 0 NOTES false None.

(** The draft passed to [onUpload]. *)
Record UploadData := mkUploadData {
  up_title : jsstr;
  up_description : jsstr;
  up_price : Z;
  up_type : DocType;
  up_tags : list jsstr;
  up_aiSummary : jsstr;
  up_thumbnailUrl : jsstr
}.

(** [if (!title || !description) return; setIsAnalyzing(true);]  [None]
    is the early return; otherwise the form with the spinner on. *)
Definition handleAIAnalyze_start (f : UploadForm) : option UploadForm :=
  if negb (truthy_str (form_title f)) || negb (truthy_str (form_description f)) then None
  else Some (mkUploadForm (form_title f) (form_description f) (form_price f) (form_type f)
               true (aiData f)).

(** After [await analyzeDocument(...)]: store the summary and tags, take
    the suggested price, spinner off. *)
Definition handleAIAnalyze_done (result : AnalyzeResult) (f : UploadForm) : UploadForm :=
  mkUploadForm (form_title f) (form_description f) (suggestedPrice result) (form_type f)
    false (Some (summary result, suggestedTags result)).

(** The AI button is disabled while analysing or while a field is empty. *)
Definition analyze_enabled (f : UploadForm) : bool :=
  negb (isAnalyzing f) && truthy_str (form_title f) && truthy_str (form_description f).

(** Constraint validation of the inputs ([required], [min="0"]). *)
Definition form_valid (f : UploadForm) : bool :=
  truthy_str (form_title f) && truthy_str (form_description f) && (0 <=? form_price f).

Definition handleSubmit (f : UploadForm) : UploadData :=
  mkUploadData (form_title f) (form_description f) (form_price f) (form_type f)
    (match aiData f with Some (_, tg) => tg | None => [] end)
    (str_or (match aiData f with Some (sm, _) => sm | None => [] end) [])
    (str "https://picsum.photos/seed/" ++ form_title f ++ str "/400/300").

(** *** The modal's events

    The component's state with the [await] of [handleAIAnalyze] as a
    pending continuation: [pending_analysis] holds the [title] and
    [description] its closure passed to [analyzeDocument] while the call
    is outstanding.  The inputs are never disabled; the AI button is
    disabled by [analyze_enabled]; the call's completion is an event of its
    own carrying the service's outcome. *)
Record UploadModal := mkUploadModal {
  modal_form : UploadForm;
  pending_analysis : option (jsstr * jsstr)
}.

Definition upload_mount : UploadModal := mkUploadModal initial_form None.

(** [onChange={(e) => setTitle(e.target.value)}] and its siblings; the
    price is [Number(e.target.value)], an integer for every value the
    [type=number] input (step 1) accepts. *)
Definition set_title (v : jsstr) (f : UploadForm) : UploadForm :=
  mkUploadForm v (form_description f) (form_price f) (form_type f) (isAnalyzing f) (aiData f).
Definition set_description (v : jsstr) (f : UploadForm) : UploadForm :=
  mkUploadForm (form_title f) v (form_price f) (form_type f) (isAnalyzing f) (aiData f).
Definition set_price (v : Z) (f : UploadForm) : UploadForm :=
  mkUploadForm (form_title f) (form_description f) v (form_type f) (isAnalyzing f) (aiData f).
Definition set_type (t : DocType) (f : UploadForm) : UploadForm :=
  mkUploadForm (form_title f) (form_description f) (form_price f) t (isAnalyzing f) (aiData f).

Inductive UploadEvent :=
  | UTitle (v : jsstr)
  | UDescription (v : jsstr)
  | UPrice (v : Z)
  | UType (t : DocType)
  | UAnalyze                          (* click on the AI button *)
  | UAnalyzeDone (o : GenerateOutcome). (* the awaited call resolves *)

Definition upload_enabled (e : UploadEvent) (m : UploadModal) : bool :=
  match e with
  | UAnalyze => analyze_enabled (modal_form m)
  | UAnalyzeDone _ => bool_decide (is_Some (pending_analysis m))
  | _ => true
  end.

Definition upload_step (e : UploadEvent) (m : UploadModal) : UploadModal :=
  let f := modal_form m in
  match e with
  | UTitle v => mkUploadModal (set_title v f) (pending_analysis m)
  | UDescription v => mkUploadModal (set_description v f) (pending_analysis m)
  | UPrice v => mkUploadModal (set_price v f) (pending_analysis m)
  | UType t => mkUploadModal (set_type t f) (pending_analysis m)
  | UAnalyze =>
      match handleAIAnalyze_start f with
      | Some f' => mkUploadModal f' (Some (form_title f, form_description f))
      | None => m
      end
  | UAnalyzeDone o =>
      match pending_analysis m with
      | Some _ => mkUploadModal (handleAIAnalyze_done (analyzeDocument o) f) None
      | None => m
      end
  end.

Inductive upload_reachable : UploadModal -> Prop :=
  | upload_reachable_mount : upload_reachable upload_mount
  | upload_reachable_step m e :
      upload_reachable m -> upload_enabled e m = true -> upload_reachable (upload_step e m).

Fixpoint upload_run (es : list UploadEvent) (m : UploadModal) : option UploadModal :=
  match es with
  | [] => Some m
  | e :: es' => if upload_enabled e m then upload_run es' (upload_step e m) else None
  end.

(** The modal's invariant: the spinner is on exactly while a call is
    outstanding, and that call was made with a non-empty title and
    description. *)
Record upload_inv (m : UploadModal) : Prop := {
  uinv_spinner : isAnalyzing (modal_form m) = true <-> is_Some (pending_analysis m);
  uinv_args : forall t d, pending_analysis m = Some (t, d) -> t <> [] /\ d <> []
}.

(** ** Lemmas *)

(** The draft's tags and summary come from a completed analysis, or are
    empty. *)
Lemma handleSubmit_ai f :
  (up_tags (handleSubmit f), up_aiSummary (handleSubmit f)) =
    match aiData f with Some (sm, tg) => (tg, sm) | None => ([], []) end.
Proof. unfold handleSubmit, str_or. destruct (aiData f) as [[sm tg]|]; [|done]. by destruct sm. Qed.

(** What constraint validation lets through. *)
Lemma form_valid_spec f :
  form_valid f = true -> form_title f <> [] /\ form_description f <> [] /\ 0 <= form_price f.
Proof.
  unfold form_valid. intros H. apply andb_prop in H as [H H3]. apply andb_prop in H as [H1 H2].
  apply truthy_str_true in H1, H2. apply Z.leb_le in H3. done.
Qed.

(** C35 (error): the AI's suggested price is copied into the form without a
    range check; a negative suggestion makes the form unsubmittable until
    the user edits the price. *)
Theorem negative_suggestion_blocks f r :
  suggestedPrice r < 0 -> form_valid (handleAIAnalyze_done r f) = false.
Proof.
  intros Hr. unfold form_valid, handleAIAnalyze_done. simpl.
  destruct (Z.leb_spec 0 (suggestedPrice r)); [lia|]. by rewrite andb_false_r.
Qed.

(** *** The modal's event loop *)

(** A form without a spinner and without an outstanding call. *)
Lemma upload_inv_idle f : isAnalyzing f = false -> upload_inv (mkUploadModal f None).
Proof. intros Hf. split; simpl; [rewrite Hf; split; [done|by intros []]|done]. Qed.

Lemma upload_inv_mount : upload_inv upload_mount.
Proof. by apply upload_inv_idle. Qed.

Lemma analyze_enabled_start f :
  analyze_enabled f = true ->
  isAnalyzing f = false /\ form_title f <> [] /\ form_description f <> [] /\
  handleAIAnalyze_start f =
    Some (mkUploadForm (form_title f) (form_description f) (form_price f) (form_type f) true (aiData f)).
Proof.
  unfold analyze_enabled, handleAIAnalyze_start. intros H.
  apply andb_prop in H as [H H2]. apply andb_prop in H as [H0 H1].
  apply negb_true_iff in H0. rewrite H1, H2. apply truthy_str_true in H1, H2. done.
Qed.

Lemma upload_inv_step m e :
  upload_inv m -> upload_enabled e m = true -> upload_inv (upload_step e m).
Proof.
  intros [Hs Ha] He. destruct e as [v|v|v|t| |o]; simpl in *; try (split; done).
  - destruct (analyze_enabled_start _ He) as (Hoff & Ht & Hd & ->).
    split; simpl; [done|]. by intros t d [= <- <-].
  - apply bool_decide_eq_true in He as [[t d] Hp]. rewrite Hp. by apply upload_inv_idle.
Qed.

Lemma upload_inv_reachable m : upload_reachable m -> upload_inv m.
Proof. induction 1; [apply upload_inv_mount|]. by apply upload_inv_step. Qed.

Lemma upload_run_reachable es m m' :
  upload_reachable m -> upload_run es m = Some m' -> upload_reachable m'.
Proof.
  revert m. induction es as [|e es IH]; intros m Hm; simpl; [by intros [= <-]|].
  destruct (upload_enabled e m) eqn:He; [|done]. intros. eapply IH; [|done]. by constructor.
Qed.

(** C33 (invariant): in every state of the upload modal the spinner is on
    exactly while an [analyzeDocument] call is outstanding, and that call
    was made with a non-empty title and description (so its early return
    never fires: the disabled button already excludes it). *)
Theorem upload_reachable_inv m : upload_reachable m -> upload_inv m.
Proof. induction 1; [apply upload_inv_mount|]. by apply upload_inv_step. Qed.

(** C34 (liveness): whenever the modal shows the spinner, the completion of
    the outstanding call is enabled, whatever the service does, and it
    turns the spinner off, stores the returned summary and tags and
    replaces the price by the suggestion, including a price the user typed
    while the call was outstanding. *)
Theorem analysis_completes m o :
  upload_reachable m -> isAnalyzing (modal_form m) = true ->
  let m' := upload_step (UAnalyzeDone o) m in
  upload_enabled (UAnalyzeDone o) m = true /\ isAnalyzing (modal_form m') = false /\
  pending_analysis m' = None /\
  aiData (modal_form m') = Some (summary (analyzeDocument o), suggestedTags (analyzeDocument o)) /\
  form_price (modal_form m') = suggestedPrice (analyzeDocument o).
Proof.
  intros Hr Ha. destruct (upload_inv_reachable m Hr) as [Hs _].
  destruct (proj1 Hs Ha) as [td Hp]. simpl. rewrite Hp. by rewrite bool_decide_eq_true_2 by done.
Qed.

(** ** Witnesses *)

Definition sample_form : UploadForm :=
  mkUploadForm (str "Triet hoc") (str "De cuong on tap") 30 NOTES false None.

Lemma negative_suggestion_blocks_witness :
  suggestedPrice (mkAnalyzeResult [] [] (-5)) < 0 /\
  form_valid (handleAIAnalyze_done (mkAnalyzeResult [] [] (-5)) sample_form) = false.
Proof. split; [simpl; lia|]. apply negative_suggestion_blocks. simpl; lia. Defined.


(** The user fills the form and clicks the AI button; the call is
    outstanding. *)
Definition analyzing_run : list UploadEvent :=
  [UTitle (str "Triết học"); UDescription (str "Đề cương ôn tập"); UPrice 30; UAnalyze].

Definition analyzing : UploadModal :=
  match upload_run analyzing_run upload_mount with Some m => m | None => upload_mount end.

Lemma analyzing_reachable : upload_reachable analyzing.
Proof.
  unfold analyzing. destruct (upload_run analyzing_run upload_mount) eqn:E; [|constructor].
  eapply upload_run_reachable; [constructor|exact E].
Qed.

Lemma upload_reachable_inv_witness : upload_reachable analyzing /\ upload_inv analyzing.
Proof. split; [apply analyzing_reachable|]. apply upload_reachable_inv, analyzing_reachable. Defined.

Lemma analysis_completes_witness :
  (upload_reachable analyzing /\ isAnalyzing (modal_form analyzing) = true) /\
  let m' := upload_step (UAnalyzeDone GenerateFailed) analyzing in
  upload_enabled (UAnalyzeDone GenerateFailed) analyzing = true /\
  isAnalyzing (modal_form m') = false /\ pending_analysis m' = None /\
  aiData (modal_form m') =
    Some (summary (analyzeDocument GenerateFailed), suggestedTags (analyzeDocument GenerateFailed)) /\
  form_price (modal_form m') = suggestedPrice (analyzeDocument GenerateFailed).
Proof.
  split; [split; [apply analyzing_reachable|reflexivity]|].
  apply analysis_completes; [apply analyzing_reachable|reflexivity].
Defined.

(** The submit button is not disabled while the AI call
    is outstanding: a reachable form with the spinner on passes validation,
    and the draft it submits has no AI summary or tags and keeps the typed
    price; the call's result arrives after the modal has closed. *)
Example submit_while_analyzing :
  upload_reachable analyzing /\ isAnalyzing (modal_form analyzing) = true /\
  form_valid (modal_form analyzing) = true /\
  up_tags (handleSubmit (modal_form analyzing)) = [] /\
  up_aiSummary (handleSubmit (modal_form analyzing)) = [] /\
  up_price (handleSubmit (modal_form analyzing)) = 30.
Proof. split; [apply analyzing_reachable|]. vm_compute. auto. Qed.

(** A price typed while the call is outstanding is overwritten by the
    suggestion when the call completes. *)
Example typed_price_overwritten :
  form_price (modal_form (upload_step (UAnalyzeDone GenerateFailed)
                            (upload_step (UPrice 120) analyzing))) = 50.
Proof. reflexivity. Qed.
