(* ===== verification/App.v ===== *)
(** * The session: [src/App.tsx] as a state machine

    [AppState] holds the [useState] fields of [App]: the login flag, the
    current view, the catalogue, the user and the document open in the
    reader.  Each handler is a function of the state: [handleLogin],
    [handleBuy] (its three guards, the confirmation answer as an argument,
    then the debit, the library grant and the binding of every document
    with that id), [handleUpload] and [handleRead].  React's functional
    updates ([setUser(prev => ...)]) read the same state here, since each
    handler runs to completion before the next event.

    What the user can click is decided by what is rendered: [app_enabled]
    follows the JSX of [App], [Marketplace], [UploadModal] and [Reader]
    (the login screen until authenticated, the reader overlay covering the
    page while open, the buy button only in the market view, read and quick
    download only in the library view, submit only on a valid form).
    [reachable] closes the initial state under enabled events, and [run]
    executes a list of events. *)

From S2P Require Import Prelude JsString Types Access Marketplace Upload.
From Stdlib Require Import QArith_base.
Open Scope Z_scope.

(** ** State *)

Definition MOCK_DOCS : list DocumentItem := [
  mkDocumentItem (str "1") (str "Giải Tích 1 - Full Công Thức")
    (str "Tổng hợp toàn bộ công thức giải tích 1 kèm ví dụ minh họa dễ hiểu.")
    50 (str "MinhDev") NOTES [str "#Toan"; str "#DaiHoc"]
    (str "https://picsum.photos/seed/math/400/300")
    (Some (str "Bí kíp qua môn Giải Tích dễ dàng.")) false (9 # 2) None;
  mkDocumentItem (str "2") (str "Lịch Sử Đảng - Đề Trắc Nghiệm")
    (str "Bộ 500 câu hỏi trắc nghiệm ôn thi cuối kỳ có đáp án chi tiết.")
    80 (str "LanAnh") EXAM [str "#LichSu"; str "#TracNghiem"]
    (str "https://picsum.photos/seed/history/400/300")
    (Some (str "Ngân hàng câu hỏi trắc nghiệm đầy đủ nhất.")) false (24 # 5) None;
  mkDocumentItem (str "3") (str "Slide Thuyết Trình Kỹ Năng Mềm")
    (str "Slide Powerpoint thiết kế đẹp, hiện đại về chủ đề Giao tiếp.")
    120 (str "DesignPro") SLIDE [str "#SoftSkills"; str "#PPT"]
    (str "https://picsum.photos/seed/ppt/400/300")
    (Some (str "Mẫu slide ấn tượng cho bài thuyết trình nhóm.")) false (5 # 1) None
].

Record AppState := mkAppState {
  isAuthenticated : bool;
  view : ViewState;
  documents : list DocumentItem;
  user : User;
  currentReadingDoc : option DocumentItem
}.

Definition initial_user : User := mkUser (str "u1") (str "Guest") 0 [] [].

Definition initial_state : AppState := mkAppState false HOME MOCK_DOCS initial_user None.

(** ** Handlers *)

Definition handleLogin (key deviceId : jsstr) (s : AppState) : AppState :=
  let userData :=
    if key === str "vip123@" then mkUser (str "vip_user") (str "VIP Member 👑") 9999 [] deviceId
    else if key === str "test123@" then mkUser (str "test_user") (str "Member") 500 [] deviceId
    else mkUser (str "guest") (str "Guest") 0 [] deviceId in
  mkAppState true (view s) (documents s) userData (currentReadingDoc s).

(** [prevDocs.map(d => d.id === id ? { ...d, boundDeviceId: dev } : d)] *)
Definition bind_docs (docs : list DocumentItem) (id dev : jsstr) : list DocumentItem :=
  map (fun d => if doc_id d === id then with_boundDeviceId d (Some dev) else d) docs.

(** How [handleBuy] ends: the silent return, the balance alert, a declined
    confirmation, or the purchase. *)
Inductive BuyOutcome := BuyAlreadyOwned | BuyInsufficient | BuyDeclined | BuyDone.

Definition handleBuy (doc : DocumentItem) (confirm : bool) (s : AppState) : BuyOutcome * AppState :=
  let u := user s in
  if includes (library u) (doc_id doc) then (BuyAlreadyOwned, s)
  else if balance u <? price doc then (BuyInsufficient, s)
  else if negb confirm then (BuyDeclined, s)
  else
    let u' := with_balance_library u (balance u - price doc) (library u ++ [doc_id doc]) in
    let docs' := bind_docs (documents s) (doc_id doc) (deviceId u) in
    (BuyDone, mkAppState (isAuthenticated s) LIBRARY docs' u' (currentReadingDoc s)).

(** [random36] is the text of [Math.random().toString(36)]; the new id is
    its [substr(2, 9)]. *)
Definition handleUpload (data : UploadData) (random36 : jsstr) (s : AppState) : AppState :=
  let u := user s in
  let newDoc := mkDocumentItem (substr random36 2 9) (up_title data) (up_description data)
    (up_price data) (name u) (up_type data) (up_tags data) (up_thumbnailUrl data)
    (Some (up_aiSummary data)) false (0 # 1) (Some (deviceId u)) in
  mkAppState (isAuthenticated s) MARKET (newDoc :: documents s)
    (with_balance_library u (balance u) (library u ++ [doc_id newDoc])) (currentReadingDoc s).

Inductive ReadOutcome := ReadDenied | ReadOpened.

Definition handleRead (doc : DocumentItem) (s : AppState) : ReadOutcome * AppState :=
  if device_mismatch doc (deviceId (user s)) then (ReadDenied, s)
  else (ReadOpened, mkAppState (isAuthenticated s) (view s) (documents s) (user s) (Some doc)).

Definition setView (v : ViewState) (s : AppState) : AppState :=
  mkAppState (isAuthenticated s) v (documents s) (user s) (currentReadingDoc s).

Definition closeReader (s : AppState) : AppState :=
  mkAppState (isAuthenticated s) (view s) (documents s) (user s) None.

(** ** Events and what the page lets the user do *)

Inductive AppEvent :=
  | EvLogin (key deviceId : jsstr)              (* Login's onLogin *)
  | EvSetView (v : ViewState)                   (* Navbar, Hero, upload cancel *)
  | EvBuy (doc : DocumentItem) (confirm : bool) (* buy button, confirm() answer *)
  | EvRead (doc : DocumentItem)                 (* library "read" button *)
  | EvQuickDownload (doc : DocumentItem)        (* library quick download *)
  | EvUpload (form : UploadForm) (random36 : jsstr) (* upload form submit *)
  | EvCloseReader
  | EvReaderDownload.

Definition app_enabled (e : AppEvent) (s : AppState) : bool :=
  if negb (isAuthenticated s) then
    match e with EvLogin _ _ => true | _ => false end
  else match currentReadingDoc s with
  | Some _ => match e with EvCloseReader | EvReaderDownload => true | _ => false end
  | None =>
    match e with
    | EvSetView _ => true
    | EvBuy doc _ => (view s === MARKET) && marketplace_offers (documents s) (user s) false (ClickBuy doc)
    | EvRead doc =>
        (view s === LIBRARY) && marketplace_offers (documents s) (user s) true (ClickRead doc)
    | EvQuickDownload doc =>
        (view s === LIBRARY) && marketplace_offers (documents s) (user s) true (ClickQuickDownload doc)
    | EvUpload f _ => (view s === UPLOAD) && form_valid f
    | _ => false
    end
  end.

Definition app_dispatch (e : AppEvent) (s : AppState) : AppState :=
  match e with
  | EvLogin key dev => handleLogin key dev s
  | EvSetView v => setView v s
  | EvBuy doc confirm => (handleBuy doc confirm s).2
  | EvRead doc => (handleRead doc s).2
  | EvQuickDownload _ | EvReaderDownload => s
  | EvUpload f random36 => handleUpload (handleSubmit f) random36 s
  | EvCloseReader => closeReader s
  end.

Inductive reachable : AppState -> Prop :=
  | reachable_init : reachable initial_state
  | reachable_step s e : reachable s -> app_enabled e s = true -> reachable (app_dispatch e s).

Fixpoint run (es : list AppEvent) (s : AppState) : option AppState :=
  match es with
  | [] => Some s
  | e :: es' => if app_enabled e s then run es' (app_dispatch e s) else None
  end.

(** ** The session invariant *)

Record app_inv (s : AppState) : Prop := {
  inv_login : isAuthenticated s = false -> s = initial_state;
  inv_balance : 0 <= balance (user s);
  inv_bound : forall d, d ∈ documents s -> truthy_opt (boundDeviceId d) = true ->
                boundDeviceId d = Some (deviceId (user s)) /\ doc_id d ∈ library (user s);
  inv_reader : forall d, currentReadingDoc s = Some d ->
                 verifyDeviceBinding d (deviceId (user s)) = true
}.

(** The device half of [app_inv], which the other components rely on. *)
Record app_core (s : AppState) : Prop := {
  core_login : isAuthenticated s = false -> s = initial_state;
  core_balance : 0 <= balance (user s);
  core_bound : forall d, d ∈ documents s -> truthy_opt (boundDeviceId d) = true ->
                 boundDeviceId d = Some (deviceId (user s));
  core_reader : forall d, currentReadingDoc s = Some d ->
                  verifyDeviceBinding d (deviceId (user s)) = true
}.

(** The ownership half: a bound entry is in the user's library. *)
Definition owned_inv (s : AppState) : Prop :=
  forall d, d ∈ documents s -> truthy_opt (boundDeviceId d) = true -> doc_id d ∈ library (user s).

(** ** Lemmas on the handlers *)

Lemma run_reachable es s s' : reachable s -> run es s = Some s' -> reachable s'.
Proof.
  revert s. induction es as [|e es IH]; intros s Hs; simpl; [by intros [= <-]|].
  destruct (app_enabled e s) eqn:He; [|done]. intros. eapply IH; [|done]. by constructor.
Qed.

Lemma handleBuy_cases doc confirm s :
  handleBuy doc confirm s = (BuyAlreadyOwned, s) /\ doc_id doc ∈ library (user s) \/
  handleBuy doc confirm s = (BuyInsufficient, s) /\ doc_id doc ∉ library (user s) /\
    balance (user s) < price doc \/
  handleBuy doc confirm s = (BuyDeclined, s) /\ doc_id doc ∉ library (user s) /\
    price doc <= balance (user s) /\ confirm = false \/
  (exists v, handleBuy doc confirm s =
    (BuyDone, mkAppState (isAuthenticated s) v
       (bind_docs (documents s) (doc_id doc) (deviceId (user s)))
       (with_balance_library (user s) (balance (user s) - price doc)
          (library (user s) ++ [doc_id doc])) (currentReadingDoc s))) /\
    doc_id doc ∉ library (user s) /\ price doc <= balance (user s) /\ confirm = true.
Proof.
  unfold handleBuy. destruct (includes _ _) eqn:Hi.
  { left. split; [done|]. by apply includes_true. }
  apply includes_false in Hi. right.
  destruct (Z.ltb_spec (balance (user s)) (price doc)); [by left|right].
  destruct confirm; simpl; [right|left]; [split; [eexists; reflexivity|]|]; done.
Qed.

Lemma bind_docs_elem docs id dev d' :
  d' ∈ bind_docs docs id dev <->
  exists d, d ∈ docs /\ d' = (if doc_id d === id then with_boundDeviceId d (Some dev) else d).
Proof. unfold bind_docs. rewrite list_elem_of_fmap. naive_solver. Qed.

(** What the invariants need of [bind_docs]: an entry keeps its id and
    either keeps its binding or is one of the bought id, bound to [dev]. *)
Lemma bind_docs_binding docs id dev d' :
  d' ∈ bind_docs docs id dev ->
  exists d, d ∈ docs /\ doc_id d' = doc_id d /\
    (boundDeviceId d' = boundDeviceId d \/ doc_id d = id /\ boundDeviceId d' = Some dev).
Proof.
  unfold bind_docs. rewrite list_elem_of_fmap. intros (d & -> & Hd). exists d.
  split; [done|]. case_bool_decide; simpl; naive_solver.
Qed.

Lemma MOCK_DOCS_unbound : Forall (fun d => boundDeviceId d = None) MOCK_DOCS.
Proof. repeat constructor. Qed.

Lemma unbound_not_truthy docs d :
  Forall (fun d => boundDeviceId d = None) docs -> d ∈ docs -> truthy_opt (boundDeviceId d) = false.
Proof. rewrite Forall_forall. intros H Hd. by rewrite (H d Hd). Qed.

Lemma app_enabled_auth e s :
  app_enabled e s = true ->
  (exists key dev, e = EvLogin key dev /\ isAuthenticated s = false) \/ isAuthenticated s = true.
Proof.
  unfold app_enabled. destruct (isAuthenticated s); [by right|left].
  destruct e; simpl; try done. eauto.
Qed.

Lemma app_enabled_login key dev s :
  app_enabled (EvLogin key dev) s = true -> isAuthenticated s = false.
Proof.
  unfold app_enabled. destruct (isAuthenticated s); [|done].
  simpl. by destruct (currentReadingDoc s).
Qed.

(** *** The device half: every binding names the session's device *)

Lemma app_core_initial : app_core initial_state.
Proof.
  split; simpl; try done.
  intros d Hd. by rewrite (unbound_not_truthy _ _ MOCK_DOCS_unbound Hd).
Qed.

Lemma app_core_login key dev : app_core (handleLogin key dev initial_state).
Proof.
  unfold handleLogin. split; simpl; try done.
  - decide_js; lia.
  - intros d Hd. by rewrite (unbound_not_truthy _ _ MOCK_DOCS_unbound Hd).
Qed.

(** Events that leave the user and the catalogue alone keep the invariant
    as long as the open document, if any, passes the check. *)
Lemma app_core_same_session s s' :
  app_core s -> isAuthenticated s = true -> isAuthenticated s' = true ->
  user s' = user s -> documents s' = documents s ->
  (forall d, currentReadingDoc s' = Some d -> verifyDeviceBinding d (deviceId (user s)) = true) ->
  app_core s'.
Proof.
  intros [] Ha Ha' Hu Hd Hr. split; rewrite ?Hu, ?Hd; [congruence|done..].
Qed.

Lemma app_core_buy s doc confirm :
  app_core s -> isAuthenticated s = true -> app_core (handleBuy doc confirm s).2.
Proof.
  intros Hc Ha.
  destruct (handleBuy_cases doc confirm s) as [[-> _]|[[-> _]|[[-> _]|([v ->] & _ & Hle & _)]]];
    [done..|].
  destruct Hc as [_ Hbal Hbound Hread]. split; simpl; [congruence|lia| |done].
  intros d' Hd' Ht. apply bind_docs_binding in Hd' as (d & Hd & _ & [Hb|[_ Hb]]); [|done].
  rewrite Hb in Ht |- *. by apply Hbound.
Qed.

(** A published listing is bound to its creator's device; every other
    entry after the upload was there before. *)
Lemma handleUpload_docs data random36 s d :
  d ∈ documents (handleUpload data random36 s) ->
  d ∈ documents s \/ boundDeviceId d = Some (deviceId (user s)).
Proof. simpl. intros Hd. apply elem_of_cons in Hd as [->|Hd]; [by right|left; set_solver]. Qed.

Lemma app_core_upload s data random36 :
  app_core s -> isAuthenticated s = true -> app_core (handleUpload data random36 s).
Proof.
  intros [_ Hbal Hbound Hread] Ha. split; simpl; [congruence|done| |done].
  intros d Hd Ht. destruct (handleUpload_docs data random36 s d Hd) as [?|?]; [by apply Hbound|done].
Qed.

Lemma app_core_read s doc :
  app_core s -> isAuthenticated s = true -> app_core (handleRead doc s).2.
Proof.
  intros Hc Ha. unfold handleRead.
  destruct (device_mismatch doc (deviceId (user s))) eqn:Hm; [done|].
  apply app_core_same_session with s; try done. simpl. intros d [= <-].
  rewrite device_mismatch_negb in Hm. by apply negb_false_iff.
Qed.

Lemma app_core_step s e :
  app_core s -> app_enabled e s = true -> app_core (app_dispatch e s).
Proof.
  intros Hc He.
  destruct (app_enabled_auth e s He) as [(key & dev & -> & Ha)|Ha].
  { rewrite (core_login s Hc Ha). apply app_core_login. }
  destruct e; simpl.
  - apply app_enabled_login in He. congruence.
  - apply app_core_same_session with s; try done. apply Hc.
  - by apply app_core_buy.
  - by apply app_core_read.
  - done.
  - by apply app_core_upload.
  - apply app_core_same_session with s; done.
  - done.
Qed.

Lemma app_core_reachable s : reachable s -> app_core s.
Proof. induction 1; [apply app_core_initial|]. by apply app_core_step. Qed.

(** *** The ownership half: every bound entry is in the library *)

Lemma owned_inv_step s e :
  app_core s -> owned_inv s -> app_enabled e s = true -> owned_inv (app_dispatch e s).
Proof.
  intros Hc Ho He.
  destruct (app_enabled_auth e s He) as [(key & dev & -> & Ha)|Ha].
  { rewrite (core_login s Hc Ha). intros d Hd. by rewrite (unbound_not_truthy _ _ MOCK_DOCS_unbound Hd). }
  destruct e as [key dev|v|doc confirm|doc|doc|f r| |]; simpl; try done.
  - apply app_enabled_login in He. congruence.
  - destruct (handleBuy_cases doc confirm s) as [[-> _]|[[-> _]|[[-> _]|([v0 ->] & _)]]]; [done..|].
    intros d' Hd' Ht. simpl in *. apply bind_docs_binding in Hd' as (d & Hd & -> & [Hb|[-> _]]).
    + rewrite Hb in Ht. apply elem_of_app. left. by apply Ho.
    + set_solver.
  - unfold handleRead. by destruct (device_mismatch _ _).
  - intros d Hd Ht. simpl in *. apply elem_of_cons in Hd as [->|Hd]; [set_solver|].
    apply elem_of_app. left. by apply Ho.
Qed.

Lemma owned_inv_reachable s : reachable s -> owned_inv s.
Proof.
  induction 1 as [|s e Hr IH He].
  - intros d Hd. by rewrite (unbound_not_truthy _ _ MOCK_DOCS_unbound Hd).
  - apply owned_inv_step; [apply app_core_reachable| |]; done.
Qed.

Lemma app_inv_reachable s : reachable s -> app_inv s.
Proof.
  intros Hr. destruct (app_core_reachable s Hr) as [Hl Hb Hd Hrd].
  split; [done|done| |done]. intros d Hin Ht. split; [by apply Hd|]. by apply (owned_inv_reachable s Hr).
Qed.

(** C1 (invariant): in every state the session can reach, the balance is
    non-negative, every document that carries a binding is bound to the
    session's device and listed in the user's library, and the document
    open in the reader passes [verifyDeviceBinding]. *)
Theorem reachable_app_inv s : reachable s -> app_inv s.
Proof.
  apply app_inv_reachable.
Qed.

(** ** Purchases *)

(** C4 (error): a purchase that stops at a guard (already owned, balance
    too low, confirmation declined) leaves the whole state as it was: no
    debit, no library entry, no binding, no change of view. *)
Theorem handleBuy_atomic doc confirm s :
  (handleBuy doc confirm s).1 <> BuyDone -> (handleBuy doc confirm s).2 = s.
Proof.
  destruct (handleBuy_cases doc confirm s) as [[-> _]|[[-> _]|[[-> _]|[[? ->] _]]]]; done.
Qed.

(** C5 (functional): when the document is not owned, the balance covers
    the price and the user confirms, [handleBuy] debits exactly the price,
    appends the id to the library, switches to the library view and binds
    every catalogue entry with that id to the user's device, whatever it
    was bound to before (there is no "already bound" check), leaving the
    other entries unchanged. *)
Theorem handleBuy_done doc s :
  doc_id doc ∉ library (user s) -> price doc <= balance (user s) ->
  let '(o, s') := handleBuy doc true s in
  o = BuyDone /\ view s' = LIBRARY /\
  balance (user s') = balance (user s) - price doc /\
  library (user s') = library (user s) ++ [doc_id doc] /\
  deviceId (user s') = deviceId (user s) /\
  Forall2 (fun d d' => d' = if doc_id d === doc_id doc
                            then with_boundDeviceId d (Some (deviceId (user s))) else d)
          (documents s) (documents s').
Proof.
  intros Hnot Hle. unfold handleBuy. rewrite (proj2 (includes_false _ _) Hnot).
  destruct (Z.ltb_spec (balance (user s)) (price doc)); [lia|].
  do 5 (split; [done|]). simpl. by apply Forall2_map_in.
Qed.

(** ** Bindings across a session *)

(** An entry keeps its id, and a binding it carried is kept. *)
Definition binding_kept (d d' : DocumentItem) : Prop :=
  doc_id d' = doc_id d /\
  (truthy_opt (boundDeviceId d) = true -> boundDeviceId d' = boundDeviceId d).

(** The catalogue after a step is some new entries followed by the old
    entries in order, each keeping its binding. *)
Definition docs_kept (s s' : AppState) : Prop :=
  exists pre mid, documents s' = pre ++ mid /\ Forall2 binding_kept (documents s) mid.

Lemma docs_kept_same s s' : documents s' = documents s -> docs_kept s s'.
Proof.
  intros H. exists [], (documents s). split; [by rewrite H|].
  apply Forall2_refl_in. by split.
Qed.

Lemma docs_kept_buy s doc confirm :
  app_core s -> docs_kept s (handleBuy doc confirm s).2.
Proof.
  intros Hc.
  destruct (handleBuy_cases doc confirm s) as [[-> _]|[[-> _]|[[-> _]|([? ->] & _)]]];
    try by apply docs_kept_same.
  exists []. eexists. split; [done|]. simpl. apply Forall2_map_in.
  intros d Hd. case_bool_decide as Hid; [|by split].
  split; [done|]. intros Ht. simpl. by rewrite (core_bound s Hc d Hd Ht).
Qed.

Lemma docs_kept_step s e :
  app_core s -> app_enabled e s = true -> docs_kept s (app_dispatch e s).
Proof.
  intros Hc He. destruct e; simpl; try (by apply docs_kept_same).
  - by apply docs_kept_buy.
  - unfold handleRead. destruct (device_mismatch _ _); by apply docs_kept_same.
  - eexists [_], (documents s). split; [done|]. apply Forall2_refl_in. by split.
Qed.

(** C3 (safety): along every step of a reachable session, each catalogue
    entry keeps its id and a binding, once set, never changes: the
    [UNBOUND -> BOUND(device)] transition of the spec fires at most once per
    document even though [handleBuy] itself overwrites bindings. *)
Theorem bindings_one_shot s e :
  reachable s -> app_enabled e s = true -> docs_kept s (app_dispatch e s).
Proof. intros Hr. apply docs_kept_step, app_core_reachable, Hr. Qed.

(** C13 (invariant): the library only grows: along every step of a
    reachable session the old library is a prefix of the new one. *)
Theorem library_monotone s e :
  reachable s -> app_enabled e s = true ->
  library (user s) `prefix_of` library (user (app_dispatch e s)).
Proof.
  intros Hr He. pose proof (app_core_reachable s Hr) as Hc.
  destruct (app_enabled_auth e s He) as [(key & dev & -> & Ha)|Ha].
  { rewrite (core_login s Hc Ha). apply prefix_nil. }
  destruct e as [key dev|v|doc confirm|doc|doc|f r| |]; simpl; try reflexivity.
  - apply app_enabled_login in He. congruence.
  - destruct (handleBuy_cases doc confirm s) as [[-> _]|[[-> _]|[[-> _]|[[? ->] _]]]];
      simpl; auto with js; reflexivity.
  - unfold handleRead. destruct (device_mismatch _ _); reflexivity.
  - auto with js.
Qed.

(** Once logged in, the session's device never changes. *)
Theorem session_device_fixed s e :
  reachable s -> isAuthenticated s = true -> app_enabled e s = true ->
  deviceId (user (app_dispatch e s)) = deviceId (user s).
Proof.
  intros _ Ha He. destruct e as [key dev|v|doc confirm|doc|doc|f r| |]; simpl; try done.
  - apply app_enabled_login in He. congruence.
  - destruct (handleBuy_cases doc confirm s) as [[-> _]|[[-> _]|[[-> _]|[[? ->] _]]]]; done.
  - unfold handleRead. by destruct (device_mismatch _ _).
Qed.

(** C6 (safety): within a session the DRM refusal never happens: in every
    reachable logged-in state, reading or quick-downloading any catalogue
    entry passes the device check.  The catalogue lives in memory and every
    binding it holds names the session's own device, so the check can only
    matter across sessions, which the code does not persist. *)
Theorem reachable_access_never_denied s d :
  reachable s -> d ∈ documents s ->
  (handleRead d s).1 = ReadOpened /\ handleQuickDownload (user s) d <> QuickDenied.
Proof.
  intros Hr Hd. destruct (app_core_reachable s Hr) as [_ _ Hbound _].
  assert (Hm : device_mismatch d (deviceId (user s)) = false).
  { destruct (truthy_opt (boundDeviceId d)) eqn:Ht.
    - apply device_mismatch_same. right. by apply Hbound.
    - by apply device_mismatch_unbound. }
  unfold handleRead, handleQuickDownload. by rewrite Hm.
Qed.

(** ** Prices *)

Definition prices_nonneg (docs : list DocumentItem) : Prop := Forall (fun d => 0 <= price d) docs.

Lemma bind_docs_prices docs id dev : prices_nonneg docs -> prices_nonneg (bind_docs docs id dev).
Proof.
  intros H. apply Forall_map. eapply Forall_impl; [exact H|]. intros d Hd. by case_bool_decide.
Qed.

Lemma prices_step s e :
  prices_nonneg (documents s) -> app_enabled e s = true -> prices_nonneg (documents (app_dispatch e s)).
Proof.
  intros Hp He. destruct e as [key dev|v|doc confirm|doc|doc|f r| |]; simpl; try done.
  - destruct (handleBuy_cases doc confirm s) as [[-> _]|[[-> _]|[[-> _]|[[? ->] _]]]];
      [done..|by apply bind_docs_prices].
  - unfold handleRead. by destruct (device_mismatch _ _).
  - destruct (app_enabled_auth _ _ He) as [(? & ? & [=] & _)|Ha].
    unfold app_enabled in He. rewrite Ha in He. simpl in He.
    destruct (currentReadingDoc s); [done|]. apply andb_prop in He as [_ Hv].
    constructor; [|done]. simpl. apply form_valid_spec in Hv as (_ & _ & Hv). done.
Qed.

(** C11 (invariant): every catalogue entry of every reachable state has a
    non-negative price, as the spec requires of [price]: the mock
    catalogue's prices are positive, purchases keep prices, and a
    published listing passes the upload form's [min="0"] validation. *)
Theorem reachable_prices_nonneg s : reachable s -> Forall (fun d => 0 <= price d) (documents s).
Proof.
  induction 1 as [|s e Hr IH He]; [repeat constructor; simpl; lia|].
  by apply prices_step.
Qed.

(** ** What can be read or exported

    [verifyDeviceBinding] lets any device open an unbound document, so the
    device check alone would let a session read or export the catalogue
    for free; what stops it is that the read and quick-download buttons
    exist only on the cards of the library view ([displayDocs] with
    [isLibrary]), and that while the reader is open nothing but its own
    two buttons can be used. *)

Definition reader_owned (s : AppState) : Prop :=
  forall d, currentReadingDoc s = Some d -> d ∈ documents s /\ doc_id d ∈ library (user s).

Lemma library_offer_owned docs u d a :
  (a = ClickRead d \/ a = ClickQuickDownload d) ->
  marketplace_offers docs u true a = true -> d ∈ docs /\ doc_id d ∈ library u.
Proof.
  intros [-> | ->]; cbn [marketplace_offers andb]; intros H;
    apply bool_decide_eq_true, displayDocs_elem in H as [? ?%includes_true]; done.
Qed.

Lemma enabled_access_owned s d :
  app_enabled (EvRead d) s = true \/ app_enabled (EvQuickDownload d) s = true ->
  d ∈ documents s /\ doc_id d ∈ library (user s).
Proof.
  unfold app_enabled. destruct (isAuthenticated s), (currentReadingDoc s); simpl;
    intros [H|H]; try done; apply andb_prop in H as [_ H]; eapply library_offer_owned; eauto.
Qed.

Lemma handleBuy_reader doc confirm s : currentReadingDoc (handleBuy doc confirm s).2 = currentReadingDoc s.
Proof. unfold handleBuy. by repeat case_match. Qed.

Lemma reader_owned_step s e :
  app_core s -> reader_owned s -> app_enabled e s = true -> reader_owned (app_dispatch e s).
Proof.
  intros Hc Ho He.
  destruct (app_enabled_auth e s He) as [(key & dev & -> & Ha)|Ha].
  { rewrite (core_login s Hc Ha). by intros d. }
  pose proof He as He'. unfold app_enabled in He. rewrite Ha in He. simpl in He.
  destruct (currentReadingDoc s) as [d0|] eqn:Hr.
  { destruct e; try done; by intros d. }
  destruct e as [key dev|v|doc confirm|doc|doc|f r| |]; simpl; intros d; try done.
  - simpl. by rewrite Hr.
  - by rewrite handleBuy_reader, Hr.
  - unfold handleRead. destruct (device_mismatch _ _); simpl; [by rewrite Hr|].
    intros [= <-]. apply enabled_access_owned. by left.
  - by rewrite Hr.
  - simpl. by rewrite Hr.
Qed.

Lemma reader_owned_reachable s : reachable s -> reader_owned s.
Proof.
  induction 1 as [|s e Hr IH He]; [by intros d|].
  apply reader_owned_step; [apply app_core_reachable| |]; done.
Qed.

(** C7 (safety): in every reachable session the user can read or export
    only a catalogue entry in their library: the document open in the
    reader, and every document whose read or quick-download button the
    page offers, is in the catalogue and owned. *)
Theorem access_requires_ownership s :
  reachable s ->
  (forall d, currentReadingDoc s = Some d -> d ∈ documents s /\ doc_id d ∈ library (user s)) /\
  (forall d, app_enabled (EvRead d) s = true \/ app_enabled (EvQuickDownload d) s = true ->
     d ∈ documents s /\ doc_id d ∈ library (user s)).
Proof.
  intros Hr. split; [apply reader_owned_reachable, Hr|]. intros d. apply enabled_access_owned.
Qed.

(** ** Witnesses and the spec's scenarios *)

Definition test_device : jsstr := str "DEV-1A2B3C".
Definition test_key : jsstr := str "test123@".

Definition logged_in : AppState := handleLogin test_key test_device initial_state.

Lemma logged_in_reachable : reachable logged_in.
Proof. apply (reachable_step initial_state (EvLogin test_key test_device)); [constructor|reflexivity]. Qed.

Definition doc2 : DocumentItem := nth 1 MOCK_DOCS (hd (mkDocumentItem [] [] [] 0 [] NOTES [] [] None false 0 None) MOCK_DOCS).

Lemma doc2_in_logged_in : doc2 ∈ documents logged_in.
Proof. right. left. Qed.

Lemma reachable_app_inv_witness : reachable logged_in /\ app_inv logged_in.
Proof. split; [apply logged_in_reachable|]. apply reachable_app_inv, logged_in_reachable. Defined.

(** Spec scenario 4: balance 0 (before any credit), price 50: refused, no change. *)
Lemma handleBuy_atomic_witness :
  (handleBuy (hd doc2 MOCK_DOCS) true initial_state).1 <> BuyDone /\
  (handleBuy (hd doc2 MOCK_DOCS) true initial_state).2 = initial_state.
Proof. split; [vm_compute; discriminate|]. apply handleBuy_atomic. vm_compute. discriminate. Defined.

(** A catalogue in which [doc2] is already bound to another device (not a
    reachable state): [handleBuy] rebinds it instead of refusing. *)
Definition other_bound : AppState :=
  mkAppState true MARKET (bind_docs MOCK_DOCS (doc_id doc2) (str "DEV-OTHER"))
    (user logged_in) None.

Lemma handleBuy_done_witness :
  (doc_id doc2 ∉ library (user other_bound) /\ price doc2 <= balance (user other_bound)) /\
  let '(o, s') := handleBuy doc2 true other_bound in
  o = BuyDone /\ view s' = LIBRARY /\
  balance (user s') = balance (user other_bound) - price doc2 /\
  library (user s') = library (user other_bound) ++ [doc_id doc2] /\
  deviceId (user s') = deviceId (user other_bound) /\
  Forall2 (fun d d' => d' = if doc_id d === doc_id doc2
                            then with_boundDeviceId d (Some (deviceId (user other_bound))) else d)
          (documents other_bound) (documents s').
Proof.
  split; [split; [apply not_elem_of_nil | vm_compute; discriminate]|].
  apply handleBuy_done; [apply not_elem_of_nil | vm_compute; discriminate].
Defined.

Example handleBuy_rebinds :
  boundDeviceId (nth 1 (documents (handleBuy doc2 true other_bound).2) doc2) = Some test_device.
Proof. vm_compute. reflexivity. Qed.

Definition market : AppState := setView MARKET logged_in.

Lemma market_reachable : reachable market.
Proof. apply (reachable_step logged_in (EvSetView MARKET)); [apply logged_in_reachable|reflexivity]. Qed.

Lemma bindings_one_shot_witness :
  (reachable market /\ app_enabled (EvBuy doc2 true) market = true) /\
  docs_kept market (app_dispatch (EvBuy doc2 true) market).
Proof.
  split; [split; [apply market_reachable | vm_compute; reflexivity]|].
  apply bindings_one_shot; [apply market_reachable | vm_compute; reflexivity].
Defined.

Lemma library_monotone_witness :
  (reachable market /\ app_enabled (EvBuy doc2 true) market = true) /\
  library (user market) `prefix_of` library (user (app_dispatch (EvBuy doc2 true) market)).
Proof.
  split; [split; [apply market_reachable | vm_compute; reflexivity]|].
  apply library_monotone; [apply market_reachable | vm_compute; reflexivity].
Defined.

Lemma session_device_fixed_witness :
  (reachable logged_in /\ isAuthenticated logged_in = true /\
   app_enabled (EvSetView UPLOAD) logged_in = true) /\
  deviceId (user (app_dispatch (EvSetView UPLOAD) logged_in)) = deviceId (user logged_in).
Proof.
  split; [split; [apply logged_in_reachable | split; reflexivity]|].
  apply session_device_fixed; [apply logged_in_reachable | reflexivity | reflexivity].
Defined.

Lemma reachable_access_never_denied_witness :
  (reachable logged_in /\ doc2 ∈ documents logged_in) /\
  ((handleRead doc2 logged_in).1 = ReadOpened /\
   handleQuickDownload (user logged_in) doc2 <> QuickDenied).
Proof.
  split; [split; [apply logged_in_reachable | apply doc2_in_logged_in]|].
  apply reachable_access_never_denied; [apply logged_in_reachable | apply doc2_in_logged_in].
Defined.

(** Spec scenario 1: balance 500, price 80, confirmed: balance 420, the id
    in the library, the document bound to the buyer's device. *)
Example scenario_purchase :
  exists s, run [EvLogin test_key test_device; EvSetView MARKET; EvBuy doc2 true] initial_state = Some s /\
    balance (user s) = 420 /\ library (user s) = [str "2"] /\
    boundDeviceId (nth 1 (documents s) doc2) = Some test_device.
Proof. eexists. split; [vm_compute; reflexivity|]. vm_compute. auto. Qed.

(** Spec scenario 2: declining the confirmation changes nothing. *)
Example scenario_declined :
  run [EvLogin test_key test_device; EvSetView MARKET; EvBuy doc2 false] initial_state =
  Some (setView MARKET logged_in).
Proof. vm_compute. reflexivity. Qed.

(** Spec scenario 5: buying an owned document is a silent no-op. *)
Example scenario_already_owned :
  exists s, run [EvLogin test_key test_device; EvSetView MARKET; EvBuy doc2 true] initial_state = Some s /\
    handleBuy doc2 true s = (BuyAlreadyOwned, s).
Proof. eexists. split; [vm_compute; reflexivity|]. vm_compute. reflexivity. Qed.

Lemma reachable_prices_nonneg_witness :
  reachable market /\ Forall (fun d => 0 <= price d) (documents market).
Proof. split; [apply market_reachable|]. apply reachable_prices_nonneg, market_reachable. Defined.

Lemma access_requires_ownership_witness :
  reachable market /\
  ((forall d, currentReadingDoc market = Some d -> d ∈ documents market /\ doc_id d ∈ library (user market)) /\
   (forall d, app_enabled (EvRead d) market = true \/ app_enabled (EvQuickDownload d) market = true ->
      d ∈ documents market /\ doc_id d ∈ library (user market))).
Proof. split; [apply market_reachable|]. apply access_requires_ownership, market_reachable. Defined.

(** The unbound second entry passes the device check on any device; only
    the library view keeps an unpaid copy out of the reader. *)
Example unowned_passes_device_check :
  verifyDeviceBinding doc2 test_device = true /\ doc_id doc2 ∉ library (user market) /\
  app_enabled (EvRead doc2) (setView LIBRARY market) = false.
Proof. split_and!; [reflexivity|vm_compute; set_solver|reflexivity]. Qed.

(** With an empty device id the purchase succeeds, yet the entry's binding
    is the empty string, which every truthiness test reads as unbound. *)
Example empty_device_purchase_unbound :
  let s := handleLogin (str "test123@") [] initial_state in
  let s' := (handleBuy doc2 true (setView MARKET s)).2 in
  boundDeviceId (nth 1 (documents s') doc2) = Some [] /\ truthy_opt (boundDeviceId (nth 1 (documents s') doc2)) = false.
Proof. vm_compute. split; reflexivity. Qed.
