(* ===== verification/Licensing.v ===== *)
(** * The licensing contract and its refinement by [App]

    The specification describes a licensing engine over abstract accounts
    and a per-document binding state machine [UNBOUND -> BOUND(device)];
    [purchase] fails with [AlreadyOwned], [InsufficientBalance], a declined
    consent or [AlreadyBound] (binding to a second device), and otherwise
    binds, debits and grants together; [authorize] allows an unbound
    document or its bound device.  This file states that contract
    ([Binding], [spec_bind], [spec_purchase], [spec_authorize]) and
    relates the code to it through the abstraction [abs_binding] /
    [abs_account]: an empty [boundDeviceId] counts as unbound, exactly as
    the code's truthiness tests treat it.

    The refinement theorems show that, in every reachable session,
    [handleBuy] does what [spec_purchase] prescribes (the code never meets
    the [AlreadyBound] case: by [App.app_core] a bound entry is bound to the
    session's own device, where the contract's [bind] is idempotent), and
    [verifyDeviceBinding] is [spec_authorize]. *)

From S2P Require Import Prelude Types Access App.
Open Scope Z_scope.

(** ** The contract *)

Inductive Binding := Unbound | Bound (dev : jsstr).

Record Account := mkAccount { acc_balance : Z; acc_library : list jsstr; acc_device : jsstr }.

Inductive PurchaseError := AlreadyOwned | InsufficientBalance | Declined | AlreadyBound.

Definition spec_bind (b : Binding) (dev : jsstr) : PurchaseError + Binding :=
  match b with
  | Unbound => inr (Bound dev)
  | Bound d => if d === dev then inr b else inl AlreadyBound
  end.

Definition spec_purchase (acc : Account) (id : jsstr) (price : Z) (b : Binding) (consent : bool)
  : PurchaseError + (Account * Binding) :=
  if includes (acc_library acc) id then inl AlreadyOwned
  else if acc_balance acc <? price then inl InsufficientBalance
  else if negb consent then inl Declined
  else match spec_bind b (acc_device acc) with
       | inl e => inl e
       | inr b' => inr (mkAccount (acc_balance acc - price) (acc_library acc ++ [id]) (acc_device acc), b')
       end.

Definition spec_authorize (b : Binding) (dev : jsstr) : bool :=
  match b with Unbound => true | Bound d => d === dev end.

(** ** The abstraction *)

Definition abs_binding (d : DocumentItem) : Binding :=
  match boundDeviceId d with
  | Some b => if truthy_str b then Bound b else Unbound
  | None => Unbound
  end.

Definition abs_account (u : User) : Account := mkAccount (balance u) (library u) (deviceId u).

Definition buy_outcome_of (e : PurchaseError) : BuyOutcome :=
  match e with
  | AlreadyOwned => BuyAlreadyOwned
  | InsufficientBalance => BuyInsufficient
  | Declined | AlreadyBound => BuyDeclined
  end.

(** ** Lemmas *)

Lemma abs_binding_unbound d : truthy_opt (boundDeviceId d) = false -> abs_binding d = Unbound.
Proof. unfold abs_binding. destruct (boundDeviceId d); simpl; [by intros ->|done]. Qed.

Lemma abs_binding_bound d b : boundDeviceId d = Some b -> b <> [] -> abs_binding d = Bound b.
Proof. intros Hb Hne. unfold abs_binding. rewrite Hb. by rewrite (proj2 (truthy_str_true b) Hne). Qed.

Lemma abs_binding_with d dev : dev <> [] -> abs_binding (with_boundDeviceId d (Some dev)) = Bound dev.
Proof. intros Hne. by apply abs_binding_bound. Qed.

(** The contract's purchase succeeds in the same way for an unbound
    document and for one already bound to the buyer's device. *)
Lemma spec_purchase_mine acc id p b consent :
  (b = Unbound \/ b = Bound (acc_device acc)) ->
  id ∉ acc_library acc -> p <= acc_balance acc -> consent = true ->
  spec_purchase acc id p b consent =
  inr (mkAccount (acc_balance acc - p) (acc_library acc ++ [id]) (acc_device acc), Bound (acc_device acc)).
Proof.
  intros Hb Hn Hp ->. unfold spec_purchase.
  rewrite (proj2 (includes_false _ _) Hn). destruct (Z.ltb_spec (acc_balance acc) p); [lia|].
  destruct Hb as [-> | ->]; simpl; [done|]. by rewrite bool_decide_true.
Qed.

(** C2 (refinement): in every reachable session whose device id is not
    empty, [handleBuy] on a catalogue entry does what the contract's
    [purchase] prescribes: each refusal of the contract is the matching
    early return of the code with the state untouched (and the contract's
    [AlreadyBound] refusal never arises), and a successful purchase leaves
    the abstract account the contract computes and every entry with that
    id in the binding the contract computes. *)
Theorem handleBuy_refines s doc confirm :
  reachable s -> doc ∈ documents s -> deviceId (user s) <> [] ->
  match spec_purchase (abs_account (user s)) (doc_id doc) (price doc) (abs_binding doc) confirm with
  | inl e => e <> AlreadyBound /\ handleBuy doc confirm s = (buy_outcome_of e, s)
  | inr (acc', b') =>
      (handleBuy doc confirm s).1 = BuyDone /\
      abs_account (user (handleBuy doc confirm s).2) = acc' /\
      forall d', d' ∈ documents (handleBuy doc confirm s).2 -> doc_id d' = doc_id doc ->
                 abs_binding d' = b'
  end.
Proof.
  intros Hr Hd Hne. pose proof (app_core_reachable s Hr) as Hc.
  destruct (handleBuy_cases doc confirm s)
    as [[-> Hin]|[[-> [Hn Hlt]]|[[-> (Hn & Hle & ->)]|([v ->] & Hn & Hle & ->)]]].
  - unfold spec_purchase. simpl. by rewrite (proj2 (includes_true _ _) Hin).
  - unfold spec_purchase. simpl. rewrite (proj2 (includes_false _ _) Hn).
    by destruct (Z.ltb_spec (balance (user s)) (price doc)); [|lia].
  - unfold spec_purchase. simpl. rewrite (proj2 (includes_false _ _) Hn).
    by destruct (Z.ltb_spec (balance (user s)) (price doc)); [lia|].
  - assert (Hb : abs_binding doc = Unbound \/ abs_binding doc = Bound (deviceId (user s))).
    { destruct (truthy_opt (boundDeviceId doc)) eqn:Ht; [right|left; by apply abs_binding_unbound].
      apply abs_binding_bound; [exact (core_bound s Hc doc Hd Ht)|done]. }
    rewrite (spec_purchase_mine (abs_account (user s)) _ _ _ _ Hb) by done. simpl. split_and!; [done|done|].
    intros d' Hd' Hid. apply bind_docs_elem in Hd' as (d & _ & ->).
    case_bool_decide as Heq; [by apply abs_binding_with|]. simpl in Hid. congruence.
Qed.

(** C9 (refinement): [verifyDeviceBinding] is the contract's [authorize]
    on the abstract binding of the document. *)
Theorem verifyDeviceBinding_refines d dev :
  verifyDeviceBinding d dev = spec_authorize (abs_binding d) dev.
Proof.
  destruct (truthy_opt (boundDeviceId d)) eqn:Ht.
  - apply truthy_opt_true in Ht as (b & Hb & Hne).
    by rewrite (verifyDeviceBinding_bound d b dev Hb Hne), (abs_binding_bound d b Hb Hne).
  - by rewrite (verifyDeviceBinding_unbound d dev Ht), (abs_binding_unbound d Ht).
Qed.

(** ** Witnesses *)

Lemma handleBuy_refines_witness :
  (reachable market /\ doc2 ∈ documents market /\ deviceId (user market) <> []) /\
  match spec_purchase (abs_account (user market)) (doc_id doc2) (price doc2) (abs_binding doc2) true with
  | inl e => e <> AlreadyBound /\ handleBuy doc2 true market = (buy_outcome_of e, market)
  | inr (acc', b') =>
      (handleBuy doc2 true market).1 = BuyDone /\
      abs_account (user (handleBuy doc2 true market).2) = acc' /\
      forall d', d' ∈ documents (handleBuy doc2 true market).2 -> doc_id d' = doc_id doc2 ->
                 abs_binding d' = b'
  end.
Proof.
  split; [split; [apply market_reachable | split; [apply doc2_in_logged_in | done]]|].
  apply handleBuy_refines; [apply market_reachable | apply doc2_in_logged_in | done].
Defined.

