(* ===== verification/Page.v ===== *)
(** * The session page with its live upload form: [App.tsx] rendering [UploadModal]

    [App] renders [<UploadModal onUpload={handleUpload} onCancel=...>]
    while [view === 'UPLOAD'].  The modal's state lives as long as it stays
    mounted: a step that leaves the upload view unmounts it, and coming
    back mounts a fresh one ([useState] initial values).  An outstanding
    [analyzeDocument] call of an unmounted modal resolves into nothing.

    [PageState] pairs [App]'s state with the modal's; [page_step] runs an
    event of [App] (the upload excepted), an event of the modal, or the
    form's submit, which hands the modal's own form to [handleUpload].
    [App] alone lets the upload event carry any valid form; [page_refines]
    shows that every state of the composed page projects onto a reachable
    [App] state and a reachable modal state, so the properties of [App]
    hold of the page, and that the modal is at its mount state whenever
    the upload view is not shown. *)

From S2P Require Import Prelude Types Access Marketplace Gemini Upload App.
Open Scope Z_scope.

Record PageState := mkPageState { page_app : AppState; page_modal : UploadModal }.

Definition page_init : PageState := mkPageState initial_state upload_mount.

Inductive PageEvent :=
  | PApp (e : AppEvent)              (* any event of App but the upload *)
  | PModal (e : UploadEvent)         (* an input, the AI button, or the call's completion *)
  | PSubmit (random36 : jsstr).      (* the form's onSubmit: onUpload(draft) *)

Definition is_upload (e : AppEvent) : bool := match e with EvUpload _ _ => true | _ => false end.

(** The modal is mounted while the page shows the upload view. *)
Definition modal_mounted (s : AppState) : bool :=
  isAuthenticated s && (view s === UPLOAD).

(** After an [App] step the modal keeps its state only if it stays mounted. *)
Definition remount (s s' : AppState) (m : UploadModal) : UploadModal :=
  if modal_mounted s && modal_mounted s' then m else upload_mount.

Definition page_enabled (e : PageEvent) (ps : PageState) : bool :=
  match e with
  | PApp ae => negb (is_upload ae) && app_enabled ae (page_app ps)
  | PModal ue => modal_mounted (page_app ps) && upload_enabled ue (page_modal ps)
  | PSubmit r => app_enabled (EvUpload (modal_form (page_modal ps)) r) (page_app ps)
  end.

Definition page_step (e : PageEvent) (ps : PageState) : PageState :=
  let s := page_app ps in
  match e with
  | PApp ae => let s' := app_dispatch ae s in mkPageState s' (remount s s' (page_modal ps))
  | PModal ue => mkPageState s (upload_step ue (page_modal ps))
  | PSubmit r =>
      let s' := app_dispatch (EvUpload (modal_form (page_modal ps)) r) s in
      mkPageState s' (remount s s' (page_modal ps))
  end.

Inductive page_reachable : PageState -> Prop :=
  | page_reachable_init : page_reachable page_init
  | page_reachable_step ps e :
      page_reachable ps -> page_enabled e ps = true -> page_reachable (page_step e ps).

Fixpoint page_run (es : list PageEvent) (ps : PageState) : option PageState :=
  match es with
  | [] => Some ps
  | e :: es' => if page_enabled e ps then page_run es' (page_step e ps) else None
  end.

(** ** Lemmas *)

Lemma remount_reachable s s' m : upload_reachable m -> upload_reachable (remount s s' m).
Proof. intros Hm. unfold remount. case_match; [done|constructor]. Qed.

Lemma remount_unmounted s s' m : modal_mounted s' = false -> remount s s' m = upload_mount.
Proof. intros H. unfold remount. by rewrite H, andb_false_r. Qed.

Lemma page_run_reachable es ps ps' : page_reachable ps -> page_run es ps = Some ps' -> page_reachable ps'.
Proof.
  revert ps. induction es as [|e es IH]; intros ps Hps; simpl; [by intros [= <-]|].
  destruct (page_enabled e ps) eqn:He; [|done]. intros. eapply IH; [|done]. by constructor.
Qed.

(** The modal is at its mount state whenever it is not mounted. *)
Definition modal_fresh (ps : PageState) : Prop :=
  modal_mounted (page_app ps) = false -> page_modal ps = upload_mount.

Lemma modal_fresh_step ps e :
  modal_fresh ps -> page_enabled e ps = true -> modal_fresh (page_step e ps).
Proof.
  intros Hf He. destruct e as [ae|ue|r]; simpl in *; unfold modal_fresh; simpl.
  - intros H. by apply remount_unmounted.
  - apply andb_prop in He as [Hm _]. by rewrite Hm.
  - intros H. by apply remount_unmounted.
Qed.

(** Every state of the page with its live upload form
    projects onto a reachable state of [App] and a reachable state of the
    modal, and the modal is at its mount state (empty form, no outstanding
    analysis) whenever the upload view is not shown: leaving the view
    discards the form and any analysis in flight. *)
Theorem page_refines ps :
  page_reachable ps ->
  reachable (page_app ps) /\ upload_reachable (page_modal ps) /\
  (modal_mounted (page_app ps) = false -> page_modal ps = upload_mount).
Proof.
  induction 1 as [|ps e Hr (IHa & IHm & IHf) He]; [split_and!; [constructor..|done]|].
  split_and!; [| |by apply (modal_fresh_step ps e)].
  - destruct e as [ae|ue|r]; cbn [page_enabled page_step page_app] in *;
      [apply andb_prop in He as [_ He]| |]; [exact (reachable_step _ _ IHa He)|done|
                                               exact (reachable_step _ _ IHa He)].
  - destruct e as [ae|ue|r]; cbn [page_enabled page_step page_modal] in *;
      try by apply remount_reachable.
    apply andb_prop in He as [_ He]. by constructor.
Qed.

(** ** Runs *)

Definition upload_session : list PageEvent :=
  [PApp (EvLogin test_key test_device); PApp (EvSetView UPLOAD);
   PModal (UTitle (str "Triết học")); PModal (UDescription (str "Đề cương ôn tập"));
   PModal (UPrice 30); PModal UAnalyze].

(** Signed in, on the upload view, with the analysis in flight. *)
Definition analysis_pending : PageState :=
  match page_run upload_session page_init with Some ps => ps | None => page_init end.

Lemma analysis_pending_reachable : page_reachable analysis_pending.
Proof.
  unfold analysis_pending. destruct (page_run _ _) eqn:E; [|constructor].
  eapply page_run_reachable; [constructor|exact E].
Qed.

Lemma page_refines_witness :
  page_reachable analysis_pending /\
  (reachable (page_app analysis_pending) /\ upload_reachable (page_modal analysis_pending) /\
   (modal_mounted (page_app analysis_pending) = false -> page_modal analysis_pending = upload_mount)).
Proof. split; [apply analysis_pending_reachable|]. apply page_refines, analysis_pending_reachable. Defined.

(** Going home and back while the analysis runs discards the form and the
    analysis: the modal comes back empty, with no completion to wait for. *)
Example leaving_drops_analysis :
  is_Some (pending_analysis (page_modal analysis_pending)) /\
  page_run [PApp (EvSetView HOME); PApp (EvSetView UPLOAD)] analysis_pending =
    Some (mkPageState (setView UPLOAD (setView HOME (page_app analysis_pending))) upload_mount) /\
  page_enabled (PModal (UAnalyzeDone GenerateFailed))
    (mkPageState (setView UPLOAD (setView HOME (page_app analysis_pending))) upload_mount) = false.
Proof. split_and!; [eexists; reflexivity|reflexivity|reflexivity]. Qed.

(** The form can be submitted while the analysis runs: the listing goes out
    without AI summary or tags, and the analysis is dropped with the modal. *)
Example submit_during_analysis :
  exists s', page_run [PSubmit (str "0.k3j9x2m1q")] analysis_pending = Some (mkPageState s' upload_mount) /\
    view s' = MARKET /\
    option_map aiSummary (head (documents s')) = Some (Some []) /\
    option_map tags (head (documents s')) = Some [].
Proof. eexists. split_and!; reflexivity. Qed.
