(* ===== verification/Navbar.v ===== *)
(** * Navigation: [src/components/Navbar.tsx] and [src/components/Hero.tsx]

    The navbar is rendered above every view of a session: the logo and
    four menu items call [setView], the item of the current view is
    highlighted, and the user's balance is printed as [{user.balance}
    Credits].  The home view's hero offers two more [setView] buttons, and
    the upload form's cancel button ([App.tsx], [onCancel]) a third.

    [App.app_enabled] lets a session switch to any view whenever no
    document is open in the reader; [setView_offered] shows the page offers
    exactly those switches, so the abstraction is exact.  [balance_shown]
    composes the navbar with the session invariant of [App]: the label is
    always the balance's decimal digits, never a minus sign. *)

From S2P Require Import Prelude JsString Types Access Marketplace App.
Open Scope Z_scope.

Record NavItem := mkNavItem { nav_id : ViewState; nav_label : jsstr; nav_icon : jsstr }.

Definition navItems : list NavItem := [
  mkNavItem HOME (str "Trang Chủ") (str "🏠");
  mkNavItem MARKET (str "Chợ Tài Liệu") (str "🛒");
  mkNavItem LIBRARY (str "Kho Của Tôi") (str "📚");
  mkNavItem UPLOAD (str "Bán Tài Liệu") (str "📤")
].

(** [{user.balance} Credits] *)
Definition balance_label (u : User) : jsstr := to_string_radix 10 (balance u) ++ str " Credits".

(** The menu buttons with their highlight [currentView === item.id]. *)
Definition nav_buttons (currentView : ViewState) : list (NavItem * bool) :=
  map (fun it => (it, bool_decide (currentView = nav_id it))) navItems.

Record NavbarView := mkNavbarView {
  navbar_buttons : list (NavItem * bool);
  navbar_balance : jsstr;
  navbar_avatar : jsstr
}.

Definition render_navbar (currentView : ViewState) (u : User) : NavbarView :=
  mkNavbarView (nav_buttons currentView) (balance_label u) (str "https://picsum.photos/seed/user/100/100").

(** The views the navbar's logo and items switch to. *)
Definition navbar_targets : list ViewState := HOME :: map nav_id navItems.

(** The hero's buttons: [Khám Phá Ngay] and [Bán Tài Liệu]. *)
Definition hero_buttons : list (jsstr * ViewState) :=
  [(str "Khám Phá Ngay 🚀", MARKET); (str "Bán Tài Liệu 💵", UPLOAD)].

(** Every [setView] call the rendered page offers in view [v]: the navbar,
    the hero on the home view, the upload form's cancel on the upload view. *)
Definition page_setView_targets (v : ViewState) : list ViewState :=
  navbar_targets ++ (if v === HOME then map snd hero_buttons else [])
  ++ (if v === UPLOAD then [HOME] else []).

(** ** Lemmas *)

Lemma navbar_targets_all v : v ∈ navbar_targets.
Proof. destruct v; unfold navbar_targets; simpl; set_solver. Qed.

(** Exactly one menu item is highlighted: the current view's. *)
Lemma nav_buttons_active v :
  exists it, List.filter snd (nav_buttons v) = [(it, true)] /\ nav_id it = v.
Proof. destruct v; eexists; split; reflexivity. Qed.

(** In a session with no document open, the page offers a
    switch to view [v], from the navbar, the hero or the upload form's
    cancel button, exactly when [App.app_enabled] enables [EvSetView v]:
    the navbar alone reaches every view. *)
Theorem setView_offered s v :
  isAuthenticated s = true -> currentReadingDoc s = None ->
  (app_enabled (EvSetView v) s = true <-> v ∈ page_setView_targets (view s)).
Proof.
  intros Ha Hr. unfold app_enabled. rewrite Ha, Hr. simpl. split; [|done].
  intros _. apply elem_of_app. left. apply navbar_targets_all.
Qed.

(** C12 (safety): in every reachable session the navbar's balance is the
    decimal digits of the balance followed by [" Credits"]: it reads back
    as the balance and, the balance never being negative, has no minus
    sign. *)
Theorem balance_shown s :
  reachable s ->
  exists ds, balance_label (user s) = ds ++ str " Credits" /\ ds <> [] /\
             Forall (fun c => 48 <= c <= 57) ds /\ parse_radix 10 ds = balance (user s).
Proof.
  intros Hr. pose proof (core_balance s (app_core_reachable s Hr)) as Hb.
  exists (to_string_radix 10 (balance (user s))).
  destruct (to_string_radix_decimal _ Hb). split_and!; [done..|].
  apply parse_to_string_radix; lia.
Qed.

(** ** Witnesses *)

Lemma setView_offered_witness :
  (isAuthenticated market = true /\ currentReadingDoc market = None) /\
  (app_enabled (EvSetView UPLOAD) market = true <-> UPLOAD ∈ page_setView_targets (view market)).
Proof.
  assert (Ha : isAuthenticated market = true) by reflexivity.
  assert (Hr : currentReadingDoc market = None) by reflexivity.
  split; [split; [exact Ha|exact Hr]|]. apply setView_offered; [exact Ha|exact Hr].
Defined.

Lemma balance_shown_witness :
  reachable market /\
  exists ds, balance_label (user market) = ds ++ str " Credits" /\ ds <> [] /\
             Forall (fun c => 48 <= c <= 57) ds /\ parse_radix 10 ds = balance (user market).
Proof. split; [apply market_reachable|]. apply balance_shown, market_reachable. Defined.

Example navbar_after_login :
  navbar_balance (render_navbar (view market) (user market)) = str "500 Credits".
Proof. reflexivity. Qed.
