(* ===== verification/Login.v ===== *)
(** * The login gate: [src/components/Login.tsx]

    The component keeps [inputKey], [status], [error], [attempts] and
    [deviceId] in [useState].  On mount its effect stores [getDeviceId()].
    [handleSubmit] is asynchronous: it sets [SCANNING], awaits a 1500 ms
    delay, then either succeeds (status [SUCCESS], and an 800 ms timer calls
    [onLogin(inputKey, deviceId)]) or counts a failure, locking the form for
    10 s at the third.

    The model keeps, next to the fields, the continuations that are pending:
    [pending_scan] (the code after the [await], with the [inputKey],
    [attempts] and [deviceId] its closure captured), [pending_login] (the
    800 ms timer and the arguments it will pass) and [pending_unlock] (the
    10 s timer).  [login_step] runs one event; [login_enabled] is what the
    page allows: typing only while [IDLE] (the input is disabled while
    scanning or after success, and the form is not rendered while locked),
    submitting only while [IDLE] (the submit button is disabled otherwise,
    which also blocks implicit submission), and a continuation only when it
    is pending. *)

From stdpp Require Import gmap.
From S2P Require Import Prelude JsString DeviceId.
Open Scope Z_scope.

Inductive LoginStatus := IDLE | SCANNING | LOCKED | SUCCESS.

#[export] Instance LoginStatus_eq_dec : EqDecision LoginStatus.
Proof. solve_decision. Defined.

Record LoginState := mkLoginState {
  inputKey : jsstr;
  status : LoginStatus;
  error : jsstr;
  attempts : Z;
  login_deviceId : jsstr;
  pending_scan : option (jsstr * Z * jsstr);
  pending_login : option (jsstr * jsstr);
  pending_unlock : bool
}.

(** The mount effect: [setDeviceId(getDeviceId())]. *)
Definition login_mount (env : Env) (ls : LocalStorage) : LoginState * LocalStorage :=
  let '(dev, ls') := getDeviceId env ls in
  (mkLoginState [] IDLE [] 0 dev None None false, ls').

Definition valid_key (key : jsstr) : bool :=
  (key === str "test123@") || (key === str "vip123@").

Definition lock_message : jsstr := str "⚠️ PHÁT HIỆN XÂM NHẬP: Hệ thống đã bị khóa tạm thời.".

Definition retry_message (newAttempts : Z) : jsstr :=
  str "Mã truy cập không hợp lệ. Còn lại " ++ to_string_radix 10 (3 - newAttempts) ++ str " lần thử.".

(** [handleSubmit] up to the [await]. *)
Definition handleSubmit_start (st : LoginState) : LoginState :=
  if status st === LOCKED then st
  else mkLoginState (inputKey st) SCANNING [] (attempts st) (login_deviceId st)
         (Some (inputKey st, attempts st, login_deviceId st)) (pending_login st) (pending_unlock st).

(** [handleSubmit] after the [await], with the values its closure captured. *)
Definition handleSubmit_resume (key : jsstr) (att : Z) (dev : jsstr) (st : LoginState) : LoginState :=
  if valid_key key then
    mkLoginState (inputKey st) SUCCESS (error st) (attempts st) (login_deviceId st)
      None (Some (key, dev)) (pending_unlock st)
  else
    let newAttempts := att + 1 in
    if newAttempts >=? 3 then
      mkLoginState (inputKey st) LOCKED lock_message newAttempts (login_deviceId st)
        None (pending_login st) true
    else
      mkLoginState (inputKey st) IDLE (retry_message newAttempts) newAttempts (login_deviceId st)
        None (pending_login st) (pending_unlock st).

(** The 10 s timer: [setAttempts(0); setStatus('IDLE'); setError('')]. *)
Definition unlock (st : LoginState) : LoginState :=
  mkLoginState (inputKey st) IDLE [] 0 (login_deviceId st) (pending_scan st) (pending_login st) false.

(** [onChange] of the input: [setInputKey(v); setError('')]. *)
Definition input_change (v : jsstr) (st : LoginState) : LoginState :=
  mkLoginState v (status st) [] (attempts st) (login_deviceId st)
    (pending_scan st) (pending_login st) (pending_unlock st).

Inductive LoginEvent :=
  | LInput (v : jsstr)
  | LSubmit
  | LScanDone
  | LLoginTimer
  | LUnlockTimer.

Definition login_enabled (e : LoginEvent) (st : LoginState) : bool :=
  match e with
  | LInput _ | LSubmit => status st === IDLE
  | LScanDone => bool_decide (is_Some (pending_scan st))
  | LLoginTimer => bool_decide (is_Some (pending_login st))
  | LUnlockTimer => pending_unlock st
  end.

(** One event; the second component is the [onLogin(key, deviceId)] call
    the event makes, if any. *)
Definition login_step (e : LoginEvent) (st : LoginState) : LoginState * option (jsstr * jsstr) :=
  match e with
  | LInput v => (input_change v st, None)
  | LSubmit => (handleSubmit_start st, None)
  | LScanDone =>
      match pending_scan st with
      | Some (key, att, dev) => (handleSubmit_resume key att dev st, None)
      | None => (st, None)
      end
  | LLoginTimer =>
      (mkLoginState (inputKey st) (status st) (error st) (attempts st) (login_deviceId st)
         (pending_scan st) None (pending_unlock st), pending_login st)
  | LUnlockTimer => (unlock st, None)
  end.

Inductive login_reachable (dev : jsstr) : LoginState -> Prop :=
  | login_reachable_init : login_reachable dev (mkLoginState [] IDLE [] 0 dev None None false)
  | login_reachable_step st e :
      login_reachable dev st -> login_enabled e st = true ->
      login_reachable dev (login_step e st).1.

Fixpoint login_run (es : list LoginEvent) (st : LoginState) : option (LoginState * list (jsstr * jsstr)) :=
  match es with
  | [] => Some (st, [])
  | e :: es' =>
      if login_enabled e st then
        let '(st', out) := login_step e st in
        match login_run es' st' with
        | Some (st'', outs) => Some (st'', option_list out ++ outs)
        | None => None
        end
      else None
  end.

(** ** The gate's invariant *)

Record login_inv (dev : jsstr) (st : LoginState) : Prop := {
  linv_device : login_deviceId st = dev;
  linv_attempts : 0 <= attempts st <= 3;
  linv_locked : status st = LOCKED <-> pending_unlock st = true;
  linv_locked_attempts : status st = LOCKED -> attempts st = 3;
  linv_open_attempts : status st <> LOCKED -> attempts st <= 2;
  linv_scan : pending_scan st =
                if status st === SCANNING then Some (inputKey st, attempts st, dev) else None;
  linv_login : forall k d, pending_login st = Some (k, d) ->
                 status st = SUCCESS /\ valid_key k = true /\ d = dev
}.

(** Closes the field goals of [login_inv] after a step. *)
Ltac linv_close :=
  try done; try lia;
  try (split; intros; (discriminate || congruence));
  try (intros; lia);
  try (case_bool_decide; congruence);
  try (intros ? ? [= <- <-]; split_and!; done);
  try (intros ? ? [=]).

Lemma login_inv_init dev : login_inv dev (mkLoginState [] IDLE [] 0 dev None None false).
Proof. split; simpl; try done; lia. Qed.

Lemma pending_login_none dev st : login_inv dev st -> status st <> SUCCESS -> pending_login st = None.
Proof.
  intros Hi Hs. destruct (pending_login st) as [[k d]|] eqn:E; [|done].
  by destruct (linv_login dev st Hi k d E).
Qed.

Lemma login_inv_submit dev st :
  login_inv dev st -> status st = IDLE -> login_inv dev (handleSubmit_start st).
Proof.
  intros Hi Hs. pose proof (pending_login_none dev st Hi ltac:(congruence)) as Hl.
  destruct Hi as [Hd Ha Hlk Hla Hoa Hsc Hlg].
  unfold handleSubmit_start. rewrite Hs. simpl.
  split; simpl; rewrite ?Hl, ?Hd; try done.
  - rewrite <- Hlk, Hs. done.
  - intros _. apply Hoa. congruence.
Qed.

Lemma login_inv_resume dev st key att d :
  login_inv dev st -> pending_scan st = Some (key, att, d) ->
  login_inv dev (handleSubmit_resume key att d st).
Proof.
  intros Hi Hp. pose proof Hi as [Hd Ha Hlk Hla Hoa Hsc Hlg].
  rewrite Hsc in Hp. case_bool_decide as Hs; [|done]. injection Hp as <- <- <-.
  pose proof (pending_login_none dev st Hi ltac:(congruence)) as Hl.
  assert (pending_unlock st = false) as Hu.
  { destruct (pending_unlock st) eqn:E; [|done]. apply (linv_locked dev st Hi) in E. congruence. }
  assert (attempts st <= 2) by (apply Hoa; congruence).
  unfold handleSubmit_resume. destruct (valid_key (inputKey st)) eqn:Hv.
  { split; simpl; rewrite ?Hu, ?Hd; linv_close. }
  destruct (Z.geb_spec (attempts st + 1) 3).
  - split; simpl; rewrite ?Hl, ?Hd; linv_close.
  - split; simpl; rewrite ?Hl, ?Hu, ?Hd; linv_close.
Qed.

Lemma login_inv_step dev st e :
  login_inv dev st -> login_enabled e st = true -> login_inv dev (login_step e st).1.
Proof.
  intros Hi He. destruct e as [v| | | |]; simpl in *.
  - apply bool_decide_eq_true in He. destruct Hi as [Hd Ha Hlk Hla Hoa Hsc Hlg].
    split; simpl; try done. by rewrite Hsc, He.
  - apply bool_decide_eq_true in He. by apply login_inv_submit.
  - destruct (pending_scan st) as [[[key att] d]|] eqn:Hp; [|done].
    by apply login_inv_resume with (1 := Hi).
  - destruct Hi as [Hd Ha Hlk Hla Hoa Hsc Hlg]. split; simpl; linv_close.
  - destruct Hi as [Hd Ha Hlk Hla Hoa Hsc Hlg].
    apply Hlk in He. split; simpl; linv_close.
    all: try (by rewrite Hsc, He).
    all: match goal with H : pending_login _ = Some _ |- _ => destruct (Hlg _ _ H); congruence end.
Qed.

Lemma login_inv_reachable dev st : login_reachable dev st -> login_inv dev st.
Proof. induction 1; [apply login_inv_init|]. by apply login_inv_step. Qed.

(** C20 (invariant): in every reachable state of the gate, the device id is
    the one read on mount, the failure count stays within 0..3, the form is
    locked exactly while the unlock timer is pending and then the count is
    3, a pending scan carries the current key, count and device, and a
    pending [onLogin] carries a valid key and the mounted device id. *)
Theorem login_reachable_inv dev st : login_reachable dev st -> login_inv dev st.
Proof.
  induction 1; [apply login_inv_init|]. by apply login_inv_step.
Qed.

Lemma onLogin_only_valid_core dev st e st' k d :
  login_reachable dev st -> login_step e st = (st', Some (k, d)) ->
  valid_key k = true /\ d = dev.
Proof.
  intros Hr Hs. pose proof (login_inv_reachable dev st Hr) as Hi.
  destruct e as [v| | | |]; simpl in Hs; try discriminate.
  - destruct (pending_scan st) as [[[? ?] ?]|]; discriminate.
  - injection Hs as _ Hp. by destruct (linv_login dev st Hi k d Hp) as (_ & ? & ?).
Qed.

(** C21 (safety): the gate calls [onLogin] only with one of the two valid
    pass keys and with the device id it read from [getDeviceId] on mount. *)
Theorem onLogin_only_valid dev st e st' k d :
  login_reachable dev st -> login_step e st = (st', Some (k, d)) ->
  valid_key k = true /\ d = dev.
Proof. apply onLogin_only_valid_core. Qed.

(** C22 (safety): while the gate is locked nothing can happen but the
    10 s unlock timer: no typing, no submission, no pending scan or login. *)
Theorem locked_only_unlock dev st e :
  login_reachable dev st -> status st = LOCKED -> login_enabled e st = true -> e = LUnlockTimer.
Proof.
  intros Hr Hs He. pose proof (login_inv_reachable dev st Hr) as Hi.
  destruct e as [v| | | |]; simpl in He; try done; apply bool_decide_eq_true in He.
  1,2: congruence.
  - rewrite (linv_scan dev st Hi), Hs in He. case_bool_decide; [done|]. by destruct He.
  - rewrite (pending_login_none dev st Hi ltac:(congruence)) in He. by destruct He.
Qed.

(** C23 (functional): a failed scan locks the gate exactly when it is the
    third failure in a row; otherwise the gate reopens and the message says
    how many tries are left. *)
Theorem failed_scan_locks dev st key att d :
  login_reachable dev st -> pending_scan st = Some (key, att, d) -> valid_key key = false ->
  (status (handleSubmit_resume key att d st) = LOCKED <-> attempts st = 2) /\
  (attempts st < 2 -> error (handleSubmit_resume key att d st) = retry_message (attempts st + 1)).
Proof.
  intros Hr Hp Hv. pose proof (login_inv_reachable dev st Hr) as Hi.
  rewrite (linv_scan dev st Hi) in Hp. case_bool_decide as Hs; [|done].
  injection Hp as <- <- <-.
  assert (attempts st <= 2) by (apply (linv_open_attempts dev st Hi); congruence).
  unfold handleSubmit_resume. rewrite Hv.
  destruct (Z.geb_spec (attempts st + 1) 3); simpl.
  - split; [split; intros; [lia|done] | intros; lia].
  - split; [split; intros; [discriminate|lia] | done].
Qed.

(** ** Runs and witnesses *)

Lemma login_run_reachable dev es st st' outs :
  login_reachable dev st -> login_run es st = Some (st', outs) -> login_reachable dev st'.
Proof.
  revert st outs. induction es as [|e es IH]; intros st outs Hr; simpl; [by intros [= <- _]|].
  destruct (login_enabled e st) eqn:He; [|done].
  destruct (login_step e st) as [st1 out] eqn:Hs.
  destruct (login_run es st1) as [[st2 outs2]|] eqn:Hrun; [|done]. intros [= <- _].
  apply (IH st1 outs2); [|done].
  replace st1 with (login_step e st).1 by (by rewrite Hs). by constructor.
Qed.

Definition gate_device : jsstr := str "DEV-5F3A".
Definition gate_ready : LoginState := mkLoginState [] IDLE [] 0 gate_device None None false.
Definition bad_key : jsstr := str "hunter2".

Definition one_failure : list LoginEvent := [LInput bad_key; LSubmit; LScanDone].

Definition accepted : LoginState :=
  mkLoginState (str "test123@") SUCCESS [] 0 gate_device None (Some (str "test123@", gate_device)) false.

Lemma accepted_run :
  login_run [LInput (str "test123@"); LSubmit; LScanDone] gate_ready = Some (accepted, []).
Proof. vm_compute. reflexivity. Qed.

Lemma accepted_reachable : login_reachable gate_device accepted.
Proof. eapply login_run_reachable; [constructor|apply accepted_run]. Qed.

Lemma onLogin_only_valid_witness :
  (login_reachable gate_device accepted /\
   login_step LLoginTimer accepted =
     ((login_step LLoginTimer accepted).1, Some (str "test123@", gate_device))) /\
  (valid_key (str "test123@") = true /\ gate_device = gate_device).
Proof.
  split; [split; [apply accepted_reachable | reflexivity]|].
  apply (onLogin_only_valid gate_device accepted LLoginTimer (login_step LLoginTimer accepted).1);
    [apply accepted_reachable | reflexivity].
Defined.

Definition locked_state : LoginState :=
  mkLoginState bad_key LOCKED lock_message 3 gate_device None None true.

Lemma locked_run :
  login_run (one_failure ++ one_failure ++ one_failure) gate_ready = Some (locked_state, []).
Proof. vm_compute. reflexivity. Qed.

Lemma locked_reachable : login_reachable gate_device locked_state.
Proof. eapply login_run_reachable; [constructor|apply locked_run]. Qed.

Lemma locked_only_unlock_witness :
  (login_reachable gate_device locked_state /\ status locked_state = LOCKED /\
   login_enabled LUnlockTimer locked_state = true) /\ LUnlockTimer = LUnlockTimer.
Proof.
  split; [split; [apply locked_reachable | split; reflexivity]|].
  apply (locked_only_unlock gate_device locked_state LUnlockTimer);
    [apply locked_reachable | reflexivity | reflexivity].
Defined.

Definition third_scan : LoginState :=
  mkLoginState bad_key SCANNING [] 2 gate_device (Some (bad_key, 2, gate_device)) None false.

Lemma third_scan_run :
  login_run (one_failure ++ one_failure ++ [LSubmit]) gate_ready = Some (third_scan, []).
Proof. vm_compute. reflexivity. Qed.

Lemma third_scan_reachable : login_reachable gate_device third_scan.
Proof. eapply login_run_reachable; [constructor|apply third_scan_run]. Qed.

Lemma failed_scan_locks_witness :
  (login_reachable gate_device third_scan /\
   pending_scan third_scan = Some (bad_key, 2, gate_device) /\ valid_key bad_key = false) /\
  ((status (handleSubmit_resume bad_key 2 gate_device third_scan) = LOCKED <-> attempts third_scan = 2) /\
   (attempts third_scan < 2 ->
    error (handleSubmit_resume bad_key 2 gate_device third_scan) = retry_message (attempts third_scan + 1))).
Proof.
  pose proof third_scan_reachable as Hr.
  split; [split; [exact Hr | split; reflexivity]|].
  apply (failed_scan_locks gate_device third_scan bad_key 2 gate_device);
    [exact Hr | reflexivity | reflexivity].
Defined.

(** The first failure leaves two tries, the unlock timer reopens the gate. *)
Example first_failure_message :
  login_run one_failure gate_ready =
  Some (mkLoginState bad_key IDLE (str "Mã truy cập không hợp lệ. Còn lại 2 lần thử.") 1
          gate_device None None false, []).
Proof. vm_compute. reflexivity. Qed.

Example unlock_reopens :
  login_run [LUnlockTimer] locked_state =
  Some (mkLoginState bad_key IDLE [] 0 gate_device None None false, []).
Proof. vm_compute. reflexivity. Qed.

Example accepted_calls_onLogin :
  login_run [LLoginTimer] accepted =
  Some (mkLoginState (str "test123@") SUCCESS [] 0 gate_device None None false,
        [(str "test123@", gate_device)]).
Proof. vm_compute. reflexivity. Qed.

Lemma login_reachable_inv_witness :
  login_reachable gate_device third_scan /\ login_inv gate_device third_scan.
Proof. split; [apply third_scan_reachable|]. apply login_reachable_inv, third_scan_reachable. Defined.
