(* ===== verification/LoginView.v ===== *)
(** * What the login gate shows: the render of [src/components/Login.tsx]

    The gate renders an icon and a spinner by status, the device id, and
    then either the locked panel ([status === 'LOCKED']) or the form: the
    pass-key input (disabled while scanning and after success), the error
    line (when [error] is not empty) and the submit button (disabled unless
    idle, its label by status).

    [gate_controls] shows that [Login.login_enabled] lets the user type and
    submit exactly when the rendered input and button accept it, which is
    what the model of the gate's events assumes.  [intrusion_message_hidden]
    shows that the warning [handleSubmit] sets when it locks the gate is
    never on screen: the locked panel has no error line, and the unlock
    timer clears the error before the form comes back. *)

From S2P Require Import Prelude JsString DeviceId Login.
Open Scope Z_scope.

Record GateForm := mkGateForm {
  gate_input_value : jsstr;
  input_disabled : bool;            (* status === 'SCANNING' || status === 'SUCCESS' *)
  scan_line : bool;                 (* the scanning bar under the input *)
  error_text : option jsstr;        (* {error && <p>{error}</p>} *)
  submit_disabled : bool;           (* status !== 'IDLE' *)
  submit_label : jsstr
}.

Record GateView := mkGateView {
  gate_icon : jsstr;
  gate_spinner : bool;
  gate_device_line : jsstr;         (* DEVICE ID: {deviceId} *)
  gate_form : option GateForm       (* None: the locked panel *)
}.

Definition locked_panel : list jsstr := [str "SYSTEM LOCKED"; str "Vui lòng đợi 10 giây..."].

Definition render_gate (st : LoginState) : GateView :=
  let s := status st in
  mkGateView
    (if s === LOCKED then str "⛔" else if s === SUCCESS then str "🔓" else str "🛡️")
    (s === SCANNING)
    (str "DEVICE ID: " ++ login_deviceId st)
    (if s === LOCKED then None
     else Some (mkGateForm (inputKey st) ((s === SCANNING) || (s === SUCCESS)) (s === SCANNING)
                  (if truthy_str (error st) then Some (error st) else None)
                  (s !== IDLE)
                  (if s === SCANNING then str "VERIFYING..."
                   else if s === SUCCESS then str "ACCESS GRANTED" else str "INITIATE SESSION"))).

(** The error line on screen, if any. *)
Definition shown_error (v : GateView) : option jsstr :=
  match gate_form v with Some f => error_text f | None => None end.

(** ** Lemmas *)

Lemma retry_message_not_lock n : retry_message n <> lock_message.
Proof.
  unfold retry_message, lock_message. intros H. apply (f_equal (fun l => head l)) in H.
  vm_compute in H. discriminate.
Qed.

(** The intrusion warning is the error only while the gate is locked. *)
Lemma lock_message_locked dev st :
  login_reachable dev st -> error st = lock_message -> status st = LOCKED.
Proof.
  induction 1 as [|st e Hr IH He]; [by vm_compute|].
  pose proof (login_inv_reachable dev st Hr) as Hi.
  destruct e as [v| | | |]; simpl in *; try done.
  - apply bool_decide_eq_true in He. unfold handleSubmit_start. by rewrite He.
  - destruct (pending_scan st) as [[[key att] d]|] eqn:Hp; [|done].
    rewrite (linv_scan dev st Hi) in Hp.
    destruct (decide (status st = SCANNING)) as [Hs|Hs];
      [|by rewrite bool_decide_false in Hp].
    unfold handleSubmit_resume. destruct (valid_key key); simpl.
    + intros Herr. apply IH in Herr. congruence.
    + destruct (att + 1 >=? 3); simpl; [done|]. intros H. by apply retry_message_not_lock in H.
Qed.

(** The model's gate lets the user type exactly when the
    rendered page shows the form with an enabled input, and submit exactly
    when it shows the form with an enabled button. *)
Theorem gate_controls st v :
  (login_enabled (LInput v) st = true <->
     exists f, gate_form (render_gate st) = Some f /\ input_disabled f = false) /\
  (login_enabled LSubmit st = true <->
     exists f, gate_form (render_gate st) = Some f /\ submit_disabled f = false).
Proof.
  unfold login_enabled, render_gate. simpl.
  destruct (status st); vm_compute; split; split; try done; eauto; by intros (f & [= <-] & ?).
Qed.

(** C24 (safety): the intrusion warning that [handleSubmit] stores in
    [error] when it locks the gate is never on screen, in any state the
    gate can reach: while locked the page shows the locked panel without an
    error line, and the unlock timer clears the error. *)
Theorem intrusion_message_hidden dev st :
  login_reachable dev st -> shown_error (render_gate st) <> Some lock_message.
Proof.
  intros Hr. unfold shown_error, render_gate. simpl.
  destruct (decide (status st = LOCKED)) as [Hl|Hl].
  - by rewrite bool_decide_true.
  - rewrite bool_decide_false by done. simpl. destruct (truthy_str (error st)); [|done].
    intros [= H]. by apply Hl, (lock_message_locked dev st Hr).
Qed.

(** ** Witnesses *)

Lemma intrusion_message_hidden_witness :
  login_reachable gate_device locked_state /\ shown_error (render_gate locked_state) <> Some lock_message.
Proof. split; [apply locked_reachable|]. apply (intrusion_message_hidden gate_device), locked_reachable. Defined.

(** After three failures the warning is stored but the page shows the
    locked panel instead. *)
Example locked_gate_view :
  error locked_state = lock_message /\ gate_form (render_gate locked_state) = None /\
  gate_icon (render_gate locked_state) = str "⛔".
Proof. split_and!; reflexivity. Qed.

Example idle_gate_view :
  render_gate gate_ready =
  mkGateView (str "🛡️") false (str "DEVICE ID: DEV-5F3A")
    (Some (mkGateForm [] false false None false (str "INITIATE SESSION"))).
Proof. reflexivity. Qed.
