(* ===== verification/Reader.v ===== *)
(** * The reader: [src/components/Reader.tsx]

    [handleDownload] writes the open document out as a text file: the
    content is a template literal (banner, the session's full device id,
    user name, timestamp, upper-cased title, author, type, description,
    [aiSummary || 'N/A'] and filler) passed through [trim()], and the name
    is [SECURE_${doc.title.replace(/\s+/g, '_')}_${user.deviceId.substr(0,4)}.txt].
    [replace_ws_runs] is the global replacement of each maximal run of
    ECMAScript white space ([\s]: white space and line terminators) by one
    underscore; [trim] removes the same set at both ends.  The study tip is
    the reader's only state, set once [getStudyTip] settles.

    The export has no device check of its own: the reader is only opened
    by [App.handleRead], after its check, which the session invariant of
    [App] carries over to the open document ([reader_export_authorized]).
    The exported file name carries [DEV-] and no part of the device id;
    the exported text carries all of it.  [render_reader] is what the
    overlay shows, and [app_reader_view] is [App]'s
    [{currentReadingDoc && <Reader .../>}]: its watermark and warning name
    the session's device ([reader_view_device]). *)

From S2P Require Import Prelude JsString Types DeviceId Access Gemini App.
Open Scope Z_scope.

(** The code units matched by [\s] (WhiteSpace and LineTerminator). *)
Definition is_js_space (c : Z) : bool :=
  (9 <=? c) && (c <=? 13) || (c =? 32) || (c =? 160) || (c =? 5760)
  || (8192 <=? c) && (c <=? 8202) || (c =? 8232) || (c =? 8233) || (c =? 8239)
  || (c =? 8287) || (c =? 12288) || (c =? 65279).

(** [s.replace(/\s+/g, '_')]; [in_run] says the previous code unit was
    white space already replaced. *)
Fixpoint replace_ws (in_run : bool) (s : jsstr) : jsstr :=
  match s with
  | [] => []
  | c :: s' =>
      if is_js_space c then (if in_run then replace_ws true s' else 95 :: replace_ws true s')
      else c :: replace_ws false s'
  end.

Definition replace_ws_runs (s : jsstr) : jsstr := replace_ws false s.

Definition download_filename (title deviceId : jsstr) : jsstr :=
  str "SECURE_" ++ replace_ws_runs title ++ str "_" ++ substr deviceId 0 4 ++ str ".txt".

(** [String.prototype.trim]: white space and line terminators (the [\s]
    set) removed at both ends. *)
Fixpoint trim_start (s : jsstr) : jsstr :=
  match s with
  | [] => []
  | c :: s' => if is_js_space c then trim_start s' else s
  end.

Definition trim (s : jsstr) : jsstr := rev (trim_start (rev (trim_start s))).

(** [${doc.aiSummary || 'N/A'}] *)
Definition summary_or_na (s : option jsstr) : jsstr :=
  match s with Some t => str_or t (str "N/A") | None => str "N/A" end.

Section DownloadText.

(** [String.prototype.toUpperCase] applies the full Unicode case mapping
    (the titles are Vietnamese); it only appears inside the text, and the
    theorems hold whatever it returns. *)
Variable toUpperCase : jsstr -> jsstr.

(** The template literal of [handleDownload] between its first line break
    and its final line break and indentation. *)
Definition export_body (doc : DocumentItem) (u : User) (timestamp : jsstr) : jsstr :=
  str "[SECURE DOCUMENT - DO NOT DISTRIBUTE]" ++ NL ++
  str "DEVICE ID BINDING: " ++ deviceId u ++ NL ++
  str "USER: " ++ name u ++ NL ++
  str "TIMESTAMP: " ++ timestamp ++ NL ++ NL ++
  str "--- DOCUMENT: " ++ toUpperCase (title doc) ++ str " ---" ++ NL ++
  str "AUTHOR: " ++ author doc ++ NL ++
  str "TYPE: " ++ doc_type_str (type doc) ++ NL ++ NL ++
  str "--- DESCRIPTION ---" ++ NL ++ description doc ++ NL ++ NL ++
  str "--- AI SUMMARY ---" ++ NL ++ summary_or_na (aiSummary doc) ++ NL ++ NL ++
  str "--- CONTENT SIMULATION ---" ++ NL ++
  str "Lorem ipsum dolor sit amet, consectetur adipiscing elit. " ++ NL ++
  str "(This is a generated file for demonstration purposes in StudyVerse 3D)".

(** [content]: the template literal as written, with [timestamp] the text
    of [new Date().toISOString()]. *)
Definition export_content (doc : DocumentItem) (u : User) (timestamp : jsstr) : jsstr :=
  NL ++ export_body doc u timestamp ++ NL ++ str "    ".

(** What [handleDownload] puts in the blob and the name it gives the file. *)
Definition handleDownload (doc : DocumentItem) (u : User) (timestamp : jsstr) : jsstr * jsstr :=
  (trim (export_content doc u timestamp), download_filename (title doc) (deviceId u)).

End DownloadText.

(** The study tip: [useState('')], then [setTip(await getStudyTip(doc.title))]. *)
Record ReaderState := mkReaderState { tip : jsstr }.

Definition reader_mount : ReaderState := mkReaderState [].

Definition fetchTip_done (o : TipOutcome) (st : ReaderState) : ReaderState :=
  mkReaderState (getStudyTip o).

(** ** The rendered reader (lines 56-138)

    The overlay is drawn over every view while a document is open:
    a watermark layer of twenty copies of [{user.deviceId} • DO NOT COPY •
    {user.name}], the header with the title and the [RESTRICTED] badge,
    the page with the title, the byline [Tác giả: {doc.author} | {doc.type}],
    the warning naming the device id and the description, and the sidebar
    with the tip (or a placeholder while it is empty) and the tracking log,
    whose first line prints the local time ([time]). *)

Definition watermark_line (u : User) : jsstr :=
  deviceId u ++ str " • DO NOT COPY • " ++ name u.

Definition warning_text (deviceId : jsstr) : jsstr :=
  str "⚠️ Cảnh báo: Tài liệu này được gắn mã theo dõi " ++ deviceId ++
  str ". Mọi hành vi sao chép trái phép sẽ bị phát hiện.".

Definition byline (doc : DocumentItem) : jsstr :=
  str "Tác giả: " ++ author doc ++ str " | " ++ doc_type_str (type doc).

Definition tip_text (st : ReaderState) : jsstr :=
  if truthy_str (tip st) then tip st else str "Đang phân tích bảo mật...".

Definition tracking_log (time : jsstr) : list jsstr :=
  [str "> Session started: " ++ time; str "> Device ID verified";
   str "> DRM Signature valid"; str "> Monitoring clipboard..."].

Record ReaderView := mkReaderView {
  rv_watermark : list jsstr;
  rv_header_title : jsstr;
  rv_badge : jsstr;
  rv_title : jsstr;
  rv_byline : jsstr;
  rv_warning : jsstr;
  rv_description : jsstr;
  rv_tip : jsstr;
  rv_log : list jsstr
}.

Definition render_reader (doc : DocumentItem) (u : User) (st : ReaderState) (time : jsstr) : ReaderView :=
  mkReaderView (repeat (watermark_line u) 20) (title doc) (str "RESTRICTED: DEVICE LOCKED")
    (title doc) (byline doc) (warning_text (deviceId u)) (description doc)
    (tip_text st) (tracking_log time).

(** [{currentReadingDoc && <Reader doc={currentReadingDoc} user={user} .../>}] *)
Definition app_reader_view (s : AppState) (st : ReaderState) (time : jsstr) : option ReaderView :=
  option_map (fun d => render_reader d (user s) st time) (currentReadingDoc s).

(** ** Lemmas *)

Lemma replace_ws_no_space b s : Forall (fun c => is_js_space c = false) (replace_ws b s).
Proof.
  revert b. induction s as [|c s IH]; intros b; simpl; [done|].
  destruct (is_js_space c) eqn:Hc; [destruct b|]; try constructor; auto.
Qed.

Lemma replace_ws_plain b s : Forall (fun c => is_js_space c = false) s -> replace_ws b s = s.
Proof.
  intros H. revert b. induction H as [|c s Hc _ IH]; intros b; simpl; [done|].
  by rewrite Hc, IH.
Qed.

Lemma substr_device_prefix s : substr (str "DEV-" ++ s) 0 4 = str "DEV-".
Proof. apply (substr_0_prefix (str "DEV-") s). Qed.

Lemma trim_start_spaces w x :
  Forall (fun c => is_js_space c = true) w -> trim_start (w ++ x) = trim_start x.
Proof. induction 1 as [|c w Hc _ IH]; simpl; [done|]. by rewrite Hc. Qed.

(** Trimming a text framed by white space, whose first and last code units
    are not white space, gives the text back. *)
Lemma trim_framed w1 b w2 c x y c' :
  Forall (fun c => is_js_space c = true) w1 -> Forall (fun c => is_js_space c = true) w2 ->
  b = c :: x -> b = y ++ [c'] -> is_js_space c = false -> is_js_space c' = false ->
  trim (w1 ++ b ++ w2) = b.
Proof.
  intros H1 H2 Hb1 Hb2 Hc Hc'. unfold trim.
  rewrite trim_start_spaces by done. rewrite Hb1 at 1. simpl. rewrite Hc, app_comm_cons, <- Hb1.
  rewrite rev_app_distr, trim_start_spaces by (by apply Forall_rev).
  rewrite Hb2, rev_app_distr. simpl. rewrite Hc'. simpl. by rewrite rev_involutive.
Qed.

(** The first and last code units of the template's text: [[] and [)]. *)
Lemma banner_first :
  str "[SECURE DOCUMENT - DO NOT DISTRIBUTE]" = 91 :: str "SECURE DOCUMENT - DO NOT DISTRIBUTE]".
Proof. vm_compute. reflexivity. Qed.

Lemma filler_last :
  str "(This is a generated file for demonstration purposes in StudyVerse 3D)" =
  str "(This is a generated file for demonstration purposes in StudyVerse 3D" ++ [41].
Proof. vm_compute. reflexivity. Qed.

Lemma export_body_first toU d u ts : exists x, export_body toU d u ts = 91 :: x.
Proof. unfold export_body. rewrite banner_first. eexists. reflexivity. Qed.

Lemma export_body_last toU d u ts : exists y, export_body toU d u ts = y ++ [41].
Proof. unfold export_body. rewrite filler_last, !app_assoc. eexists. reflexivity. Qed.

(** [content.trim()] is the template's text without its framing line
    breaks and indentation. *)
Lemma export_trim toU d u ts : trim (export_content toU d u ts) = export_body toU d u ts.
Proof.
  destruct (export_body_first toU d u ts) as [x Hx], (export_body_last toU d u ts) as [y Hy].
  unfold export_content. eapply trim_framed; [repeat constructor..|exact Hx|exact Hy|done|done].
Qed.

(** The exported file name is [SECURE_], the title with every
    run of white space turned into one underscore (so the part has no white
    space, and is the title itself when the title has none), [_], the first
    four code units of the device id and [.txt]. *)
Theorem download_filename_title title dev :
  exists mid, download_filename title dev = str "SECURE_" ++ mid ++ str "_" ++ substr dev 0 4 ++ str ".txt" /\
  Forall (fun c => is_js_space c = false) mid /\
  (Forall (fun c => is_js_space c = false) title -> mid = title).
Proof.
  exists (replace_ws_runs title). split; [done|].
  split; [apply replace_ws_no_space | apply replace_ws_plain].
Qed.

(** C30 (functional): the device part of the exported file name is the
    first four code units of the device id, which for every identifier
    [getDeviceId] generates is the constant [DEV-]: the name is the same on
    every device and does not identify the device it was exported from. *)
Theorem download_filename_device_constant title h1 h2 :
  download_filename title (device_id_of_hash h1) = download_filename title (device_id_of_hash h2) /\
  substr (device_id_of_hash h1) 0 4 = str "DEV-".
Proof.
  unfold download_filename, device_id_of_hash. by rewrite !substr_device_prefix.
Qed.

(** C31 (safety): in every reachable session, the document open in the
    reader, the only one its export button can write out, passes
    [verifyDeviceBinding] for the session's device, and the exported text,
    whatever the Unicode upper-casing and the clock give, starts with the
    banner and the full device id of the session on its second line. *)
Theorem reader_export_authorized toU s d ts :
  reachable s -> currentReadingDoc s = Some d ->
  verifyDeviceBinding d (deviceId (user s)) = true /\
  exists rest, (handleDownload toU d (user s) ts).1 =
    str "[SECURE DOCUMENT - DO NOT DISTRIBUTE]" ++ NL ++ str "DEVICE ID BINDING: " ++
    deviceId (user s) ++ rest.
Proof.
  intros Hr Hd. split; [exact (core_reader s (app_core_reachable s Hr) d Hd)|].
  simpl. rewrite export_trim. eexists. reflexivity.
Qed.

(** Once the study tip's call settles, the reader shows a
    non-empty tip whatever the service did: its text when it is not empty,
    and a fixed default otherwise. *)
Theorem fetchTip_nonempty o st : tip (fetchTip_done o st) <> [].
Proof.
  destruct o as [text|]; simpl; [|done].
  destruct (truthy_opt text) eqn:Ht; [|done].
  apply truthy_opt_true in Ht as (t & -> & Hne). done.
Qed.

(** In every reachable session, the reader drawn over the
    page shows the open document only when it passes [verifyDeviceBinding]
    for the session's device, so a document bound to a device is bound to
    this one; its watermark is twenty lines, each naming the session's
    device id and user, and its warning names the same device id. *)
Theorem reader_view_device s st time v :
  reachable s -> app_reader_view s st time = Some v ->
  (exists d, currentReadingDoc s = Some d /\ verifyDeviceBinding d (deviceId (user s)) = true /\
     forall b, boundDeviceId d = Some b -> b <> [] -> b = deviceId (user s)) /\
  length (rv_watermark v) = 20%nat /\ Forall (fun l => l = watermark_line (user s)) (rv_watermark v) /\
  rv_warning v = warning_text (deviceId (user s)).
Proof.
  intros Hr Hv. unfold app_reader_view in Hv.
  destruct (currentReadingDoc s) as [d|] eqn:Hd; [|done].
  cbn [option_map] in Hv. apply Some_inj in Hv. subst v.
  pose proof (core_reader s (app_core_reachable s Hr) d Hd) as Hok.
  split_and!; [|apply repeat_length| |done].
  - exists d. split_and!; [done|done|]. intros b Hb Hne.
    rewrite (verifyDeviceBinding_bound d b _ Hb Hne) in Hok. by apply bool_decide_eq_true in Hok.
  - apply Forall_forall. intros l Hl. by apply list_elem_of_In, repeat_spec in Hl.
Qed.

(** The member buys the second catalogue entry and opens it from the
    library, where it is now bound to the session's device. *)
Definition bought : AppState :=
  match run [EvBuy doc2 true] market with Some s => s | None => market end.

(** The catalogue's entry for it after the purchase, which the purchase
    bound to the session's device. *)
Definition doc2_bound : DocumentItem := nth 1 (documents bought) doc2.

Definition reading : AppState :=
  match run [EvBuy doc2 true; EvSetView LIBRARY; EvRead doc2_bound] market with
  | Some s => s | None => market end.

Lemma reading_reachable : reachable reading.
Proof.
  unfold reading. destruct (run _ market) eqn:E; [|apply market_reachable].
  eapply run_reachable; [apply market_reachable|exact E].
Qed.

Lemma reader_export_authorized_witness :
  (reachable reading /\ currentReadingDoc reading = Some doc2_bound) /\
  (verifyDeviceBinding doc2_bound (deviceId (user reading)) = true /\
   exists rest, (handleDownload to_upper doc2_bound (user reading) (str "2026-01-01T00:00:00.000Z")).1 =
     str "[SECURE DOCUMENT - DO NOT DISTRIBUTE]" ++ NL ++ str "DEVICE ID BINDING: " ++
     deviceId (user reading) ++ rest).
Proof.
  assert (Hd : currentReadingDoc reading = Some doc2_bound) by (vm_compute; reflexivity).
  split; [split; [apply reading_reachable|exact Hd]|].
  apply reader_export_authorized; [apply reading_reachable|exact Hd].
Defined.

Example download_filename_sample :
  download_filename (str "Giải Tích  1") (str "DEV-80000000") = str "SECURE_Giải_Tích_1_DEV-.txt".
Proof. reflexivity. Qed.

Definition reading_view : ReaderView :=
  render_reader doc2_bound (user reading) reader_mount (str "10:00:00").

Lemma reading_view_shown : app_reader_view reading reader_mount (str "10:00:00") = Some reading_view.
Proof. vm_compute. reflexivity. Qed.

Lemma reader_view_device_witness :
  (reachable reading /\ app_reader_view reading reader_mount (str "10:00:00") = Some reading_view) /\
  ((exists d, currentReadingDoc reading = Some d /\ verifyDeviceBinding d (deviceId (user reading)) = true /\
     forall b, boundDeviceId d = Some b -> b <> [] -> b = deviceId (user reading)) /\
   length (rv_watermark reading_view) = 20%nat /\
   Forall (fun l => l = watermark_line (user reading)) (rv_watermark reading_view) /\
   rv_warning reading_view = warning_text (deviceId (user reading))).
Proof.
  split; [split; [apply reading_reachable|apply reading_view_shown]|].
  apply (reader_view_device reading reader_mount (str "10:00:00")); [apply reading_reachable|apply reading_view_shown].
Defined.

(** Until the tip arrives the sidebar shows the placeholder. *)
Example reading_view_sidebar :
  rv_tip reading_view = str "Đang phân tích bảo mật..." /\
  head (rv_watermark reading_view) = Some (str "DEV-1A2B3C • DO NOT COPY • Member").
Proof. vm_compute. split; reflexivity. Qed.
