(* ===== verification/System.v ===== *)
(** * The whole page: [Login] feeding [App]

    [App] renders [Login] until [isAuthenticated]; the only caller of
    [App.handleLogin] is [Login]'s [onLogin].  [SysState] holds both
    components' states, with [localStorage] after [Login]'s mount effect.
    A [SysLogin] event runs a login event while the gate is shown and, when
    it calls [onLogin(key, deviceId)], runs [handleLogin] on the app; a
    [SysApp] event runs an app event other than the login, once
    authenticated.  The theorems show what the composition adds to [App]
    alone: the session's user is never the guest fallback of [handleLogin],
    and its device id is the non-empty identifier [getDeviceId] returned. *)

From stdpp Require Import gmap.
From S2P Require Import Prelude Types DeviceId Access App Login.

Record SysState := mkSysState {
  sys_storage : LocalStorage;
  sys_login : LoginState;
  sys_app : AppState
}.

Definition sys_init (env : Env) (ls : LocalStorage) : SysState :=
  let '(st, ls') := login_mount env ls in mkSysState ls' st initial_state.

Inductive SysEvent := SysLogin (e : LoginEvent) | SysApp (e : AppEvent).

Definition is_app_login (e : AppEvent) : bool := match e with EvLogin _ _ => true | _ => false end.

Definition sys_enabled (e : SysEvent) (s : SysState) : bool :=
  match e with
  | SysLogin le => negb (isAuthenticated (sys_app s)) && login_enabled le (sys_login s)
  | SysApp ae => negb (is_app_login ae) && app_enabled ae (sys_app s)
  end.

Definition sys_step (e : SysEvent) (s : SysState) : SysState :=
  match e with
  | SysLogin le =>
      let '(st', out) := login_step le (sys_login s) in
      let app' := match out with
                  | Some (key, dev) => handleLogin key dev (sys_app s)
                  | None => sys_app s
                  end in
      mkSysState (sys_storage s) st' app'
  | SysApp ae => mkSysState (sys_storage s) (sys_login s) (app_dispatch ae (sys_app s))
  end.

Inductive sys_reachable (env : Env) (ls : LocalStorage) : SysState -> Prop :=
  | sys_reachable_init : sys_reachable env ls (sys_init env ls)
  | sys_reachable_step s e :
      sys_reachable env ls s -> sys_enabled e s = true -> sys_reachable env ls (sys_step e s).

(** The users [handleLogin] creates for the two valid keys. *)
Definition member_user (u : User) : Prop :=
  user_id u = str "vip_user" \/ user_id u = str "test_user".

(** ** Lemmas *)

Lemma getDeviceId_nonempty env ls : (getDeviceId env ls).1 <> [].
Proof.
  unfold getDeviceId. destruct (truthy_opt (ls !! secure_device_id)) eqn:Ht; simpl; [|done].
  apply truthy_opt_true in Ht as (d & -> & Hne). done.
Qed.

Lemma handleLogin_valid key dev s :
  valid_key key = true -> member_user (user (handleLogin key dev s)) /\
  deviceId (user (handleLogin key dev s)) = dev.
Proof.
  unfold valid_key, handleLogin, member_user. intros Hv. simpl.
  apply orb_true_iff in Hv as [Hv|Hv]; apply bool_decide_eq_true in Hv; subst; simpl;
    decide_js; auto.
Qed.

(** App events other than the login keep the user's id and device. *)
Lemma app_dispatch_user e s :
  is_app_login e = false ->
  user_id (user (app_dispatch e s)) = user_id (user s) /\
  deviceId (user (app_dispatch e s)) = deviceId (user s).
Proof.
  destruct e as [key dev|v|doc confirm|doc|doc|f r| |]; simpl; try done; intros _.
  - destruct (handleBuy_cases doc confirm s) as [[-> _]|[[-> _]|[[-> _]|[[? ->] _]]]]; done.
  - unfold handleRead. by destruct (device_mismatch _ _).
Qed.

Record sys_inv (dev : jsstr) (s : SysState) : Prop := {
  sinv_login : login_reachable dev (sys_login s);
  sinv_app : reachable (sys_app s);
  sinv_user : isAuthenticated (sys_app s) = true ->
                member_user (user (sys_app s)) /\ deviceId (user (sys_app s)) = dev
}.

Lemma sys_inv_init env ls : sys_inv (getDeviceId env ls).1 (sys_init env ls).
Proof.
  unfold sys_init, login_mount. destruct (getDeviceId env ls) as [dev ls'] eqn:Hg. simpl.
  split; simpl; [constructor | constructor | done].
Qed.

Lemma sys_inv_step dev s e :
  sys_inv dev s -> sys_enabled e s = true -> sys_inv dev (sys_step e s).
Proof.
  intros [Hl Ha Hu] He. destruct e as [le|ae]; simpl in He; apply andb_prop in He as [He1 He2].
  - apply negb_true_iff in He1. simpl.
    destruct (login_step le (sys_login s)) as [st' out] eqn:Hs.
    assert (Hl' : login_reachable dev st').
    { replace st' with (login_step le (sys_login s)).1 by (by rewrite Hs). by constructor. }
    destruct out as [[key d]|].
    + destruct (onLogin_only_valid_core dev (sys_login s) le st' key d Hl Hs) as [Hv ->].
      split; simpl; [done| |intros _; exact (handleLogin_valid key dev (sys_app s) Hv)].
      apply (reachable_step _ (EvLogin key dev) Ha). unfold app_enabled. by rewrite He1.
    + split; simpl; [done|done|]. by rewrite He1.
  - apply negb_true_iff in He1. split; simpl; [done|by constructor|].
    intros Hauth. destruct (app_dispatch_user ae (sys_app s) He1) as [Hid Hdev].
    assert (isAuthenticated (sys_app s) = true) as Ha0.
    { destruct (app_enabled_auth ae (sys_app s) He2) as [(k & d & -> & _)|]; [done|done]. }
    destruct (Hu Ha0) as [Hm Hd]. unfold member_user in *. rewrite Hid, Hdev. done.
Qed.

Lemma sys_inv_reachable env ls s :
  sys_reachable env ls s -> sys_inv (getDeviceId env ls).1 s.
Proof. induction 1; [apply sys_inv_init|]. by apply sys_inv_step. Qed.

(** C8 (safety): in every state of the page, the application part is a
    reachable [App] state, and once logged in the session belongs to one of
    the two member accounts (the guest fallback of [handleLogin] is dead
    code) and its device is the identifier [getDeviceId] returned on the
    gate's mount, which is never empty, so every purchase creates a binding
    that [verifyDeviceBinding] enforces. *)
Theorem system_session env ls s :
  sys_reachable env ls s ->
  reachable (sys_app s) /\
  (isAuthenticated (sys_app s) = true ->
   member_user (user (sys_app s)) /\ deviceId (user (sys_app s)) = (getDeviceId env ls).1 /\
   deviceId (user (sys_app s)) <> []).
Proof.
  intros Hr. induction Hr as [|s e Hr IH He].
  - unfold sys_init, login_mount. destruct (getDeviceId env ls). simpl.
    split; [constructor|done].
  - pose proof (sys_inv_step _ s e (sys_inv_reachable env ls s Hr) He) as [_ Happ Hu].
    split; [done|]. intros Ha. destruct (Hu Ha) as [Hm Hd]. rewrite Hd.
    split_and!; [done|done|apply getDeviceId_nonempty].
Qed.

(** ** Runs and witness *)

Fixpoint sys_run (es : list SysEvent) (s : SysState) : option SysState :=
  match es with
  | [] => Some s
  | e :: es' => if sys_enabled e s then sys_run es' (sys_step e s) else None
  end.

Lemma sys_run_reachable env ls es s s' :
  sys_reachable env ls s -> sys_run es s = Some s' -> sys_reachable env ls s'.
Proof.
  revert s. induction es as [|e es IH]; intros s Hs; simpl; [by intros [= <-]|].
  destruct (sys_enabled e s) eqn:He; [|done]. intros. eapply IH; [|done]. by constructor.
Qed.

Definition sign_in : list SysEvent :=
  [SysLogin (LInput (str "test123@")); SysLogin LSubmit; SysLogin LScanDone; SysLogin LLoginTimer].

Definition signed_in : SysState :=
  match sys_run sign_in (sys_init sample_env ∅) with Some s => s | None => sys_init sample_env ∅ end.

Lemma signed_in_reachable : sys_reachable sample_env ∅ signed_in.
Proof.
  unfold signed_in. destruct (sys_run sign_in (sys_init sample_env ∅)) eqn:E; [|constructor].
  eapply sys_run_reachable; [constructor|exact E].
Qed.

Lemma system_session_witness :
  sys_reachable sample_env ∅ signed_in /\
  (reachable (sys_app signed_in) /\
   (isAuthenticated (sys_app signed_in) = true ->
    member_user (user (sys_app signed_in)) /\
    deviceId (user (sys_app signed_in)) = (getDeviceId sample_env ∅).1 /\
    deviceId (user (sys_app signed_in)) <> [])).
Proof. split; [apply signed_in_reachable|]. apply system_session, signed_in_reachable. Defined.

Example signed_in_is_member :
  isAuthenticated (sys_app signed_in) = true /\ user_id (user (sys_app signed_in)) = str "test_user" /\
  balance (user (sys_app signed_in)) = 500.
Proof. vm_compute. auto. Qed.
